(** * screfinery.schema: request validation and response projections

    A shallow embedding of [src/screfinery/schema.py].  The module declares
    pydantic models (pydantic 1.10: [constr(regex=...)], [GenericModel],
    [orm_mode]); what a model does with a payload is decided by pydantic's
    [validate_model] / [ModelField.validate] loop together with the field
    declarations and the two hand-written pieces of the module, the
    [passwords_match] class validators and the [from_orm] projections.  The
    embedding therefore has three layers:

    - Python values, exceptions and the type validators that pydantic attaches
      to [int], [float], [bool], [str], [datetime], [constr], [confloat],
      [List[...]] and nested models;
    - the field loop of [validate_model] with explicit state passing
      ([values], [fields_set], [errors]);
    - the declarations of schema.py, field by field, and its [from_orm]
      class methods. *)

From Stdlib Require Import ZArith String Ascii List Bool Lia Floats.
From stdpp Require Import base gmap strings list pretty.

Set Warnings "-register-all".

Local Open Scope string_scope.
Local Open Scope list_scope.
Local Open Scope Z_scope.

(** ** Python values *)

(** [datetime.datetime]: the wall-clock reading in microseconds and the
    offset of its tzinfo ([None] for a naive datetime). *)
Record datetime := mk_datetime {
  dt_wall : Z;
  dt_utcoffset : option Z
}.

(** The values that reach this module: JSON-decoded payloads ([None], [bool],
    [int], [float], [str], [list], [dict]), [datetime] objects, the
    duck-typed records handed over by the persistence layer ([VObj], an
    object identity and its attributes) and instances of the pydantic models
    themselves ([VModel]: class name, [__dict__] in field order,
    [__fields_set__]).  A [str] is a sequence of characters, one [ascii] per
    character; dictionaries and attribute tables hold each key once. *)
Inductive pyval :=
| VNone
| VBool (b : bool)
| VInt (n : Z)
| VFloat (x : float)
| VStr (s : string)
| VDatetime (d : datetime)
| VList (items : list pyval)
| VDict (entries : list (string * pyval))
| VObj (oid : N) (attrs : list (string * pyval))
| VModel (cls : string) (fields : list (string * pyval)) (fields_set : list string).

(** [d[k]] / [getattr] on an entry table. *)
Fixpoint assoc (k : string) (kvs : list (string * pyval)) : option pyval :=
  match kvs with
  | [] => None
  | (k', v) :: rest => if String.eqb k k' then Some v else assoc k rest
  end.

(** A [dict] or keyword-argument table as the finite map that
    [validate_model] reads with [input_data.get]. *)
Definition dict_of (kvs : list (string * pyval)) : gmap string pyval :=
  list_to_map kvs.

(** *** Numbers *)

(** [float(n)] for an [int]: round to nearest even; CPython raises
    [OverflowError] when the result does not fit a double. *)
Definition float_of_int (n : Z) : option float :=
  let x := SF2Prim (binary_normalize prec emax n 0 false) in
  if PrimFloat.is_infinity x then None else Some x.

(** [int(x)] for a [float]: truncation toward zero; [nan] raises
    [ValueError] and the infinities [OverflowError]. *)
Definition int_of_float (x : float) : option Z :=
  match Prim2SF x with
  | S754_zero _ => Some 0
  | S754_finite s m e =>
      let a := if 0 <=? e then Z.pos m * 2 ^ e else Z.pos m / 2 ^ (- e) in
      Some (if s then - a else a)
  | _ => None
  end.

(** [x == n] for a [float] and an [int], which Python decides exactly. *)
Definition float_eqb_int (x : float) (n : Z) : bool :=
  match Prim2SF x with
  | S754_zero _ => n =? 0
  | S754_finite s m e =>
      let sm := if s then Z.neg m else Z.pos m in
      if 0 <=? e then sm * 2 ^ e =? n else sm =? n * 2 ^ (- e)
  | _ => false
  end.

Inductive number := NInt (n : Z) | NFloat (x : float).

(** [bool] is a subclass of [int]: [True == 1]. *)
Definition as_number (v : pyval) : option number :=
  match v with
  | VBool b => Some (NInt (Z.b2z b))
  | VInt n => Some (NInt n)
  | VFloat x => Some (NFloat x)
  | _ => None
  end.

Definition number_eqb (a b : number) : bool :=
  match a, b with
  | NInt m, NInt n => m =? n
  | NInt m, NFloat x | NFloat x, NInt m => float_eqb_int x m
  | NFloat x, NFloat y => PrimFloat.eqb x y
  end.

Definition datetime_eqb (d e : datetime) : bool :=
  match dt_utcoffset d, dt_utcoffset e with
  | None, None => dt_wall d =? dt_wall e
  | Some od, Some oe => dt_wall d - od =? dt_wall e - oe
  | _, _ => false
  end.

(** *** Equality *)

(** Python's [a == b].  Numbers compare across [bool], [int] and [float];
    strings and lists compare by content, dictionaries as mappings; a
    pydantic model compares through its [dict()]; any other object falls back
    on identity.  Values of unrelated types are unequal. *)
Fixpoint py_eqb (a b : pyval) {struct a} : bool :=
  match a with
  | VNone => match b with VNone => true | _ => false end
  | VStr s => match b with VStr t => String.eqb s t | _ => false end
  | VDatetime d => match b with VDatetime e => datetime_eqb d e | _ => false end
  | VList xs =>
      match b with
      | VList ys =>
          (fix all2 (xs ys : list pyval) {struct xs} : bool :=
             match xs, ys with
             | [], [] => true
             | x :: xs', y :: ys' => py_eqb x y && all2 xs' ys'
             | _, _ => false
             end) xs ys
      | _ => false
      end
  | VDict kvs | VModel _ kvs _ =>
      match b with
      | VDict kvs' | VModel _ kvs' _ =>
          Nat.eqb (List.length kvs) (List.length kvs') &&
          (fix all (kvs : list (string * pyval)) : bool :=
             match kvs with
             | [] => true
             | (k, v) :: rest =>
                 match assoc k kvs' with
                 | Some v' => py_eqb v v'
                 | None => false
                 end && all rest
             end) kvs
      | _ => false
      end
  | VObj i _ => match b with VObj j _ => N.eqb i j | _ => false end
  | VBool _ | VInt _ | VFloat _ =>
      match as_number a, as_number b with
      | Some m, Some n => number_eqb m n
      | _, _ => false
      end
  end.

(** ** Exceptions *)

(** A location inside a payload: field names and list indices. *)
Inductive loc_item := LName (s : string) | LIndex (i : nat).

(** What pydantic reports per location: its own [pydantic.errors] classes,
    and a [ValueError] / [TypeError] raised by a validator. *)
Inductive error :=
| MissingError
| NoneIsNotAllowedError
| StrError
| AnyStrMaxLengthError (limit_value : nat)
| StrRegexError
| IntegerError
| FloatError
| BoolError
| NumberNotGtError (limit_value : float)
| NumberNotLeError (limit_value : float)
| ListError
| DateTimeError
| ValueError (msg : string)
| TypeError (msg : string).

(** The list behind [ValidationError.errors()]: flat, with full locations. *)
Abbreviation ErrorList := (list (list loc_item * error)).

(** The exceptions that occur.  [FieldError] and [ValidationError] are
    instances of [ValueError] or [TypeError], which [ModelField] catches
    around every validator; [AttributeError] and [OverflowError] are not and
    travel up to the caller. *)
Inductive exn :=
| FieldError (e : error)
| ValidationError (errs : ErrorList)
| AttributeError (attr : string)
| OverflowError.

Inductive result (A : Type) :=
| Return (a : A)
| Raise (x : exn).
Arguments Return {A} a.
Arguments Raise {A} x.

#[export] Instance result_ret : MRet result := @Return.
#[export] Instance result_bind : MBind result := λ A B f m,
  match m with
  | Return a => f a
  | Raise x => Raise x
  end.

(** [obj.attr].  Only persisted records and model instances carry the
    attributes this module reads ([user], [friend], [ore], [name], ...);
    on [None] and on every built-in value the access raises
    [AttributeError]. *)
Definition getattr (obj : pyval) (attr : string) : result pyval :=
  match obj with
  | VObj _ attrs | VModel _ attrs _ =>
      match assoc attr attrs with
      | Some v => Return v
      | None => Raise (AttributeError attr)
      end
  | _ => Raise (AttributeError attr)
  end.

(** ** Regular expressions *)

(** The fragment of [re] syntax the module uses: a pattern [^ a1 ... an $]
    whose atoms are a literal character [c] or the greedy class repetition
    [[^c]+]. *)
Inductive atom := Lit (c : ascii) | PlusNot (c : ascii).

(** [$] outside MULTILINE mode: at the end of the string, or just before a
    newline that ends the string. *)
Definition at_end (s : string) : bool :=
  match s with
  | EmptyString => true
  | String c EmptyString => Ascii.eqb c "010"
  | _ => false
  end.

(** [[^c]+] followed by the rest [k] of the pattern: take one character
    other than [c], then either take more or hand over to [k]. *)
Fixpoint plus_not (c : ascii) (k : string → bool) (s : string) : bool :=
  match s with
  | String a s' => negb (Ascii.eqb a c) && (plus_not c k s' || k s')
  | EmptyString => false
  end.

(** [re.match(p, s)], by backtracking. *)
Fixpoint re_match (p : list atom) (s : string) {struct p} : bool :=
  match p with
  | [] => at_end s
  | Lit c :: p' =>
      match s with
      | String a s' => Ascii.eqb a c && re_match p' s'
      | EmptyString => false
      end
  | PlusNot c :: p' => plus_not c (re_match p') s
  end.

(** [r"^[^@]+@[^@]+$"] *)
Definition mail_regex : list atom := [PlusNot "@"; Lit "@"; PlusNot "@"].

(** ** What is taken from the Python runtime *)

(** Four conversions are not spelled out: parsing a number or a date out of a
    string and printing a float.  Every definition below takes them as they
    come, and the properties proved in this file hold for every
    interpretation of them. *)
Record PyBuiltins := {
  (** [float(s)], [None] for [ValueError] *)
  float_of_str : string → option float;
  (** [int(s)], [None] for [ValueError] *)
  int_of_str : string → option Z;
  (** [str(x)] for a float *)
  str_of_float : float → string;
  (** [pydantic.datetime_parse.parse_datetime] on a value that is not a
      [datetime] already, [None] for [DateTimeError] *)
  parse_datetime : pyval → option datetime
}.

(** [str(n)] for an [int]. *)
Definition str_of_int (n : Z) : string := pretty n.

(** [s.lower()] *)
Definition lower_ascii (c : ascii) : ascii :=
  let n := nat_of_ascii c in
  if ((65 <=? n) && (n <=? 90))%nat then ascii_of_nat (n + 32) else c.

Fixpoint lower (s : string) : string :=
  match s with
  | EmptyString => EmptyString
  | String c s' => String (lower_ascii c) (lower s')
  end.

(** [pydantic.validators.BOOL_TRUE] and [BOOL_FALSE], their string members. *)
Definition BOOL_TRUE : list string := ["1"; "on"; "t"; "true"; "y"; "yes"].
Definition BOOL_FALSE : list string := ["0"; "off"; "f"; "false"; "n"; "no"].

Definition validator : Type := pyval → result pyval.

Section Validators.
Context (py : PyBuiltins).

(** *** pydantic.validators *)

Definition str_validator : validator := λ v,
  match v with
  | VStr _ => Return v
  | VBool b => Return (VStr (if b then "True" else "False"))
  | VInt n => Return (VStr (str_of_int n))
  | VFloat x => Return (VStr (str_of_float py x))
  | _ => Raise (FieldError StrError)
  end.

Definition int_validator : validator := λ v,
  match v with
  | VInt _ => Return v
  | VBool b => Return (VInt (Z.b2z b))
  | VFloat x =>
      match int_of_float x with
      | Some n => Return (VInt n)
      | None => Raise (FieldError IntegerError)
      end
  | VStr s =>
      match int_of_str py s with
      | Some n => Return (VInt n)
      | None => Raise (FieldError IntegerError)
      end
  | _ => Raise (FieldError IntegerError)
  end.

(** [float(v)] is wrapped in [except (TypeError, ValueError)], so the
    [OverflowError] of a huge [int] escapes. *)
Definition float_validator : validator := λ v,
  match v with
  | VFloat _ => Return v
  | VBool b => Return (VFloat (if b then 1 else 0)%float)
  | VInt n =>
      match float_of_int n with
      | Some x => Return (VFloat x)
      | None => Raise OverflowError
      end
  | VStr s =>
      match float_of_str py s with
      | Some x => Return (VFloat x)
      | None => Raise (FieldError FloatError)
      end
  | _ => Raise (FieldError FloatError)
  end.

Definition bool_validator : validator := λ v,
  match v with
  | VBool _ => Return v
  | VStr s =>
      if bool_decide (lower s ∈ BOOL_TRUE) then Return (VBool true)
      else if bool_decide (lower s ∈ BOOL_FALSE) then Return (VBool false)
      else Raise (FieldError BoolError)
  | VInt _ | VFloat _ =>
      if py_eqb v (VInt 1) then Return (VBool true)
      else if py_eqb v (VInt 0) then Return (VBool false)
      else Raise (FieldError BoolError)
  | _ => Raise (FieldError BoolError)
  end.

Definition datetime_validator : validator := λ v,
  match v with
  | VDatetime _ => Return v
  | _ =>
      match parse_datetime py v with
      | Some d => Return (VDatetime d)
      | None => Raise (FieldError DateTimeError)
      end
  end.

(** [len(v)] *)
Definition py_len (v : pyval) : option nat :=
  match v with
  | VStr s => Some (String.length s)
  | VList xs => Some (List.length xs)
  | VDict kvs => Some (List.length kvs)
  | _ => None
  end.

(** [constr_length_validator]; the module sets no [min_length], and
    [len(v) < 0] never holds. *)
Definition constr_length_validator (max_length : option nat) : validator := λ v,
  match py_len v with
  | None => Raise (FieldError (TypeError "len"))
  | Some v_len =>
      match max_length with
      | Some m =>
          if (m <? v_len)%nat then Raise (FieldError (AnyStrMaxLengthError m))
          else Return v
      | None => Return v
      end
  end.

(** [ConstrainedStr.validate]: the [regex] check. *)
Definition ConstrainedStr_validate (regex : option (list atom)) : validator := λ v,
  match regex with
  | None => Return v
  | Some p =>
      match v with
      | VStr s => if re_match p s then Return v else Raise (FieldError StrRegexError)
      | _ => Raise (FieldError (TypeError "re.match"))
      end
  end.

(** [number_size_validator] for the bounds the module uses, [gt] and [le]:
    [not v > gt] is tested first, then [not v <= le]. *)
Definition number_size_validator (gt le : option float) : validator := λ v,
  match v with
  | VFloat x =>
      match gt with
      | Some g => if negb (PrimFloat.ltb g x) then Raise (FieldError (NumberNotGtError g)) else Return v
      | None => Return v
      end ≫= λ _,
      match le with
      | Some l => if negb (PrimFloat.leb x l) then Raise (FieldError (NumberNotLeError l)) else Return v
      | None => Return v
      end
  | _ => Raise (FieldError (TypeError "number_size_validator"))
  end.

(** *** Field types *)

(** The annotations that occur in schema.py.  A nested model is carried by
    its class name and its [validate] class method. *)
Inductive ftype :=
| TAny
| TInt
| TFloat
| TBool
| TStr
| TDatetime
| TConStr (max_length : option nat) (regex : option (list atom))
| TConFloat (gt le : option float)
| TModel (cls : string) (validate : validator).

(** [find_validators] / [__get_validators__]: the chain a value of the
    type runs through.  The whitespace and case validators of [constr] are
    switched off in this module and left out. *)
Definition find_validators (t : ftype) : list validator :=
  match t with
  | TAny => []
  | TInt => [int_validator]
  | TFloat => [float_validator]
  | TBool => [bool_validator]
  | TStr => [str_validator]
  | TDatetime => [datetime_validator]
  | TConStr max_length regex =>
      [str_validator; constr_length_validator max_length; ConstrainedStr_validate regex]
  | TConFloat gt le => [float_validator; number_size_validator gt le]
  | TModel _ validate => [validate]
  end.

(** *** ModelField *)

Inductive Shape := SHAPE_SINGLETON | SHAPE_LIST.

(** A class validator that is neither [pre] nor [each_item]: it receives
    the value and the [values] validated so far. *)
Definition class_validator : Type := pyval → gmap string pyval → result pyval.

Record ModelField := mkField {
  name : string;
  type_ : ftype;
  required : bool;
  allow_none : bool;
  shape : Shape;
  post_validators : list class_validator
}.

(** The outcome of validating one field: the converted value, or the
    errors found. *)
Inductive outcome := Valid (v : pyval) | Errors (errs : ErrorList).

Definition at_loc (l : list loc_item) (errs : ErrorList) : ErrorList :=
  (λ le, (l ++ le.1, le.2)) <$> errs.

(** [ModelField._apply_validators]: run the chain; an exception that is a
    [ValueError], [TypeError] or [AssertionError] becomes the field's
    error (the errors of a nested [ValidationError] keep their inner
    locations), any other exception propagates. *)
Fixpoint run_validators (vs : list validator) (v : pyval) : result pyval :=
  match vs with
  | [] => Return v
  | f :: vs' => v' ← f v; run_validators vs' v'
  end.

Definition catch (l : list loc_item) (r : result pyval) : result outcome :=
  match r with
  | Return v => Return (Valid v)
  | Raise (FieldError e) => Return (Errors [(l, e)])
  | Raise (ValidationError errs) => Return (Errors (at_loc l errs))
  | Raise x => Raise x
  end.

Definition apply_validators (vs : list validator) (v : pyval) (l : list loc_item)
  : result outcome :=
  catch l (run_validators vs v).

(** [validate] of the sub-field of a [List[T]] field: an item of type
    [Any] may be [None], any other may not. *)
Definition item_allow_none (t : ftype) : bool :=
  match t with TAny => true | _ => false end.

Definition validate_item (t : ftype) (v : pyval) (l : list loc_item) : result outcome :=
  match v with
  | VNone =>
      if item_allow_none t then Return (Valid VNone)
      else Return (Errors [(l, NoneIsNotAllowedError)])
  | _ => apply_validators (find_validators t) v l
  end.

(** The loop of [_validate_sequence_like]: every item is validated, the
    errors of all items are collected, and the converted list is kept only
    when there is none. *)
Fixpoint validate_items (t : ftype) (l : list loc_item) (i : nat) (xs : list pyval)
  : result (list pyval * ErrorList) :=
  match xs with
  | [] => Return ([], [])
  | x :: xs' =>
      r ← validate_item t x (l ++ [LIndex i]);
      rest ← validate_items t l (S i) xs';
      match r with
      | Valid v => Return (v :: rest.1, rest.2)
      | Errors ee => Return (rest.1, ee ++ rest.2)
      end
  end.

Definition validate_sequence_like (t : ftype) (v : pyval) (l : list loc_item)
  : result outcome :=
  match v with
  | VList xs =>
      r ← validate_items t l 0 xs;
      match r.2 with
      | [] => Return (Valid (VList r.1))
      | _ => Return (Errors r.2)
      end
  | _ => Return (Errors [(l, ListError)])
  end.

(** The class validators, run like the type validators but with [values]. *)
Definition apply_post_validators (pvs : list class_validator) (v : pyval)
    (values : gmap string pyval) (l : list loc_item) : result outcome :=
  catch l (run_validators ((λ pv v, pv v values) <$> pvs) v).

(** The tail of [ModelField.validate]: the class validators, if the
    field has any. *)
Definition validate_post (f : ModelField) (v : pyval)
    (values : gmap string pyval) (l : list loc_item) : result outcome :=
  match post_validators f with
  | [] => Return (Valid v)
  | pvs => apply_post_validators pvs v values l
  end.

(** Its middle: the type validators, by the shape of the field. *)
Definition validate_shape (f : ModelField) (v : pyval) (l : list loc_item)
  : result outcome :=
  match shape f with
  | SHAPE_SINGLETON => apply_validators (find_validators (type_ f)) v l
  | SHAPE_LIST => validate_sequence_like (type_ f) v l
  end.

(** [ModelField.validate].  A [None] for a field that allows it skips the
    type validators but still runs the class validators. *)
Definition ModelField_validate (f : ModelField) (v : pyval)
    (values : gmap string pyval) (l : list loc_item) : result outcome :=
  match v with
  | VNone =>
      if allow_none f then validate_post f VNone values l
      else Return (Errors [(l, NoneIsNotAllowedError)])
  | _ =>
      r ← validate_shape f v l;
      match r with
      | Errors _ => Return r
      | Valid v' => validate_post f v' values l
      end
  end.

(** *** validate_model *)

(** The three accumulators of [validate_model]. *)
Record vstate := mkState {
  values : gmap string pyval;
  fields_set : gset string;
  errors : ErrorList
}.

Definition state0 : vstate := mkState ∅ ∅ [].

(** One turn of the loop over [model.__fields__].  A missing required
    field is an error; a missing optional field gets its default, which is
    [None] for every field of this module, without validation (no field
    sets [always]); a supplied field is recorded in [fields_set] and
    validated against the values accepted so far. *)
Definition validate_field (input_data : gmap string pyval) (f : ModelField)
    (st : vstate) : result vstate :=
  match input_data !! name f with
  | None =>
      if required f then
        Return (mkState (values st) (fields_set st)
                  (errors st ++ [([LName (name f)], MissingError)]))
      else
        Return (mkState (<[name f := VNone]> (values st)) (fields_set st) (errors st))
  | Some value =>
      r ← ModelField_validate f value (values st) [LName (name f)];
      match r with
      | Errors errs =>
          Return (mkState (values st) ({[name f]} ∪ fields_set st) (errors st ++ errs))
      | Valid v =>
          Return (mkState (<[name f := v]> (values st)) ({[name f]} ∪ fields_set st) (errors st))
      end
  end.

Fixpoint validate_fields (input_data : gmap string pyval) (fs : list ModelField)
    (st : vstate) : result vstate :=
  match fs with
  | [] => Return st
  | f :: fs' => st' ← validate_field input_data f st; validate_fields input_data fs' st'
  end.

(** [validate_model(model, input_data)]; keys that name no field are
    ignored ([Config.extra] is left at [ignore]). *)
Definition validate_model (fs : list ModelField) (input_data : gmap string pyval)
  : result vstate :=
  validate_fields input_data fs state0.

(** A constructed model: [__dict__] and [__fields_set__]. *)
Record instance := mkInstance {
  inst_dict : gmap string pyval;
  inst_fields_set : gset string
}.

(** [BaseModel.__init__] on the keyword arguments [data]: raise the
    [ValidationError] if there is one, else set [__dict__] and
    [__fields_set__]. *)
Definition BaseModel_init (fs : list ModelField) (data : gmap string pyval)
  : result instance :=
  st ← validate_model fs data;
  match errors st with
  | [] => Return (mkInstance (values st) (fields_set st))
  | errs => Raise (ValidationError errs)
  end.

End Validators.

(** ** schema.py *)

Section Schema.
Context (py : PyBuiltins).

(** *** Annotations *)

(** [name: T] *)
Definition Field (n : string) (t : ftype) : ModelField :=
  mkField n t true false SHAPE_SINGLETON [].

(** [name: List[T]] *)
Definition ListField (n : string) (t : ftype) : ModelField :=
  mkField n t true false SHAPE_LIST [].

(** [Optional[...]]: not required, [None] allowed, default [None]. *)
Definition Optional (f : ModelField) : ModelField :=
  mkField (name f) (type_ f) false true (shape f) (post_validators f).

(** [@validator(name)] on a method of the class. *)
Definition decorated (pv : class_validator) (f : ModelField) : ModelField :=
  mkField (name f) (type_ f) (required f) (allow_none f) (shape f)
    (post_validators f ++ [pv]).

(** [constr(max_length=n)] and [constr(max_length=n, regex=p)] *)
Definition constr (max_length : nat) : ftype := TConStr (Some max_length) None.
Definition constr_regex (max_length : nat) (p : list atom) : ftype :=
  TConStr (Some max_length) (Some p).

(** *** Model instances as values *)

(** The instance of class [cls] as a Python value, [__dict__] in the order
    of the declared fields. *)
Definition model_value (cls : string) (fs : list ModelField) (m : instance) : pyval :=
  VModel cls
    ((λ f, (name f, default VNone (inst_dict m !! name f))) <$> fs)
    (filter (λ n, n ∈ inst_fields_set m) (name <$> fs)).

(** [GetterDict(obj)]: [get(key)] is [getattr(obj, key)], missing when
    the attribute is. *)
Definition GetterDict (obj : pyval) : gmap string pyval :=
  match obj with
  | VObj _ attrs | VModel _ attrs _ => dict_of attrs
  | _ => ∅
  end.

(** The inherited [BaseModel.from_orm] of a class with [orm_mode]. *)
Definition BaseModel_from_orm (fs : list ModelField) (obj : pyval) : result instance :=
  BaseModel_init py fs (GetterDict obj).

(** [BaseModel.validate] for a class with [orm_mode = True] (every nested
    model of this module has it): an instance of the class is taken as it
    is (a copy), a [dict] is passed to the constructor, and anything else
    goes through the [from_orm] of the class. *)
Definition BaseModel_validate (cls : string) (fs : list ModelField)
    (from_orm : pyval → result instance) : validator := λ value,
  match value with
  | VDict kvs => m ← BaseModel_init py fs (dict_of kvs); Return (model_value cls fs m)
  | _ =>
      let is_instance :=
        match value with VModel c _ _ => String.eqb c cls | _ => false end in
      if is_instance then Return value
      else m ← from_orm value; Return (model_value cls fs m)
  end.

(** *** The models *)

Definition Related : list ModelField :=
  [ Field "id" TInt;
    Field "name" TStr ].

Definition Related_validate : validator :=
  BaseModel_validate "Related" Related (BaseModel_from_orm Related).

(** [ListResponse[ItemT]]; the unparametrised class reads [ItemT] as
    [Any]. *)
Definition ListResponse (ItemT : ftype) : list ModelField :=
  [ Field "total_count" TInt;
    ListField "items" ItemT ].

Definition Friendship : list ModelField :=
  [ Field "user_id" TInt;
    Field "user_name" TStr;
    Field "friend_id" TInt;
    Field "friend_name" TStr;
    Field "created" TDatetime;
    Optional (Field "confirmed" TDatetime) ].

Definition Friendship_from_orm (friendship : pyval) : result instance :=
  user_id ← getattr friendship "user_id";
  user ← getattr friendship "user";
  user_name ← getattr user "name";
  friend_id ← getattr friendship "friend_id";
  friend ← getattr friendship "friend";
  friend_name ← getattr friend "name";
  created ← getattr friendship "created";
  confirmed ← getattr friendship "confirmed";
  BaseModel_init py Friendship
    (dict_of [ ("user_id", user_id);
               ("user_name", user_name);
               ("friend_id", friend_id);
               ("friend_name", friend_name);
               ("created", created);
               ("confirmed", confirmed) ]).

Definition FriendshipUpdate : list ModelField :=
  [ Field "user_id" TInt;
    Optional (Field "user_name" (constr 50));
    Field "friend_id" TInt;
    Optional (Field "friend_name" (constr 50));
    Optional (Field "confirmed" TDatetime);
    Optional (Field "name" (constr 50)) ].

(** [passwords_match], the same body in [UserCreate] and [UserUpdate]:
    [if 'password' in values and value != values['password']: raise
    ValueError('passwords do not match')], else [return value]. *)
Definition passwords_match : class_validator := λ value values,
  match values !! "password" with
  | Some password =>
      if negb (py_eqb value password)
      then Raise (FieldError (ValueError "passwords do not match"))
      else Return value
  | None => Return value
  end.

Definition UserCreate : list ModelField :=
  [ Field "name" (constr 50);
    Field "mail" (constr_regex 250 mail_regex);
    Field "password" (constr 250);
    decorated passwords_match (Field "password_confirm" (constr 250));
    Field "is_google" TBool;
    Field "is_active" TBool;
    Optional (ListField "scopes" (constr 50)) ].

Definition UserUpdate : list ModelField :=
  [ Optional (Field "name" (constr 50));
    Optional (Field "mail" (constr_regex 250 mail_regex));
    Optional (Field "password" (constr 250));
    decorated passwords_match (Optional (Field "password_confirm" (constr 250)));
    Optional (Field "is_google" TBool);
    Optional (Field "is_active" TBool);
    Optional (ListField "scopes" (constr 50)) ].

Definition OreUpdate : list ModelField :=
  [ Optional (Field "name" (constr 50)) ].

Definition StationOreEfficiency : list ModelField :=
  [ Field "efficiency_bonus" TFloat;
    Field "ore_id" TInt;
    Optional (Field "ore_name" TStr) ].

Definition StationOreEfficiency_from_orm (obj : pyval) : result instance :=
  efficiency_bonus ← getattr obj "efficiency_bonus";
  ore_id ← getattr obj "ore_id";
  ore ← getattr obj "ore";
  ore_name ← getattr ore "name";
  BaseModel_init py StationOreEfficiency
    (dict_of [ ("efficiency_bonus", efficiency_bonus);
               ("ore_id", ore_id);
               ("ore_name", ore_name) ]).

Definition StationOreEfficiency_validate : validator :=
  BaseModel_validate "StationOreEfficiency" StationOreEfficiency
    StationOreEfficiency_from_orm.

Definition StationUpdate : list ModelField :=
  [ Optional (Field "name" (constr 50));
    Optional (ListField "efficiencies"
                (TModel "StationOreEfficiency" StationOreEfficiency_validate)) ].

(** [confloat(gt=0, le=1)] and [confloat(gt=0)]: the bounds are the ints 0
    and 1, and a float compares with them as with 0.0 and 1.0. *)
Definition MethodOreEfficiency : list ModelField :=
  [ Field "efficiency" (TConFloat (Some 0%float) (Some 1%float));
    Field "duration" (TConFloat (Some 0%float) None);
    Field "ore_id" TInt;
    Optional (Field "ore_name" TStr) ].

Definition MethodOreEfficiency_from_orm (obj : pyval) : result instance :=
  efficiency ← getattr obj "efficiency";
  duration ← getattr obj "duration";
  ore_id ← getattr obj "ore_id";
  ore ← getattr obj "ore";
  ore_name ← getattr ore "name";
  BaseModel_init py MethodOreEfficiency
    (dict_of [ ("efficiency", efficiency);
               ("duration", duration);
               ("ore_id", ore_id);
               ("ore_name", ore_name) ]).

Definition MethodOreEfficiency_validate : validator :=
  BaseModel_validate "MethodOreEfficiency" MethodOreEfficiency
    MethodOreEfficiency_from_orm.

Definition MethodUpdate : list ModelField :=
  [ Optional (Field "name" (constr 50));
    Optional (ListField "efficiencies"
                (TModel "MethodOreEfficiency" MethodOreEfficiency_validate)) ].

Definition MiningSessionUpdate : list ModelField :=
  [ Optional (Field "name" (constr 50));
    Optional (Field "archived" TDatetime);
    Optional (Field "yield_scu" TFloat);
    Optional (Field "yield_uec" TFloat);
    Optional (ListField "users_invited" (TModel "Related" Related_validate)) ].

End Schema.

(** ** Vocabulary of the statements *)

#[export] Instance loc_item_eq_dec : EqDecision loc_item.
Proof. solve_decision. Defined.

(** An error is attached to field [n] when its location starts with [n]. *)
Definition at_field (n : string) (le : list loc_item * error) : Prop :=
  head le.1 = Some (LName n).

#[export] Instance at_field_dec n le : Decision (at_field n le).
Proof. unfold at_field. apply _. Defined.

(** The errors attached to field [n], in the order they were reported. *)
Definition errors_at (n : string) (errs : ErrorList) : ErrorList :=
  filter (at_field n) errs.

(** The error of [passwords_match]. *)
Definition mismatch : list loc_item * error :=
  ([LName "password_confirm"], ValueError "passwords do not match").

(** A mail address as the specification words it: exactly one [@], with at
    least one other character on each side. *)
Fixpoint no_at (s : string) : bool :=
  match s with
  | EmptyString => true
  | String c s' => negb (Ascii.eqb c "@") && no_at s'
  end.

Fixpoint split_at (s : string) : option (string * string) :=
  match s with
  | EmptyString => None
  | String c s' =>
      if Ascii.eqb c "@" then Some (EmptyString, s')
      else match split_at s' with
           | Some (x, y) => Some (String c x, y)
           | None => None
           end
  end.

Definition one_at (s : string) : bool :=
  match split_at s with
  | Some (x, y) =>
      negb (String.eqb x "") && negb (String.eqb y "") && no_at y
  | None => false
  end.

(** A value that already is of the exact Python type a field type converts
    to (a [bool] is not taken for an [int], nor an [int] for a [float]). *)
Definition isinstance (t : ftype) (v : pyval) : bool :=
  match t, v with
  | TAny, _ => true
  | TInt, VInt _ => true
  | (TFloat | TConFloat _ _), VFloat _ => true
  | TBool, VBool _ => true
  | (TStr | TConStr _ _), VStr _ => true
  | TDatetime, VDatetime _ => true
  | _, _ => false
  end.

(** The same for a whole field: [None] where the field allows it, a value
    of the type, or a list of such values for a [List] field. *)
Definition field_isinstance (f : ModelField) (v : pyval) : bool :=
  match v with
  | VNone => allow_none f
  | _ =>
      match shape f with
      | SHAPE_SINGLETON => isinstance (type_ f) v
      | SHAPE_LIST =>
          match v with
          | VList xs => forallb (isinstance (type_ f)) xs
          | _ => false
          end
      end
  end.

(** A class validator that hands its value back or rejects it. *)
Definition checks_only (pv : class_validator) : Prop :=
  ∀ v vals, pv v vals = Return v ∨ ∃ e, pv v vals = Raise (FieldError e).

(** A field type whose validators raise nothing but field errors. *)
Definition plain_type (t : ftype) : bool :=
  match t with
  | TFloat | TConFloat _ _ | TModel _ _ => false
  | _ => true
  end.

Definition plain_field (f : ModelField) : Prop :=
  plain_type (type_ f) = true ∧ Forall checks_only (post_validators f).

(** The six update models of the module. *)
Definition update_models (py : PyBuiltins) : list (list ModelField) :=
  [ UserUpdate; OreUpdate; StationUpdate py; MethodUpdate py;
    MiningSessionUpdate py; FriendshipUpdate ].

(** The errors of a field are reported below its location. *)
Definition prefixed (l : list loc_item) (le : list loc_item * error) : Prop :=
  ∃ l', le.1 = l ++ l'.

(** A validator result that [ModelField] turns into a value or an error. *)
Definition is_caught (r : result pyval) : Prop :=
  match r with
  | Raise (AttributeError _) | Raise OverflowError => False
  | _ => True
  end.

(** A field whose validation comes back with an outcome on the payload [p]. *)
Definition returns (py : PyBuiltins) (p : gmap string pyval) (f : ModelField) : Prop :=
  ∀ v vals l, p !! name f = Some v → ∃ o, ModelField_validate py f v vals l = Return o.

(** The interpretation of the runtime conversions at which the closed
    instances below are evaluated: the one that parses nothing.  The
    statements themselves hold for every interpretation. *)
Definition no_conversions : PyBuiltins :=
  {| float_of_str := λ _, None;
     int_of_str := λ _, None;
     str_of_float := λ _, "";
     parse_datetime := λ _, None |}.

(** A string of [n] letters. *)
Definition letters (n : nat) : string := string_of_list_ascii (repeat "a"%char n).

(** Whether a construction came back with an instance, and the value it
    gave a field. *)
Definition accepted (r : result instance) : bool :=
  match r with Return _ => true | Raise _ => false end.

Definition field_of (r : result instance) (n : string) : option pyval :=
  match r with Return m => inst_dict m !! n | Raise _ => None end.

(** ** Sample payloads and records *)

Definition signup_without_password : gmap string pyval :=
  dict_of [ ("name", VStr "alice");
            ("mail", VStr "alice@example.org");
            ("password_confirm", VStr "secret");
            ("is_google", VBool false);
            ("is_active", VBool true) ].

Definition signup (mail password confirm : string) : gmap string pyval :=
  dict_of [ ("name", VStr "alice");
            ("mail", VStr mail);
            ("password", VStr password);
            ("password_confirm", VStr confirm);
            ("is_google", VBool false);
            ("is_active", VBool true) ].

Definition change_password (password confirm : pyval) : gmap string pyval :=
  dict_of [ ("password", password); ("password_confirm", confirm) ].

Definition efficiency_entry (efficiency duration : pyval) : gmap string pyval :=
  dict_of [ ("efficiency", efficiency); ("duration", duration); ("ore_id", VInt 3) ].

Definition efficiency_record_without_ore : pyval :=
  VObj 1 [ ("efficiency_bonus", VFloat 0.25%float);
           ("efficiency", VFloat 0.5%float);
           ("duration", VFloat 90%float);
           ("ore_id", VInt 7);
           ("ore", VNone) ].

Definition alice : pyval := VObj 11 [ ("id", VInt 1); ("name", VStr "Alice") ].
Definition bob : pyval := VObj 12 [ ("id", VInt 2); ("name", VStr "Bob") ].
Definition new_year : datetime := mk_datetime 63745056000000000 None.

(** A friendship record that also carries stale copies of the two names. *)
Definition friendship_record : pyval :=
  VObj 10 [ ("user_id", VInt 1);
            ("user_name", VStr "Alicia");
            ("user", alice);
            ("friend_id", VInt 2);
            ("friend_name", VStr "Robert");
            ("friend", bob);
            ("created", VDatetime new_year);
            ("confirmed", VNone) ].

(** A page of twenty items out of fifty-seven. *)
Definition page : list pyval := (λ i, VInt (Z.of_nat i)) <$> seq 0 20.
Definition page_response : gmap string pyval :=
  dict_of [ ("total_count", VInt 57); ("items", VList page) ].

Definition rename_user : gmap string pyval :=
  dict_of [ ("name", VStr "Alice"); ("mail", VNone) ].

(** ** The rest of schema.py *)

(** Iterating a value, as a comprehension does: the items of a list, the
    characters of a string, the keys of a dictionary, the (name, value)
    pairs of a model; anything else is not iterable. *)
Definition py_iter (v : pyval) : result (list pyval) :=
  match v with
  | VList xs => Return xs
  | VStr s => Return ((λ c, VStr (String c EmptyString)) <$> list_ascii_of_string s)
  | VDict kvs => Return ((λ kv, VStr kv.1) <$> kvs)
  | VModel _ fields _ => Return ((λ kv, VList [VStr kv.1; kv.2]) <$> fields)
  | _ => Raise (FieldError (TypeError "object is not iterable"))
  end.

(** [[s.scope for s in xs]] *)
Fixpoint scope_attrs (xs : list pyval) : result (list pyval) :=
  match xs with
  | [] => Return []
  | s :: xs' => v ← getattr s "scope"; vs ← scope_attrs xs'; Return (v :: vs)
  end.

Section Responses.
Context (py : PyBuiltins).

Definition Login : list ModelField :=
  [ Field "username" (constr 250);
    Field "password" (constr 250) ].

Definition UserScope : list ModelField :=
  [ Field "scope" (constr 50);
    Optional (Field "created" TDatetime) ].

Definition Friendship_validate : validator :=
  BaseModel_validate py "Friendship" Friendship (Friendship_from_orm py).

Definition FriendshipList : list ModelField :=
  [ ListField "friends_outgoing" (TModel "Friendship" Friendship_validate);
    ListField "friends_incoming" (TModel "Friendship" Friendship_validate) ].

Definition User : list ModelField :=
  [ Field "id" TInt;
    Field "name" TStr;
    Field "mail" TStr;
    Field "is_google" TBool;
    Field "is_active" TBool;
    Field "created" TDatetime;
    Field "updated" TDatetime;
    Optional (Field "last_login" TDatetime);
    ListField "scopes" TStr ].

Definition User_from_orm (user : pyval) : result instance :=
  id ← getattr user "id";
  name ← getattr user "name";
  mail ← getattr user "mail";
  is_google ← getattr user "is_google";
  is_active ← getattr user "is_active";
  created ← getattr user "created";
  updated ← getattr user "updated";
  last_login ← getattr user "last_login";
  user_scopes ← getattr user "scopes";
  items ← py_iter user_scopes;
  scopes ← scope_attrs items;
  BaseModel_init py User
    (dict_of [ ("id", id);
               ("name", name);
               ("mail", mail);
               ("is_google", is_google);
               ("is_active", is_active);
               ("created", created);
               ("updated", updated);
               ("last_login", last_login);
               ("scopes", VList scopes) ]).

(** [constr(regex=...)] without [max_length] *)
Definition UserQuery : list ModelField :=
  [ Optional (Field "id" TInt);
    Optional (Field "name" TStr);
    Optional (Field "mail" (TConStr None (Some mail_regex)));
    Optional (Field "is_google" TBool);
    Optional (Field "is_active" TBool);
    Optional (Field "created" TDatetime);
    Optional (Field "updated" TDatetime);
    Optional (Field "last_login" TDatetime) ].

Definition Ore : list ModelField :=
  [ Field "id" TInt;
    Field "name" TStr;
    Field "created" TDatetime;
    Field "updated" TDatetime ].

Definition OreCreate : list ModelField :=
  [ Field "name" (constr 50) ].

Definition Station : list ModelField :=
  [ Field "id" TInt;
    Field "name" TStr;
    Field "created" TDatetime;
    Field "updated" TDatetime;
    ListField "efficiencies"
      (TModel "StationOreEfficiency" (StationOreEfficiency_validate py)) ].

(** [Station.from_orm], the inherited one. *)
Definition Station_from_orm (obj : pyval) : result instance :=
  BaseModel_from_orm py Station obj.

Definition StationCreate : list ModelField :=
  [ Field "name" (constr 50);
    ListField "efficiencies"
      (TModel "StationOreEfficiency" (StationOreEfficiency_validate py)) ].

Definition Method : list ModelField :=
  [ Field "id" TInt;
    Field "name" TStr;
    Field "created" TDatetime;
    Field "updated" TDatetime;
    ListField "efficiencies"
      (TModel "MethodOreEfficiency" (MethodOreEfficiency_validate py)) ].

(** [Method.from_orm], the inherited one. *)
Definition Method_from_orm (obj : pyval) : result instance :=
  BaseModel_from_orm py Method obj.

Definition MethodCreate : list ModelField :=
  [ Field "name" (constr 50);
    ListField "efficiencies"
      (TModel "MethodOreEfficiency" (MethodOreEfficiency_validate py)) ].

Definition MiningSessionEntry : list ModelField :=
  [ Field "id" TInt;
    Field "user" (TModel "Related" (Related_validate py));
    Field "station" (TModel "Related" (Related_validate py));
    Field "ore" (TModel "Related" (Related_validate py));
    Field "method" (TModel "Related" (Related_validate py));
    Field "created" TDatetime;
    Field "updated" TDatetime;
    Field "quantity" TFloat;
    Field "duration" TFloat ].

Definition MiningSession : list ModelField :=
  [ Field "id" TInt;
    Field "creator" (TModel "Related" (Related_validate py));
    Field "name" TStr;
    Field "created" TDatetime;
    Field "updated" TDatetime;
    Optional (Field "archived" TDatetime);
    Optional (Field "yield_scu" TFloat);
    Optional (Field "yield_uec" TFloat) ].

Definition MiningSessionListItem : list ModelField :=
  [ Field "id" TInt;
    Field "creator" (TModel "Related" (Related_validate py));
    Field "name" TStr;
    Field "created" TDatetime;
    Field "updated" TDatetime;
    Optional (Field "archived" TDatetime);
    Optional (Field "yield_scu" TFloat);
    Optional (Field "yield_uec" TFloat);
    Field "entries_count" TInt;
    Field "users_invited_count" TInt ].

Definition MiningSessionCreate : list ModelField :=
  [ Field "creator_id" TInt;
    Field "name" (constr 50) ].

End Responses.

(** A field type that converts and checks nothing more. *)
Definition unconstrained (t : ftype) : bool :=
  match t with
  | TAny | TInt | TFloat | TBool | TStr | TDatetime => true
  | _ => false
  end.

(** A value that a field accepts as it is, whatever was accepted before. *)
Definition kept (py : PyBuiltins) (f : ModelField) (v : pyval) : Prop :=
  ∀ vals l, ModelField_validate py f v vals l = Return (Valid v).

(** [None] or a [datetime], for an [Optional[datetime]] column. *)
Definition optional_datetime (v : pyval) : Prop :=
  v = VNone ∨ ∃ d, v = VDatetime d.

(** A user record with two scopes. *)
Definition user_record : pyval :=
  VObj 20 [ ("id", VInt 1);
            ("name", VStr "Alice");
            ("mail", VStr "alice@example.org");
            ("is_google", VBool false);
            ("is_active", VBool true);
            ("created", VDatetime new_year);
            ("updated", VDatetime new_year);
            ("last_login", VNone);
            ("scopes", VList [ VObj 21 [("scope", VStr "user.read")];
                               VObj 22 [("scope", VStr "ore.write")] ]) ].

(** An exception that [ModelField] does not turn into an error. *)
Definition uncaught (x : exn) : Prop :=
  match x with
  | AttributeError _ | OverflowError => True
  | _ => False
  end.

(** A record of an ore and of a refining method's entry for it. *)
Definition quantanium : pyval := VObj 30 [ ("id", VInt 3); ("name", VStr "Quantanium") ].

Definition method_entry (efficiency duration : float) : pyval :=
  VObj 31 [ ("efficiency", VFloat efficiency);
            ("duration", VFloat duration);
            ("ore_id", VInt 3);
            ("ore_name", VStr "Quantainium");
            ("ore", quantanium) ].

Definition station_entry (bonus : float) : pyval :=
  VObj 32 [ ("efficiency_bonus", VFloat bonus);
            ("ore_id", VInt 3);
            ("ore_name", VStr "Quantainium");
            ("ore", quantanium) ].

(** A user record whose collection of scopes holds a [None]. *)
Definition user_record_null_scope : pyval :=
  VObj 23 [ ("id", VInt 1);
            ("name", VStr "Alice");
            ("mail", VStr "alice@example.org");
            ("is_google", VBool false);
            ("is_active", VBool true);
            ("created", VDatetime new_year);
            ("updated", VDatetime new_year);
            ("last_login", VNone);
            ("scopes", VList [ VObj 21 [("scope", VStr "user.read")]; VNone ]) ].

(** A friendship record whose [friend] relation is not loaded. *)
Definition friendship_without_friend : pyval :=
  VObj 13 [ ("user_id", VInt 1);
            ("user", alice);
            ("friend_id", VInt 2);
            ("friend_name", VStr "Robert");
            ("friend", VNone);
            ("created", VDatetime new_year);
            ("confirmed", VNone) ].

(** A station record with two entries, the second without its ore. *)
Definition station_record : pyval :=
  VObj 40 [ ("id", VInt 5);
            ("name", VStr "ARC-L1");
            ("created", VDatetime new_year);
            ("updated", VDatetime new_year);
            ("efficiencies", VList [ station_entry 0.25%float;
                                     efficiency_record_without_ore ]) ].

(** A new method with two entries, the second with an efficiency of 1.5. *)
Definition method_payload : gmap string pyval :=
  dict_of [ ("name", VStr "Dinyx Solventation");
            ("efficiencies",
             VList [ VDict [ ("efficiency", VFloat 0.5%float);
                             ("duration", VFloat 60%float);
                             ("ore_id", VInt 3) ];
                     VDict [ ("efficiency", VFloat 1.5%float);
                             ("duration", VFloat 60%float);
                             ("ore_id", VInt 4) ] ]) ].

(** An ore record with a column that [Ore] does not declare. *)
Definition ore_record : pyval :=
  VObj 34 [ ("id", VInt 3);
            ("name", VStr "Quantanium");
            ("created", VDatetime new_year);
            ("updated", VDatetime new_year);
            ("price", VFloat 88%float) ].

(** A mining session record; its creator is a full user record. *)
Definition session_record : pyval :=
  VObj 50 [ ("id", VInt 9);
            ("creator", user_record);
            ("name", VStr "Aaron Halo");
            ("created", VDatetime new_year);
            ("updated", VDatetime new_year);
            ("archived", VNone);
            ("yield_scu", VFloat 32%float);
            ("yield_uec", VNone) ].

(** A mail address of 312 characters. *)
Definition long_mail : string := letters 300 ++ "@example.org".

(** The request models that carry a [name: constr(max_length=50)], required
    on creation and optional on update. *)
Definition named_models (py : PyBuiltins) : list (list ModelField) :=
  [ UserCreate; UserUpdate; OreCreate; OreUpdate;
    StationCreate py; StationUpdate py; MethodCreate py; MethodUpdate py;
    MiningSessionCreate; MiningSessionUpdate py; FriendshipUpdate ].

(** * Properties *)

(** ** The field loop *)

Lemma bind_Return {A B} (m : result A) (k : A → result B) (b : B) :
  m ≫= k = Return b → ∃ a, m = Return a ∧ k a = Return b.
Proof. destruct m as [a|x]; [by exists a | discriminate]. Qed.

Lemma prefixed_at_field n le : prefixed [LName n] le → at_field n le.
Proof. intros [l' H]. unfold at_field. by rewrite H. Qed.

Lemma prefixed_app l k le : prefixed (l ++ k) le → prefixed l le.
Proof. intros [l' H]. exists (k ++ l'). by rewrite H, <- app_assoc. Qed.

Lemma errors_at_app n es1 es2 :
  errors_at n (es1 ++ es2) = errors_at n es1 ++ errors_at n es2.
Proof. apply filter_app. Qed.

Lemma errors_at_own n es : Forall (at_field n) es → errors_at n es = es.
Proof.
  induction 1 as [|le es H _ IH]; [done|].
  unfold errors_at in *. rewrite filter_cons_True by done. by rewrite IH.
Qed.

Lemma errors_at_other n m es :
  n ≠ m → Forall (at_field m) es → errors_at n es = [].
Proof.
  intros Hne. induction 1 as [|le es H _ IH]; [done|].
  unfold errors_at in *. rewrite filter_cons_False; [done|].
  unfold at_field in *. rewrite H. congruence.
Qed.

Lemma errors_at_elem n le es : le ∈ errors_at n es ↔ at_field n le ∧ le ∈ es.
Proof. apply list_elem_of_filter. Qed.

Section Engine.
Context (py : PyBuiltins).
Implicit Types (f : ModelField) (fs : list ModelField).
Implicit Types (p : gmap string pyval) (st : vstate) (l : list loc_item).

Lemma catch_prefixed l r es :
  catch l r = Return (Errors es) → Forall (prefixed l) es.
Proof.
  destruct r as [v|[e|errs|a|]]; simpl; intros H; inversion H; subst.
  - repeat constructor. exists []. simpl. by rewrite app_nil_r.
  - unfold at_loc. apply Forall_fmap, Forall_forall.
    intros [l' e] _. by exists l'.
Qed.

Lemma catch_total l r : is_caught r → ∃ o, catch l r = Return o.
Proof. destruct r as [v|[e|errs|a|]]; simpl; by eauto. Qed.

Lemma validate_item_prefixed t v l es :
  validate_item py t v l = Return (Errors es) → Forall (prefixed l) es.
Proof.
  unfold validate_item, apply_validators.
  destruct v; try apply catch_prefixed.
  destruct (item_allow_none t); intros H; inversion H; subst.
  repeat constructor. exists []. simpl. by rewrite app_nil_r.
Qed.

Lemma validate_items_prefixed t l xs : ∀ i r,
  validate_items py t l i xs = Return r → Forall (prefixed l) r.2.
Proof.
  induction xs as [|x xs IH]; intros i r; simpl.
  - intros H. inversion H. constructor.
  - intros H. apply bind_Return in H as (o & Ho & H).
    apply bind_Return in H as (rest & Hrest & H).
    apply IH in Hrest.
    destruct o as [v|ee]; inversion H; subst; simpl; [done|].
    apply Forall_app. split; [|done].
    apply validate_item_prefixed in Ho.
    eapply Forall_impl; [exact Ho|]. intros le. apply prefixed_app.
Qed.

Lemma validate_sequence_like_prefixed t v l es :
  validate_sequence_like py t v l = Return (Errors es) → Forall (prefixed l) es.
Proof.
  unfold validate_sequence_like.
  destruct v; try (intros H; inversion H; subst; repeat constructor;
                   exists []; simpl; by rewrite app_nil_r).
  intros H. apply bind_Return in H as (r & Hr & H).
  apply validate_items_prefixed in Hr.
  destruct (r.2) eqn:E; inversion H; subst. done.
Qed.

Lemma validate_post_prefixed f v vals l es :
  validate_post f v vals l = Return (Errors es) → Forall (prefixed l) es.
Proof.
  unfold validate_post. destruct (post_validators f); [discriminate|].
  apply catch_prefixed.
Qed.

Lemma validate_shape_prefixed f v l es :
  validate_shape py f v l = Return (Errors es) → Forall (prefixed l) es.
Proof.
  unfold validate_shape. destruct (shape f).
  - apply catch_prefixed.
  - apply validate_sequence_like_prefixed.
Qed.

Lemma ModelField_validate_prefixed f v vals l es :
  ModelField_validate py f v vals l = Return (Errors es) → Forall (prefixed l) es.
Proof.
  assert (Hsome : validate_shape py f v l ≫= (λ r, match r with
               | Errors _ => Return r
               | Valid v' => validate_post f v' vals l
               end) = Return (Errors es) → Forall (prefixed l) es).
  { intros H. apply bind_Return in H as (o & Ho & H).
    destruct o as [v'|es'].
    - by apply validate_post_prefixed in H.
    - inversion H; subst. by apply validate_shape_prefixed in Ho. }
  unfold ModelField_validate. destruct v; try apply Hsome.
  destruct (allow_none f); [apply validate_post_prefixed|].
  intros H; inversion H; subst. repeat constructor. exists []. simpl. by rewrite app_nil_r.
Qed.

(** What one turn of the loop does to the state. *)
Lemma validate_field_inv p f st st' :
  validate_field py p f st = Return st' →
  ∃ es, errors st' = errors st ++ es ∧ Forall (at_field (name f)) es ∧
        (∀ n, n ≠ name f → values st' !! n = values st !! n) ∧
        (∀ n, n ≠ name f → n ∈ fields_set st' ↔ n ∈ fields_set st).
Proof.
  unfold validate_field. destruct (p !! name f) as [v|].
  - intros H. apply bind_Return in H as (o & Ho & H).
    destruct o as [v'|es]; simplify_eq; simpl.
    + exists []. rewrite app_nil_r. repeat split; try done.
      * intros n Hn. by rewrite lookup_insert_ne.
      * rewrite elem_of_union, elem_of_singleton. tauto.
      * apply elem_of_union_r.
    + exists es. repeat split; try done.
      * apply ModelField_validate_prefixed in Ho.
        eapply Forall_impl; [exact Ho|]. intros le. apply prefixed_at_field.
      * rewrite elem_of_union, elem_of_singleton. tauto.
      * apply elem_of_union_r.
  - destruct (required f); intros H; simplify_eq; simpl.
    + eexists. repeat split; try done. by repeat constructor.
    + exists []. rewrite app_nil_r. repeat split; try done.
      intros n Hn. by rewrite lookup_insert_ne.
Qed.

(** Fields of other names leave the entries of [n] alone. *)
Lemma validate_fields_other p n fs : ∀ st st',
  n ∉ name <$> fs →
  validate_fields py p fs st = Return st' →
  errors_at n (errors st') = errors_at n (errors st) ∧
  values st' !! n = values st !! n ∧
  (n ∈ fields_set st' ↔ n ∈ fields_set st).
Proof.
  induction fs as [|f fs IH]; intros st st' Hn; simpl.
  - intros H. by inversion H.
  - intros H. apply bind_Return in H as (st1 & H1 & H).
    rewrite fmap_cons, not_elem_of_cons in Hn. destruct Hn as [Hne Hn].
    destruct (IH _ _ Hn H) as (IHe & IHv & IHs).
    destruct (validate_field_inv _ _ _ _ H1) as (es & He & Hes & Hv & Hs).
    rewrite IHe, IHv, IHs, He, errors_at_app, (errors_at_other n (name f) es),
      app_nil_r by done.
    rewrite Hv, Hs by done. done.
Qed.

Lemma validate_fields_app p fs1 fs2 : ∀ st,
  validate_fields py p (fs1 ++ fs2) st =
  validate_fields py p fs1 st ≫= validate_fields py p fs2.
Proof.
  induction fs1 as [|f fs1 IH]; intros st; simpl; [done|].
  destruct (validate_field py p f st) as [st1|x]; simpl; [apply IH | done].
Qed.

(** The report on one field of a model: what is known of its errors, its
    value and its membership in [fields_set] once the loop is over, in
    terms of the payload and of the values accepted before it. *)
Lemma field_report p pre f post st :
  name f ∉ name <$> pre → name f ∉ name <$> post →
  validate_model py (pre ++ f :: post) p = Return st →
  ∃ st1, validate_fields py p pre state0 = Return st1 ∧
    match p !! name f with
    | None =>
        (name f ∉ fields_set st) ∧
        (if required f
         then errors_at (name f) (errors st) = [([LName (name f)], MissingError)] ∧
              values st !! name f = None
         else errors_at (name f) (errors st) = [] ∧
              values st !! name f = Some VNone)
    | Some v =>
        name f ∈ fields_set st ∧
        ∃ o, ModelField_validate py f v (values st1) [LName (name f)] = Return o ∧
          match o with
          | Valid v' => errors_at (name f) (errors st) = [] ∧
                        values st !! name f = Some v'
          | Errors es => errors_at (name f) (errors st) = es ∧
                         values st !! name f = None
          end
    end.
Proof.
  intros Hpre Hpost. unfold validate_model. rewrite validate_fields_app.
  intros H. apply bind_Return in H as (st1 & H1 & H). simpl in H.
  apply bind_Return in H as (st2 & H2 & H).
  exists st1. split; [done|].
  destruct (validate_fields_other _ _ _ _ _ Hpre H1) as (E1 & V1 & S1).
  destruct (validate_fields_other _ _ _ _ _ Hpost H) as (E2 & V2 & S2).
  unfold state0 in E1, V1, S1. simpl in E1, V1, S1.
  rewrite lookup_empty in V1. change (errors_at (name f) []) with (@nil (list loc_item * error)) in E1.
  clear H. unfold validate_field in H2. destruct (p !! name f) as [v|].
  - apply bind_Return in H2 as (o & Ho & H2). split.
    { apply S2. destruct o; simplify_eq; simpl;
        apply elem_of_union_l; by apply elem_of_singleton. }
    exists o. split; [done|]. rewrite E2, V2.
    destruct o as [v'|es]; simplify_eq; simpl.
    + by rewrite lookup_insert_eq.
    + rewrite errors_at_app, E1. simpl. split; [|done].
      apply errors_at_own. apply ModelField_validate_prefixed in Ho.
      eapply Forall_impl; [exact Ho|]. intros le. apply prefixed_at_field.
  - split.
    { rewrite S2. destruct (required f); simplify_eq; simpl;
        rewrite S1; apply not_elem_of_empty. }
    rewrite E2, V2.
    destruct (required f); simplify_eq; simpl.
    + rewrite errors_at_app, E1. split; [|done].
      apply errors_at_own. by repeat constructor.
    + by rewrite lookup_insert_eq.
Qed.

(** The same, for the field at position [i] of a model with distinct
    field names. *)
Lemma field_report_at fs i f p st :
  fs !! i = Some f → NoDup (name <$> fs) →
  validate_model py fs p = Return st →
  ∃ st1, validate_model py (take i fs) p = Return st1 ∧
    match p !! name f with
    | None =>
        (name f ∉ fields_set st) ∧
        (if required f
         then errors_at (name f) (errors st) = [([LName (name f)], MissingError)] ∧
              values st !! name f = None
         else errors_at (name f) (errors st) = [] ∧
              values st !! name f = Some VNone)
    | Some v =>
        name f ∈ fields_set st ∧
        ∃ o, ModelField_validate py f v (values st1) [LName (name f)] = Return o ∧
          match o with
          | Valid v' => errors_at (name f) (errors st) = [] ∧
                        values st !! name f = Some v'
          | Errors es => errors_at (name f) (errors st) = es ∧
                         values st !! name f = None
          end
    end.
Proof.
  intros Hi Hnd Hst.
  rewrite <- (take_drop_middle fs i f Hi) in Hnd, Hst.
  rewrite fmap_app, fmap_cons in Hnd.
  apply NoDup_app in Hnd as (_ & Hpre & Hnd).
  apply NoDup_cons in Hnd as [Hpost _].
  apply (field_report p (take i fs) f (drop (S i) fs) st); [|done..].
  intros H. apply (Hpre _ H). apply list_elem_of_here.
Qed.

(** Construction fails exactly with the errors of the report. *)
Lemma init_fails fs p st le :
  validate_model py fs p = Return st → le ∈ errors st →
  BaseModel_init py fs p = Raise (ValidationError (errors st)).
Proof.
  intros H Hle. unfold BaseModel_init. rewrite H. simpl.
  destruct (errors st); [by apply elem_of_nil in Hle | done].
Qed.

Lemma init_succeeds fs p m :
  BaseModel_init py fs p = Return m →
  ∃ st, validate_model py fs p = Return st ∧ errors st = [] ∧
        inst_dict m = values st ∧ inst_fields_set m = fields_set st.
Proof.
  unfold BaseModel_init. intros H. apply bind_Return in H as (st & Hst & H).
  exists st. destruct (errors st); [|discriminate]. by simplify_eq.
Qed.

(** A required field that the payload omits. *)
Lemma required_missing fs i f p st :
  fs !! i = Some f → NoDup (name <$> fs) →
  required f = true → p !! name f = None →
  validate_model py fs p = Return st →
  BaseModel_init py fs p = Raise (ValidationError (errors st)) ∧
  errors_at (name f) (errors st) = [([LName (name f)], MissingError)].
Proof.
  intros Hi Hnd Hreq Hp Hst.
  destruct (field_report_at fs i f p st Hi Hnd Hst) as (st1 & _ & H).
  rewrite Hp, Hreq in H. destruct H as (_ & He & _).
  split; [|done].
  apply (init_fails fs p st ([LName (name f)], MissingError)); [done|].
  apply (errors_at_elem (name f)). rewrite He. apply list_elem_of_here.
Qed.

(** An optional field that the payload omits. *)
Lemma optional_missing fs i f p st :
  fs !! i = Some f → NoDup (name <$> fs) →
  required f = false → p !! name f = None →
  validate_model py fs p = Return st →
  errors_at (name f) (errors st) = [] ∧
  values st !! name f = Some VNone ∧
  name f ∉ fields_set st.
Proof.
  intros Hi Hnd Hreq Hp Hst.
  destruct (field_report_at fs i f p st Hi Hnd Hst) as (st1 & _ & H).
  rewrite Hp, Hreq in H. by destruct H as (? & ? & ?).
Qed.

End Engine.

(** ** Validators that only accept or reject *)

Section Typing.
Context (py : PyBuiltins).
Implicit Types (f : ModelField) (fs : list ModelField) (t : ftype).
Implicit Types (p : gmap string pyval) (st : vstate) (l : list loc_item).

(** On a value that already has the type, the chain of type validators
    changes nothing: it returns the value or rejects it. *)
Lemma isinstance_run t v :
  isinstance t v = true →
  run_validators (find_validators py t) v = Return v ∨
  ∃ e, run_validators (find_validators py t) v = Raise (FieldError e).
Proof.
  destruct t as [| | | | | |ml re|gt le|cls val]; destruct v; try discriminate;
    intros _; simpl; try (by left).
  - (* constr *)
    unfold constr_length_validator. simpl.
    destruct ml as [m|]; simpl.
    + destruct (m <? String.length s)%nat; simpl; [by eauto|].
      destruct re as [pat|]; simpl; [|by left].
      destruct (re_match pat s); simpl; by eauto.
    + destruct re as [pat|]; simpl; [|by left].
      destruct (re_match pat s); simpl; by eauto.
  - (* confloat *)
    destruct gt as [g|], le as [b|]; simpl;
      repeat (match goal with |- context [negb ?c] => destruct c; simpl end);
      by eauto.
Qed.

(** The validators of a plain type never let an exception through. *)
Lemma plain_type_caught t v :
  plain_type t = true → is_caught (run_validators (find_validators py t) v).
Proof.
  destruct t as [| | | | | |ml re|gt le|cls val]; try discriminate; intros _;
    destruct v; simpl; repeat case_match; simpl; try done;
    unfold constr_length_validator, ConstrainedStr_validate; simpl;
    repeat (case_match; simpl; try done).
Qed.

Lemma checks_only_run (pvs : list class_validator) v vals :
  Forall checks_only pvs →
  run_validators ((λ pv v, pv v vals) <$> pvs) v = Return v ∨
  ∃ e, run_validators ((λ pv v, pv v vals) <$> pvs) v = Raise (FieldError e).
Proof.
  induction 1 as [|pv pvs Hpv _ IH]; simpl; [by left|].
  destruct (Hpv v vals) as [->|[e ->]]; simpl; [exact IH | by eauto].
Qed.

Lemma validate_post_checks f v vals l :
  Forall checks_only (post_validators f) →
  validate_post f v vals l = Return (Valid v) ∨
  ∃ e, validate_post f v vals l = Return (Errors [(l, e)]).
Proof.
  intros H. unfold validate_post, apply_post_validators.
  destruct (checks_only_run (post_validators f) v vals H) as [E|[e E]];
    destruct (post_validators f) as [|pv pvs]; try (by left);
    rewrite E; simpl; by eauto.
Qed.

Lemma validate_item_total t v l :
  plain_type t = true → ∃ o, validate_item py t v l = Return o.
Proof.
  intros H. unfold validate_item, apply_validators.
  destruct v; try (apply catch_total, plain_type_caught, H).
  destruct (item_allow_none t); by eauto.
Qed.

Lemma validate_items_total t l xs : ∀ i,
  plain_type t = true → ∃ r, validate_items py t l i xs = Return r.
Proof.
  induction xs as [|x xs IH]; intros i H; simpl; [by eauto|].
  destruct (validate_item_total t x (l ++ [LIndex i]) H) as [o ->].
  destruct (IH (S i) H) as [r ->]. simpl. destruct o; by eauto.
Qed.

Lemma validate_shape_total f v l :
  plain_type (type_ f) = true → ∃ o, validate_shape py f v l = Return o.
Proof.
  intros H. unfold validate_shape. destruct (shape f).
  - apply catch_total, plain_type_caught, H.
  - unfold validate_sequence_like.
    destruct v as [| | | | | |xs| | |]; try by eauto.
    destruct (validate_items_total (type_ f) l xs 0%nat H) as [r ->]. simpl.
    destruct (r.2); by eauto.
Qed.

Lemma ModelField_validate_total f v vals l :
  plain_field f → ∃ o, ModelField_validate py f v vals l = Return o.
Proof.
  intros [Ht Hpv].
  assert (Hpost : ∀ v', ∃ o, validate_post f v' vals l = Return o).
  { intros v'. destruct (validate_post_checks f v' vals l Hpv) as [->|[e ->]]; by eauto. }
  assert (Hsome : ∃ o, validate_shape py f v l ≫= (λ r, match r with
               | Errors _ => Return r
               | Valid v' => validate_post f v' vals l
               end) = Return o).
  { destruct (validate_shape_total f v l Ht) as [[v'|es] ->]; simpl; by eauto. }
  unfold ModelField_validate. destruct v; try exact Hsome.
  destruct (allow_none f); by eauto.
Qed.

Lemma plain_field_returns p f : plain_field f → returns py p f.
Proof. intros H v vals l _. by apply ModelField_validate_total. Qed.

(** A model whose fields all return comes back with a report. *)
Lemma validate_fields_total p fs : ∀ st,
  Forall (returns py p) fs → ∃ st', validate_fields py p fs st = Return st'.
Proof.
  induction fs as [|f fs IH]; intros st H; simpl; [by eauto|].
  apply Forall_cons in H as [Hf H].
  assert (∃ st1, validate_field py p f st = Return st1) as [st1 ->].
  { unfold validate_field. destruct (p !! name f) as [v|] eqn:E.
    - destruct (Hf v (values st) [LName (name f)] E) as [[v'|es] ->]; simpl; by eauto.
    - destruct (required f); by eauto. }
  simpl. by apply IH.
Qed.

Lemma plain_model_total p fs :
  Forall plain_field fs → ∃ st, validate_model py fs p = Return st.
Proof.
  intros H. apply validate_fields_total.
  eapply Forall_impl; [exact H|]. intros f. apply plain_field_returns.
Qed.

Lemma isinstance_item t v l :
  isinstance t v = true →
  validate_item py t v l = Return (Valid v) ∨
  ∃ es, es ≠ [] ∧ validate_item py t v l = Return (Errors es).
Proof.
  intros H. unfold validate_item, apply_validators.
  assert (Hrun : catch l (run_validators (find_validators py t) v) = Return (Valid v) ∨
                 ∃ es, es ≠ [] ∧
                   catch l (run_validators (find_validators py t) v) = Return (Errors es)).
  { destruct (isinstance_run t v H) as [->|[e ->]]; simpl; [by left|].
    right. by eexists [_]. }
  destruct v; try exact Hrun.
  destruct t; try discriminate. by left.
Qed.

Lemma isinstance_items t l xs : ∀ i,
  forallb (isinstance t) xs = true →
  ∃ r, validate_items py t l i xs = Return r ∧ (r.2 = [] → r.1 = xs).
Proof.
  induction xs as [|x xs IH]; intros i H; simpl; [by eauto|].
  apply andb_true_iff in H as [Hx H].
  destruct (IH (S i) H) as (r & -> & Hr).
  destruct (isinstance_item t x (l ++ [LIndex i]) Hx) as [->|(es & Hes & ->)]; simpl.
  - eexists. split; [done|]. simpl. intros E. by rewrite Hr.
  - eexists. split; [done|]. simpl. intros E.
    apply app_eq_nil in E as [E _]. done.
Qed.

(** A supplied value that already has the type of its field is accepted
    as it is, or rejected with at least one error. *)
Lemma field_isinstance_validate f v vals l :
  field_isinstance f v = true →
  Forall checks_only (post_validators f) →
  ModelField_validate py f v vals l = Return (Valid v) ∨
  ∃ es, es ≠ [] ∧ ModelField_validate py f v vals l = Return (Errors es).
Proof.
  intros Hty Hpv.
  assert (Hpost : validate_post f v vals l = Return (Valid v) ∨
                  ∃ es, es ≠ [] ∧ validate_post f v vals l = Return (Errors es)).
  { destruct (validate_post_checks f v vals l Hpv) as [->|[e ->]]; [by left|].
    right. by eexists [_]. }
  assert (Hsome : v ≠ VNone →
            validate_shape py f v l ≫= (λ r, match r with
               | Errors _ => Return r
               | Valid v' => validate_post f v' vals l
               end) = Return (Valid v) ∨
            ∃ es, es ≠ [] ∧ validate_shape py f v l ≫= (λ r, match r with
               | Errors _ => Return r
               | Valid v' => validate_post f v' vals l
               end) = Return (Errors es)).
  { intros Hv.
    assert (Hty' : match shape f with
                   | SHAPE_SINGLETON => isinstance (type_ f) v
                   | SHAPE_LIST =>
                       match v with
                       | VList xs => forallb (isinstance (type_ f)) xs
                       | _ => false
                       end
                   end = true) by (by destruct v).
    assert (Hshape : validate_shape py f v l = Return (Valid v) ∨
              ∃ es, es ≠ [] ∧ validate_shape py f v l = Return (Errors es)).
    { unfold validate_shape. destruct (shape f).
      - unfold apply_validators.
        destruct (isinstance_run (type_ f) v Hty') as [->|[e ->]]; simpl; [by left|].
        right. by eexists [_].
      - destruct v as [| | | | | |xs| | |]; try discriminate.
        unfold validate_sequence_like.
        destruct (isinstance_items (type_ f) l xs 0%nat Hty') as (r & -> & Hr).
        simpl. destruct (r.2) as [|e es] eqn:E.
        + left. by rewrite Hr.
        + right. by exists (e :: es). }
    destruct Hshape as [->|(es & Hes & ->)]; simpl; [exact Hpost|].
    right. by exists es. }
  unfold ModelField_validate.
  destruct v; try (apply Hsome; discriminate).
  simpl in Hty. rewrite Hty. exact Hpost.
Qed.

End Typing.

(** ** The regular expression for mail addresses *)

Lemma at_end_no_at s : at_end s = true → no_at s = true.
Proof.
  destruct s as [|c [|d s]]; simpl; try done.
  intros H. apply Ascii.eqb_eq in H. by subst.
Qed.

(** [[^@]+$] accepts the non-empty strings without [@]. *)
Lemma plus_not_end s :
  plus_not "@" at_end s = negb (String.eqb s "") && no_at s.
Proof.
  induction s as [|c s IH]; [done|].
  cbn [plus_not no_at]. rewrite IH. destruct (Ascii.eqb c "@"); [done|].
  change (String.eqb (String c s) "") with false. cbn [negb andb].
  destruct s as [|d s]; [done|].
  change (String.eqb (String d s) "") with false. cbn [negb andb].
  destruct (no_at (String d s)) eqn:E; [done|].
  destruct (at_end (String d s)) eqn:E'; [|done].
  apply at_end_no_at in E'. congruence.
Qed.

(** The expression and the wording of the specification agree. *)
Lemma re_match_mail s : re_match mail_regex s = one_at s.
Proof.
  unfold mail_regex, one_at.
  change (re_match [PlusNot "@"; Lit "@"; PlusNot "@"] s)
    with (plus_not "@" (λ s, match s with
                              | String a s' => Ascii.eqb a "@" && plus_not "@" at_end s'
                              | EmptyString => false
                              end) s).
  induction s as [|c s IH]; [done|].
  cbn [plus_not split_at]. rewrite IH. clear IH.
  destruct (Ascii.eqb c "@") eqn:Ec; [done|]. cbn [negb andb].
  destruct s as [|d s]; [done|].
  cbn [split_at]. destruct (Ascii.eqb d "@") eqn:Ed.
  - cbn [andb]. rewrite plus_not_end.
    change (String.eqb (String c "") "") with false.
    change (String.eqb "" "") with true. done.
  - cbn [andb]. rewrite orb_false_r.
    destruct (split_at s) as [[x y]|]; done.
Qed.

Lemma split_at_Some s x y :
  split_at s = Some (x, y) → s = (x ++ String "@" y)%string ∧ no_at x = true.
Proof.
  revert x. induction s as [|c s IH]; intros x; simpl; [discriminate|].
  destruct (Ascii.eqb c "@") eqn:Ec.
  - intros H. simplify_eq. apply Ascii.eqb_eq in Ec. by subst.
  - destruct (split_at s) as [[x' y']|]; [|discriminate].
    intros H. simplify_eq. destruct (IH x' eq_refl) as [-> Hx].
    simpl. by rewrite Ec.
Qed.

Lemma split_at_app x y :
  no_at x = true → split_at (x ++ String "@" y)%string = Some (x, y).
Proof.
  induction x as [|c x IH]; simpl; [done|].
  intros H. apply andb_true_iff in H as [Hc Hx].
  apply negb_true_iff in Hc. by rewrite Hc, IH.
Qed.

(** [one_at] says what the specification says: the string is [x@y] with
    [x] and [y] non-empty and free of [@]. *)
Lemma one_at_spec s :
  one_at s = true ↔
  ∃ x y, s = (x ++ String "@" y)%string ∧ x ≠ "" ∧ y ≠ "" ∧
         no_at x = true ∧ no_at y = true.
Proof.
  unfold one_at. split.
  - destruct (split_at s) as [[x y]|] eqn:E; [|discriminate].
    intros H. apply andb_true_iff in H as [H Hy]. apply andb_true_iff in H as [Hx Hy'].
    apply split_at_Some in E as [-> Hnx].
    exists x, y. repeat split; try done.
    + apply negb_true_iff, String.eqb_neq in Hx. done.
    + apply negb_true_iff, String.eqb_neq in Hy'. done.
  - intros (x & y & -> & Hx & Hy & Hnx & Hny).
    rewrite (split_at_app x y Hnx).
    apply String.eqb_neq in Hx, Hy. by rewrite Hx, Hy, Hny.
Qed.

(** ** UserCreate and UserUpdate *)

Section Users.
Context (py : PyBuiltins).
Implicit Types (p : gmap string pyval) (st : vstate) (M : list ModelField).

Lemma passwords_match_checks : checks_only passwords_match.
Proof.
  intros v vals. unfold passwords_match.
  destruct (vals !! "password") as [pw|]; [|by left].
  destruct (negb (py_eqb v pw)); by eauto.
Qed.

Lemma user_models_plain M :
  M ∈ [UserCreate; UserUpdate] → Forall plain_field M.
Proof.
  intros HS. repeat (apply elem_of_cons in HS as [->|HS]);
    [| |by apply elem_of_nil in HS];
    repeat apply Forall_cons_2; try apply Forall_nil_2;
    (split; [reflexivity|simpl]); try apply Forall_nil_2;
    (apply Forall_cons_2; [apply passwords_match_checks | apply Forall_nil_2]).
Qed.

Lemma user_models_NoDup M :
  M ∈ [UserCreate; UserUpdate] → NoDup (name <$> M).
Proof.
  intros HS. repeat (apply elem_of_cons in HS as [->|HS]);
    [| |by apply elem_of_nil in HS];
    by apply (bool_decide_unpack _).
Qed.

(** [constr] on a value that [str_validator] turns into the string [s]:
    the length check, then the expression. *)
Lemma constr_run n re v s :
  str_validator py v = Return (VStr s) →
  run_validators (find_validators py (TConStr (Some n) re)) v =
  if (n <? String.length s)%nat then Raise (FieldError (AnyStrMaxLengthError n))
  else match re with
       | Some pat => if re_match pat s then Return (VStr s)
                     else Raise (FieldError StrRegexError)
       | None => Return (VStr s)
       end.
Proof.
  intros H. cbn [find_validators run_validators]. rewrite H. simpl.
  unfold constr_length_validator. simpl.
  destruct (n <? String.length s)%nat; [done|]. simpl.
  destruct re as [pat|]; [|done]. simpl. by destruct (re_match pat s).
Qed.

(** Whatever [constr] makes of a value, it is a string within the limit,
    or one of its own two errors. *)
Lemma constr_cases n v :
  (∃ s, run_validators (find_validators py (constr n)) v = Return (VStr s)) ∨
  run_validators (find_validators py (constr n)) v = Raise (FieldError StrError) ∨
  run_validators (find_validators py (constr n)) v =
    Raise (FieldError (AnyStrMaxLengthError n)).
Proof.
  unfold constr. simpl. unfold constr_length_validator.
  destruct v; simpl; try (by right; left);
    repeat (case_match; simpl); by eauto.
Qed.

(** The same at the level of a field. *)
Lemma constr_field f n re v s vals l :
  shape f = SHAPE_SINGLETON → type_ f = TConStr (Some n) re →
  str_validator py v = Return (VStr s) →
  ModelField_validate py f v vals l =
  if (n <? String.length s)%nat then Return (Errors [(l, AnyStrMaxLengthError n)])
  else match re with
       | Some pat => if re_match pat s then validate_post f (VStr s) vals l
                     else Return (Errors [(l, StrRegexError)])
       | None => validate_post f (VStr s) vals l
       end.
Proof.
  intros Hsh Hty H.
  assert (Hsome :
    validate_shape py f v l ≫= (λ r, match r with
               | Errors _ => Return r
               | Valid v' => validate_post f v' vals l
               end) =
    if (n <? String.length s)%nat then Return (Errors [(l, AnyStrMaxLengthError n)])
    else match re with
         | Some pat => if re_match pat s then validate_post f (VStr s) vals l
                       else Return (Errors [(l, StrRegexError)])
         | None => validate_post f (VStr s) vals l
         end).
  { unfold validate_shape, apply_validators. rewrite Hsh, Hty, (constr_run n re v s H).
    destruct (n <? String.length s)%nat; [done|].
    destruct re as [pat|]; [|done]. by destruct (re_match pat s). }
  unfold ModelField_validate. destruct v; try exact Hsome. discriminate.
Qed.

(** The two declarations of [password] and of [password_confirm]. *)
Lemma password_value fs i f p st v s :
  fs !! i = Some f → NoDup (name <$> fs) →
  f ∈ [Field "password" (constr 250); Optional (Field "password" (constr 250))] →
  p !! "password" = Some v → str_validator py v = Return (VStr s) →
  validate_model py fs p = Return st →
  if (250 <? String.length s)%nat
  then errors_at "password" (errors st) =
         [([LName "password"], AnyStrMaxLengthError 250)] ∧
       values st !! "password" = None
  else errors_at "password" (errors st) = [] ∧
       values st !! "password" = Some (VStr s).
Proof.
  intros Hi Hnd Hf Hp Hs Hst.
  destruct (field_report_at py fs i f p st Hi Hnd Hst) as (st1 & _ & H).
  assert (Hn : name f = "password" ∧ shape f = SHAPE_SINGLETON ∧
               type_ f = TConStr (Some 250%nat) None ∧ post_validators f = []).
  { repeat (apply elem_of_cons in Hf as [->|Hf]); try done. by apply elem_of_nil in Hf. }
  destruct Hn as (Hn & Hsh & Hty & Hpv).
  rewrite Hn, Hp in H. destruct H as (_ & o & Ho & H).
  rewrite (constr_field f 250 None v s _ _ Hsh Hty Hs) in Ho.
  unfold validate_post in Ho. rewrite Hpv in Ho.
  destruct (250 <? String.length s)%nat; by simplify_eq.
Qed.

Lemma confirm_fields f :
  f ∈ [decorated passwords_match (Field "password_confirm" (constr 250));
       decorated passwords_match (Optional (Field "password_confirm" (constr 250)))] →
  name f = "password_confirm" ∧ shape f = SHAPE_SINGLETON ∧
  type_ f = constr 250 ∧ post_validators f = [passwords_match].
Proof.
  intros Hf. repeat (apply elem_of_cons in Hf as [->|Hf]); try done.
  by apply elem_of_nil in Hf.
Qed.

(** Without a validated [password] the comparison does not take place:
    whatever is reported for [password_confirm] is not a [ValueError]. *)
Lemma confirm_without_password f v vals l o :
  f ∈ [decorated passwords_match (Field "password_confirm" (constr 250));
       decorated passwords_match (Optional (Field "password_confirm" (constr 250)))] →
  vals !! "password" = None →
  ModelField_validate py f v vals l = Return o →
  match o with
  | Valid _ => True
  | Errors es => ∀ l' msg, (l', ValueError msg) ∉ es
  end.
Proof.
  intros Hf Hvals. destruct (confirm_fields f Hf) as (_ & Hsh & Hty & Hpv).
  assert (Hpost : ∀ v', validate_post f v' vals l = Return (Valid v')).
  { intros v'. unfold validate_post, apply_post_validators. rewrite Hpv. simpl.
    unfold passwords_match. by rewrite Hvals. }
  assert (Hone : ∀ e, (∀ msg, e ≠ ValueError msg) →
            ∀ l' msg, (l', ValueError msg) ∉ [(l, e)]).
  { intros e He l' msg Hin. apply list_elem_of_singleton in Hin. simplify_eq. by eapply He. }
  assert (Hsome :
    validate_shape py f v l ≫= (λ r, match r with
               | Errors _ => Return r
               | Valid v' => validate_post f v' vals l
               end) = Return o →
    match o with
    | Valid _ => True
    | Errors es => ∀ l' msg, (l', ValueError msg) ∉ es
    end).
  { unfold validate_shape, apply_validators. rewrite Hsh, Hty.
    destruct (constr_cases 250 v) as [[s ->]|[-> | ->]]; simpl.
    - rewrite Hpost. intros H. by simplify_eq.
    - intros H. simplify_eq. by apply Hone.
    - intros H. simplify_eq. by apply Hone. }
  unfold ModelField_validate. destruct v; try exact Hsome.
  destruct (allow_none f).
  - rewrite Hpost. intros H. by simplify_eq.
  - intros H. simplify_eq. by apply Hone.
Qed.

(** With a validated [password], a value that converts to a string within
    the limit is compared with it. *)
Lemma confirm_with_password f v pc pw vals l :
  f ∈ [decorated passwords_match (Field "password_confirm" (constr 250));
       decorated passwords_match (Optional (Field "password_confirm" (constr 250)))] →
  vals !! "password" = Some (VStr pw) →
  str_validator py v = Return (VStr pc) →
  (String.length pc ≤ 250)%nat →
  ModelField_validate py f v vals l =
  Return (if String.eqb pc pw then Valid (VStr pc)
          else Errors [(l, ValueError "passwords do not match")]).
Proof.
  intros Hf Hvals Hv Hlen. destruct (confirm_fields f Hf) as (_ & Hsh & Hty & Hpv).
  rewrite (constr_field f 250 None v pc vals l Hsh Hty Hv).
  replace (250 <? String.length pc)%nat with false
    by (symmetry; apply Nat.ltb_ge; lia).
  unfold validate_post, apply_post_validators. rewrite Hpv. simpl.
  unfold passwords_match. rewrite Hvals. simpl.
  by destruct (String.eqb pc pw).
Qed.

Lemma not_in_errors n le (errs : ErrorList) :
  at_field n le → le ∉ errors_at n errs → le ∉ errs.
Proof. intros Hat Hn Hin. apply Hn. by apply errors_at_elem. Qed.

(** What the loop knows of [password] when it reaches
    [password_confirm], and what it then reports. *)
Lemma confirm_report M p st :
  M ∈ [UserCreate; UserUpdate] →
  validate_model py M p = Return st →
  ∃ f st1,
    f ∈ [decorated passwords_match (Field "password_confirm" (constr 250));
         decorated passwords_match (Optional (Field "password_confirm" (constr 250)))] ∧
    (M = UserCreate → required f = true) ∧
    (M = UserUpdate → required f = false ∧ allow_none f = true) ∧
    (∀ v s, p !! "password" = Some v → str_validator py v = Return (VStr s) →
       (errors_at "password" (errors st) =
          if (250 <? String.length s)%nat
          then [([LName "password"], AnyStrMaxLengthError 250)] else []) ∧
       values st1 !! "password" =
         if (250 <? String.length s)%nat then None else Some (VStr s)) ∧
    (M = UserCreate → p !! "password" = None → values st1 !! "password" = None) ∧
    match p !! "password_confirm" with
    | None =>
        if required f
        then errors_at "password_confirm" (errors st) =
               [([LName "password_confirm"], MissingError)]
        else errors_at "password_confirm" (errors st) = []
    | Some v =>
        ∃ o, ModelField_validate py f v (values st1) [LName "password_confirm"] = Return o ∧
          match o with
          | Valid v' => errors_at "password_confirm" (errors st) = []
          | Errors es => errors_at "password_confirm" (errors st) = es
          end
    end.
Proof.
  intros HS Hst.
  pose proof (user_models_NoDup M HS) as Hnd.
  repeat (apply elem_of_cons in HS as [->|HS]); [| |by apply elem_of_nil in HS].
  - destruct (field_report_at py UserCreate 3 _ p st eq_refl Hnd Hst) as (st1 & H1 & H).
    eexists _, st1. split; [apply list_elem_of_here|].
    split; [done|]. split; [done|]. split; [|split].
    + intros v s Hp Hs.
      pose proof (password_value (take 3 UserCreate) 2 _ p st1 v s eq_refl
                    ltac:(by apply (bool_decide_unpack _))
                    ltac:(apply list_elem_of_here) Hp Hs H1) as Hv1.
      pose proof (password_value UserCreate 2 _ p st v s eq_refl Hnd
                    ltac:(apply list_elem_of_here) Hp Hs Hst) as Hv.
      by destruct (250 <? String.length s)%nat; destruct Hv, Hv1.
    + intros _ Hp.
      destruct (field_report_at py (take 3 UserCreate) 2 _ p st1 eq_refl
                  ltac:(by apply (bool_decide_unpack _)) H1) as (? & _ & Hr).
      cbn [name Field] in Hr. rewrite Hp in Hr. by destruct Hr as (_ & _ & ?).
    + cbn [name decorated Field] in H. destruct (p !! "password_confirm").
      * destruct H as (_ & o & Ho & H). exists o. split; [done|]. by destruct o; destruct H.
      * by destruct H as (_ & ? & _).
  - destruct (field_report_at py UserUpdate 3 _ p st eq_refl Hnd Hst) as (st1 & H1 & H).
    eexists _, st1. split; [apply list_elem_of_further, list_elem_of_here|].
    split; [done|]. split; [done|]. split; [|split; [done|]].
    + intros v s Hp Hs.
      pose proof (password_value (take 3 UserUpdate) 2 _ p st1 v s eq_refl
                    ltac:(by apply (bool_decide_unpack _))
                    ltac:(apply list_elem_of_further, list_elem_of_here) Hp Hs H1) as Hv1.
      pose proof (password_value UserUpdate 2 _ p st v s eq_refl Hnd
                    ltac:(apply list_elem_of_further, list_elem_of_here) Hp Hs Hst) as Hv.
      by destruct (250 <? String.length s)%nat; destruct Hv, Hv1.
    + cbn [name decorated Field Optional] in H. destruct (p !! "password_confirm").
      * destruct H as (_ & o & Ho & H). exists o. split; [done|]. by destruct o; destruct H.
      * by destruct H as (_ & ? & _).
Qed.

(** C1, as the code has it.  In [UserCreate] and [UserUpdate], when
    [password] validates to a string within its limit of 250 characters and
    [password_confirm] validates to a different string within the limit, or
    is an explicit [None] on update, the payload is rejected and the one
    error reported for [password_confirm] is "passwords do not match".  A
    payload that omits [password_confirm] is never charged with that error,
    nor is a [UserCreate] payload that omits [password]. *)
Theorem passwords_match_rule M p :
  M ∈ [UserCreate; UserUpdate] →
  (∀ v pw c pc,
     p !! "password" = Some v → str_validator py v = Return (VStr pw) →
     (String.length pw ≤ 250)%nat →
     p !! "password_confirm" = Some c → str_validator py c = Return (VStr pc) →
     (String.length pc ≤ 250)%nat →
     pc ≠ pw →
     ∃ errs, BaseModel_init py M p = Raise (ValidationError errs) ∧
             errors_at "password_confirm" errs = [mismatch]) ∧
  (∀ v pw,
     M = UserUpdate →
     p !! "password" = Some v → str_validator py v = Return (VStr pw) →
     (String.length pw ≤ 250)%nat →
     p !! "password_confirm" = Some VNone →
     ∃ errs, BaseModel_init py M p = Raise (ValidationError errs) ∧
             errors_at "password_confirm" errs = [mismatch]) ∧
  (p !! "password_confirm" = None ∨ (M = UserCreate ∧ p !! "password" = None) →
     ∃ st, validate_model py M p = Return st ∧ mismatch ∉ errors st).
Proof.
  intros HS.
  destruct (plain_model_total py p M (user_models_plain _ HS)) as [st Hst].
  destruct (confirm_report M p st HS Hst)
    as (f & st1 & Hf & Hcreate & Hupdate & Hpw & Hnopw & Hrep).
  assert (Hfail : errors_at "password_confirm" (errors st) = [mismatch] →
            ∃ errs, BaseModel_init py M p = Raise (ValidationError errs) ∧
                    errors_at "password_confirm" errs = [mismatch]).
  { intros He. exists (errors st). split; [|done].
    apply (init_fails py M p st mismatch Hst).
    apply (errors_at_elem "password_confirm"). rewrite He. apply list_elem_of_here. }
  split; [|split].
  - intros v pw c pc Hp Hv Hlen Hc Hcv Hclen Hne. apply Hfail.
    rewrite Hc in Hrep. destruct Hrep as (o & Ho & Hrep).
    destruct (Hpw v pw Hp Hv) as [_ Hval].
    replace (250 <? String.length pw)%nat with false in Hval
      by (symmetry; apply Nat.ltb_ge; lia).
    rewrite (confirm_with_password f c pc pw _ _ Hf Hval Hcv Hclen) in Ho.
    apply String.eqb_neq in Hne. rewrite Hne in Ho. by simplify_eq.
  - intros v pw -> Hp Hv Hlen Hc. apply Hfail.
    rewrite Hc in Hrep. destruct Hrep as (o & Ho & Hrep).
    destruct (Hpw v pw Hp Hv) as [_ Hval].
    replace (250 <? String.length pw)%nat with false in Hval
      by (symmetry; apply Nat.ltb_ge; lia).
    destruct (Hupdate eq_refl) as [_ Hnone].
    destruct (confirm_fields f Hf) as (_ & _ & _ & Hpv).
    unfold ModelField_validate, validate_post, apply_post_validators in Ho.
    rewrite Hnone, Hpv in Ho. simpl in Ho. unfold passwords_match in Ho.
    rewrite Hval in Ho. simpl in Ho. by simplify_eq.
  - intros Hp. exists st. split; [done|].
    apply (not_in_errors "password_confirm"); [done|].
    destruct Hp as [Hp|[-> Hp]].
    + rewrite Hp in Hrep. destruct (required f); rewrite Hrep.
      * intros Hin. apply list_elem_of_singleton in Hin. discriminate.
      * apply not_elem_of_nil.
    + specialize (Hnopw eq_refl Hp).
      destruct (p !! "password_confirm") as [v|].
      * destruct Hrep as (o & Ho & Hrep).
        pose proof (confirm_without_password f v _ _ o Hf Hnopw Ho) as Hno.
        destruct o as [v'|es]; rewrite Hrep; [apply not_elem_of_nil | apply Hno].
      * rewrite (Hcreate eq_refl) in Hrep. rewrite Hrep.
        intros Hin. apply list_elem_of_singleton in Hin. discriminate.
Qed.

(** C10.  When the supplied [password] validates to a string longer than
    250 characters, [password] is reported with its length error and the
    comparison is skipped: no "passwords do not match" error appears,
    whatever [password_confirm] holds, and a [password_confirm] that
    validates to a string within the limit is reported with no error at
    all. *)
Theorem long_password_skips_comparison M p v s :
  M ∈ [UserCreate; UserUpdate] →
  p !! "password" = Some v → str_validator py v = Return (VStr s) →
  (250 < String.length s)%nat →
  ∃ errs, BaseModel_init py M p = Raise (ValidationError errs) ∧
    errors_at "password" errs = [([LName "password"], AnyStrMaxLengthError 250)] ∧
    (mismatch ∉ errs) ∧
    (∀ c pc, p !! "password_confirm" = Some c →
             str_validator py c = Return (VStr pc) → (String.length pc ≤ 250)%nat →
             errors_at "password_confirm" errs = []).
Proof.
  intros HS Hp Hv Hlen.
  destruct (plain_model_total py p M (user_models_plain _ HS)) as [st Hst].
  destruct (confirm_report M p st HS Hst)
    as (f & st1 & Hf & Hcreate & Hupdate & Hpw & _ & Hrep).
  destruct (Hpw v s Hp Hv) as [Hpass Hval].
  replace (250 <? String.length s)%nat with true in Hpass, Hval
    by (symmetry; apply Nat.ltb_lt; lia).
  exists (errors st). split; [|split; [done|split]].
  - apply (init_fails py M p st ([LName "password"], AnyStrMaxLengthError 250) Hst).
    apply (errors_at_elem "password"). rewrite Hpass. apply list_elem_of_here.
  - apply (not_in_errors "password_confirm"); [done|].
    destruct (p !! "password_confirm") as [c|].
    + destruct Hrep as (o & Ho & Hrep).
      pose proof (confirm_without_password f c _ _ o Hf Hval Ho) as Hno.
      destruct o as [v'|es]; rewrite Hrep; [apply not_elem_of_nil | apply Hno].
    + destruct (required f); rewrite Hrep.
      * intros Hin. apply list_elem_of_singleton in Hin. discriminate.
      * apply not_elem_of_nil.
  - intros c pc Hc Hcv Hclen. rewrite Hc in Hrep. destruct Hrep as (o & Ho & Hrep).
    destruct (confirm_fields f Hf) as (_ & Hsh & Hty & Hpv).
    rewrite (constr_field f 250 None c pc _ _ Hsh Hty Hcv) in Ho.
    replace (250 <? String.length pc)%nat with false in Ho
      by (symmetry; apply Nat.ltb_ge; lia).
    unfold validate_post, apply_post_validators in Ho. rewrite Hpv in Ho.
    simpl in Ho. unfold passwords_match in Ho. rewrite Hval in Ho. simpl in Ho.
    by simplify_eq.
Qed.

(** C6.  In [UserCreate] and [UserUpdate], a [mail] that validates to a
    string which is not of the form "one [@] with at least one other
    character on each side" is rejected with an error on [mail]; a string of
    that form and of at most 250 characters passes the check on [mail]
    unchanged. *)
Theorem mail_format M p v s :
  M ∈ [UserCreate; UserUpdate] →
  p !! "mail" = Some v → str_validator py v = Return (VStr s) →
  ∃ st, validate_model py M p = Return st ∧
    (one_at s = false →
       BaseModel_init py M p = Raise (ValidationError (errors st)) ∧
       ∃ e, errors_at "mail" (errors st) = [([LName "mail"], e)]) ∧
    (one_at s = true → (String.length s ≤ 250)%nat →
       errors_at "mail" (errors st) = [] ∧ values st !! "mail" = Some (VStr s)).
Proof.
  intros HS Hp Hv.
  destruct (plain_model_total py p M (user_models_plain _ HS)) as [st Hst].
  exists st. split; [done|].
  pose proof (user_models_NoDup M HS) as Hnd.
  assert (H : ∃ o,
    o = (if (250 <? String.length s)%nat
         then Errors [([LName "mail"], AnyStrMaxLengthError 250)]
         else if one_at s then Valid (VStr s)
              else Errors [([LName "mail"], StrRegexError)]) ∧
    match o with
    | Valid v' => errors_at "mail" (errors st) = [] ∧ values st !! "mail" = Some v'
    | Errors es => errors_at "mail" (errors st) = es ∧ values st !! "mail" = None
    end).
  { repeat (apply elem_of_cons in HS as [->|HS]); [| |by apply elem_of_nil in HS].
    - destruct (field_report_at py UserCreate 1 _ p st eq_refl Hnd Hst) as (st1 & _ & H).
      cbn [name Field] in H. rewrite Hp in H. destruct H as (_ & o & Ho & H).
      exists o. split; [|done].
      rewrite (constr_field (Field "mail" (constr_regex 250 mail_regex))
                 250 (Some mail_regex) v s _ _ eq_refl eq_refl Hv) in Ho.
      rewrite re_match_mail in Ho. unfold validate_post in Ho. simpl in Ho.
      destruct (250 <? String.length s)%nat; [by simplify_eq|].
      destruct (one_at s); by simplify_eq.
    - destruct (field_report_at py UserUpdate 1 _ p st eq_refl Hnd Hst) as (st1 & _ & H).
      cbn [name Field Optional] in H. rewrite Hp in H. destruct H as (_ & o & Ho & H).
      exists o. split; [|done].
      rewrite (constr_field (Optional (Field "mail" (constr_regex 250 mail_regex)))
                 250 (Some mail_regex) v s _ _ eq_refl eq_refl Hv) in Ho.
      rewrite re_match_mail in Ho. unfold validate_post in Ho. simpl in Ho.
      destruct (250 <? String.length s)%nat; [by simplify_eq|].
      destruct (one_at s); by simplify_eq. }
  destruct H as (o & -> & H). split.
  - intros Hone. rewrite Hone in H.
    assert (He : ∃ e, errors_at "mail" (errors st) = [([LName "mail"], e)]).
    { destruct (250 <? String.length s)%nat; destruct H as [-> _]; by eauto. }
    split; [|done]. destruct He as [e He].
    apply (init_fails py M p st ([LName "mail"], e) Hst).
    apply (errors_at_elem "mail"). rewrite He. apply list_elem_of_here.
  - intros Hone Hlen. rewrite Hone in H.
    replace (250 <? String.length s)%nat with false in H
      by (symmetry; apply Nat.ltb_ge; lia).
    done.
Qed.

(** C9.  In [UserCreate], [password] and [password_confirm] are required:
    a payload that omits either one is rejected, and the errors reported
    for the omitted field are exactly one missing-field error. *)
Theorem UserCreate_requires_passwords p n :
  n ∈ ["password"; "password_confirm"] →
  p !! n = None →
  ∃ errs, BaseModel_init py UserCreate p = Raise (ValidationError errs) ∧
          errors_at n errs = [([LName n], MissingError)].
Proof.
  intros Hn Hp.
  assert (HS : UserCreate ∈ [UserCreate; UserUpdate]) by apply list_elem_of_here.
  destruct (plain_model_total py p UserCreate (user_models_plain _ HS)) as [st Hst].
  exists (errors st).
  repeat (apply elem_of_cons in Hn as [->|Hn]); [| |by apply elem_of_nil in Hn].
  - by apply (required_missing py UserCreate 2 _ p st eq_refl (user_models_NoDup _ HS)).
  - by apply (required_missing py UserCreate 3 _ p st eq_refl (user_models_NoDup _ HS)).
Qed.

End Users.

(** ** MethodOreEfficiency *)

Section Efficiencies.
Context (py : PyBuiltins).
Implicit Types (p : gmap string pyval) (st : vstate).

Lemma bind_Return_r {A} (m : result A) : m ≫= (λ a, Return a) = m.
Proof. by destruct m. Qed.

(** A [confloat] field on a value that converts to the float [x]: the
    bounds are checked on [x]. *)
Lemma confloat_field n gt le v x vals l :
  float_validator py v = Return (VFloat x) →
  ModelField_validate py (Field n (TConFloat gt le)) v vals l =
  catch l (number_size_validator gt le (VFloat x)) ≫= λ r,
    match r with
    | Errors _ => Return r
    | Valid v' => Return (Valid v')
    end.
Proof.
  intros H.
  assert (Hrun : run_validators (find_validators py (TConFloat gt le)) v =
                 number_size_validator gt le (VFloat x)).
  { cbn [find_validators run_validators]. rewrite H. simpl. apply bind_Return_r. }
  unfold ModelField_validate, validate_shape, validate_post, apply_validators.
  cbn [shape type_ post_validators Field]. rewrite Hrun.
  destruct v; try done.
Qed.

Lemma MethodOreEfficiency_NoDup : NoDup (name <$> MethodOreEfficiency).
Proof. by apply (bool_decide_unpack _). Qed.

(** C5.  For a [MethodOreEfficiency] payload whose [efficiency] converts
    to the float [x] and whose [duration] converts to the float [d]:
    [efficiency] is accepted exactly when [0 < x <= 1], so it is rejected
    at 0, accepted at 1 and rejected at 1.5; [duration] is accepted exactly
    when [0 < d]. *)
Theorem efficiency_and_duration_bounds p ve vd x d :
  p !! "efficiency" = Some ve → float_validator py ve = Return (VFloat x) →
  p !! "duration" = Some vd → float_validator py vd = Return (VFloat d) →
  ∃ st, validate_model py MethodOreEfficiency p = Return st ∧
    (errors_at "efficiency" (errors st) = [] ↔
       (0 <? x)%float = true ∧ (x <=? 1)%float = true) ∧
    (errors_at "duration" (errors st) = [] ↔ (0 <? d)%float = true) ∧
    (x = 0%float →
       errors_at "efficiency" (errors st) =
         [([LName "efficiency"], NumberNotGtError 0%float)]) ∧
    (x = 1%float → errors_at "efficiency" (errors st) = []) ∧
    (x = 1.5%float →
       errors_at "efficiency" (errors st) =
         [([LName "efficiency"], NumberNotLeError 1%float)]).
Proof.
  intros Hpe He Hpd Hd.
  assert (Htot : ∃ st, validate_model py MethodOreEfficiency p = Return st).
  { apply validate_fields_total. repeat apply Forall_cons_2; try apply Forall_nil_2.
    - intros v vals l Hv. cbn [name Field] in Hv. rewrite Hpe in Hv. simplify_eq.
      rewrite (confloat_field _ _ _ _ x) by done.
      destruct (number_size_validator (Some 0%float) (Some 1%float) (VFloat x))
        as [?|[]] eqn:E; simpl; eauto;
        unfold number_size_validator in E; simpl in E;
        repeat (case_match; simpl in E; try discriminate).
    - intros v vals l Hv. cbn [name Field] in Hv. rewrite Hpd in Hv. simplify_eq.
      rewrite (confloat_field _ _ _ _ d) by done.
      destruct (number_size_validator (Some 0%float) None (VFloat d))
        as [?|[]] eqn:E; simpl; eauto;
        unfold number_size_validator in E; simpl in E;
        repeat (case_match; simpl in E; try discriminate).
    - apply plain_field_returns. split; [done|apply Forall_nil_2].
    - apply plain_field_returns. split; [done|apply Forall_nil_2]. }
  destruct Htot as [st Hst]. exists st. split; [done|].
  destruct (field_report_at py MethodOreEfficiency 0 _ p st eq_refl
              MethodOreEfficiency_NoDup Hst) as (? & _ & Hre).
  destruct (field_report_at py MethodOreEfficiency 1 _ p st eq_refl
              MethodOreEfficiency_NoDup Hst) as (? & _ & Hrd).
  cbn [name Field] in Hre, Hrd. rewrite Hpe in Hre. rewrite Hpd in Hrd.
  destruct Hre as (_ & oe & Hoe & Hre). destruct Hrd as (_ & od & Hod & Hrd).
  rewrite (confloat_field _ _ _ _ x) in Hoe by done.
  rewrite (confloat_field _ _ _ _ d) in Hod by done.
  unfold number_size_validator in Hoe, Hod. simpl in Hoe, Hod.
  assert (Heff : errors_at "efficiency" (errors st) =
            if negb (0 <? x)%float
            then [([LName "efficiency"], NumberNotGtError 0%float)]
            else if negb (x <=? 1)%float
                 then [([LName "efficiency"], NumberNotLeError 1%float)]
                 else []).
  { destruct (0 <? x)%float; simpl in Hoe |- *; [|by simplify_eq; destruct Hre].
    destruct (x <=? 1)%float; simpl in Hoe |- *; by simplify_eq; destruct Hre. }
  assert (Hdur : errors_at "duration" (errors st) =
            if negb (0 <? d)%float
            then [([LName "duration"], NumberNotGtError 0%float)]
            else []).
  { destruct (0 <? d)%float; simpl in Hod |- *; by simplify_eq; destruct Hrd. }
  rewrite Heff, Hdur. clear.
  repeat split.
  - by destruct (0 <? x)%float.
  - by destruct (0 <? x)%float, (x <=? 1)%float.
  - intros [-> ->]. done.
  - by destruct (0 <? d)%float.
  - by intros ->.
  - by intros ->.
  - by intros ->.
  - by intros ->.
Qed.

End Efficiencies.

(** ** Projections *)

Section Projections.
Context (py : PyBuiltins).

(** An attribute access returns the attribute or raises [AttributeError]. *)
Lemma getattr_cases obj a :
  (∃ v, getattr obj a = Return v) ∨ getattr obj a = Raise (AttributeError a).
Proof.
  unfold getattr. destruct obj; try (by right);
    destruct (assoc a _); by eauto.
Qed.

(** C4.  When the [ore] of the record is [None], the projections of
    [StationOreEfficiency] and of [MethodOreEfficiency] produce no
    structure: they raise [AttributeError], which reaches the caller. *)
Theorem from_orm_without_ore obj :
  getattr obj "ore" = Return VNone →
  (∃ a, StationOreEfficiency_from_orm py obj = Raise (AttributeError a)) ∧
  (∃ a, MethodOreEfficiency_from_orm py obj = Raise (AttributeError a)).
Proof.
  intros Hore. split.
  - unfold StationOreEfficiency_from_orm.
    destruct (getattr_cases obj "efficiency_bonus") as [[? ->]| ->]; simpl; [|by eauto].
    destruct (getattr_cases obj "ore_id") as [[? ->]| ->]; simpl; [|by eauto].
    rewrite Hore. simpl. by eauto.
  - unfold MethodOreEfficiency_from_orm.
    destruct (getattr_cases obj "efficiency") as [[? ->]| ->]; simpl; [|by eauto].
    destruct (getattr_cases obj "duration") as [[? ->]| ->]; simpl; [|by eauto].
    destruct (getattr_cases obj "ore_id") as [[? ->]| ->]; simpl; [|by eauto].
    rewrite Hore. simpl. by eauto.
Qed.

(** C7.  The projection of a friendship record takes [user_name] and
    [friend_name] from the [name] of the related [user] and [friend]
    objects, whatever else the record stores, and copies [user_id],
    [friend_id], [created] and [confirmed]. *)
Theorem Friendship_from_orm_names friendship user friend uid fid uname fname
    created confirmed :
  getattr friendship "user_id" = Return (VInt uid) →
  getattr friendship "user" = Return user →
  getattr user "name" = Return (VStr uname) →
  getattr friendship "friend_id" = Return (VInt fid) →
  getattr friendship "friend" = Return friend →
  getattr friend "name" = Return (VStr fname) →
  getattr friendship "created" = Return (VDatetime created) →
  getattr friendship "confirmed" = Return confirmed →
  (confirmed = VNone ∨ ∃ d, confirmed = VDatetime d) →
  ∃ m, Friendship_from_orm py friendship = Return m ∧
    inst_dict m = dict_of [ ("user_id", VInt uid);
                            ("user_name", VStr uname);
                            ("friend_id", VInt fid);
                            ("friend_name", VStr fname);
                            ("created", VDatetime created);
                            ("confirmed", confirmed) ].
Proof.
  intros Huid Hu Hun Hfid Hf Hfn Hc Hconf Hty.
  unfold Friendship_from_orm.
  rewrite Huid; simpl; rewrite Hu; simpl; rewrite Hun; simpl.
  rewrite Hfid; simpl; rewrite Hf; simpl; rewrite Hfn; simpl.
  rewrite Hc; simpl; rewrite Hconf; simpl.
  destruct Hty as [->|[d ->]]; eexists; (split; [vm_compute; reflexivity|]);
    vm_compute; reflexivity.
Qed.

End Projections.

(** ** The list envelope *)

Section Envelope.
Context (py : PyBuiltins).

Lemma validate_item_Any v l : validate_item py TAny v l = Return (Valid v).
Proof. by destruct v. Qed.

Lemma validate_items_fixed t l xs : ∀ i,
  Forall (λ x, ∀ l, validate_item py t x l = Return (Valid x)) xs →
  validate_items py t l i xs = Return (xs, []).
Proof.
  induction xs as [|x xs IH]; intros i H; simpl; [done|].
  apply Forall_cons in H as [Hx H]. by rewrite Hx, (IH _ H).
Qed.

(** An item that is an instance of the item model is left as it is. *)
Lemma validate_item_instance cls fs from_orm d fset l :
  validate_item py (TModel cls (BaseModel_validate py cls fs from_orm))
    (VModel cls d fset) l = Return (Valid (VModel cls d fset)).
Proof.
  unfold validate_item, apply_validators. simpl.
  by rewrite String.eqb_refl.
Qed.

(** C8.  [ListResponse] accepts every integer [total_count] together with
    every list of [items] that its item type leaves as they are, which is
    every list when the item type is left open, and keeps both as given:
    it does not look at the length of [items]. *)
Theorem ListResponse_keeps_both ItemT p n items :
  p !! "total_count" = Some (VInt n) →
  p !! "items" = Some (VList items) →
  ItemT = TAny ∨ Forall (λ x, ∀ l, validate_item py ItemT x l = Return (Valid x)) items →
  ∃ m, BaseModel_init py (ListResponse ItemT) p = Return m ∧
    inst_dict m = dict_of [("total_count", VInt n); ("items", VList items)] ∧
    inst_fields_set m = {["total_count"; "items"]}.
Proof.
  intros Hn Hitems Hty.
  assert (H : Forall (λ x, ∀ l, validate_item py ItemT x l = Return (Valid x)) items).
  { destruct Hty as [->|H]; [|done]. apply Forall_forall. intros x _ l.
    apply validate_item_Any. }
  unfold BaseModel_init, validate_model, ListResponse.
  cbn [validate_fields]. unfold validate_field.
  cbn [name Field ListField]. rewrite Hn.
  cbn. rewrite Hitems. cbn.
  unfold validate_sequence_like. rewrite (validate_items_fixed _ _ _ _ H). cbn.
  eexists. split; [reflexivity|]. cbn. split.
  - unfold dict_of. cbn. apply insert_insert_ne. done.
  - set_solver.
Qed.

End Envelope.

(** ** The update models *)

Section Updates.
Context (py : PyBuiltins).
Implicit Types (f : ModelField) (fs : list ModelField).
Implicit Types (p : gmap string pyval) (st : vstate).

Lemma update_models_NoDup fs : fs ∈ update_models py → NoDup (name <$> fs).
Proof.
  intros H. repeat (apply elem_of_cons in H as [->|H]);
    try (by apply elem_of_nil in H); by apply (bool_decide_unpack _).
Qed.

Lemma update_models_checks fs f :
  fs ∈ update_models py → f ∈ fs → Forall checks_only (post_validators f).
Proof.
  intros H Hf. repeat (apply elem_of_cons in H as [->|H]);
    try (by apply elem_of_nil in H);
    repeat (apply elem_of_cons in Hf as [->|Hf]);
    try (by apply elem_of_nil in Hf);
    try apply Forall_nil_2;
    (apply Forall_cons_2; [apply passwords_match_checks | apply Forall_nil_2]).
Qed.

(** Which fields of the update models are required: the two keys of
    [FriendshipUpdate], and nothing else. *)
Lemma update_models_required fs f :
  fs ∈ update_models py → f ∈ fs →
  (name f ∈ ["user_id"; "friend_id"] → fs = FriendshipUpdate ∧ required f = true) ∧
  (name f ∉ ["user_id"; "friend_id"] → required f = false ∧ allow_none f = true).
Proof.
  intros H Hf. repeat (apply elem_of_cons in H as [->|H]);
    try (by apply elem_of_nil in H);
    repeat (apply elem_of_cons in Hf as [->|Hf]);
    try (by apply elem_of_nil in Hf);
    (split; [intros Hn|intros Hn]); try done;
    try (exfalso; repeat (apply elem_of_cons in Hn as [Hn|Hn]; [discriminate|]);
         by apply elem_of_nil in Hn);
    try (exfalso; apply Hn; cbn [name Field];
         first [apply list_elem_of_here | apply list_elem_of_further, list_elem_of_here]).
Qed.

(** C2, as the code has it.  In [UserUpdate], [OreUpdate], [StationUpdate],
    [MethodUpdate] and [MiningSessionUpdate] every field is optional, and so
    are [user_name], [friend_name], [confirmed] and [name] of
    [FriendshipUpdate]: for a payload that omits such a field, the turn of
    the field in the validation loop returns without an error, and the
    report of the validation carries no error for it and [None] as its
    value.  [user_id] and [friend_id] of [FriendshipUpdate] are required: a
    payload that omits one of them is rejected with a missing-field error
    for it. *)
Theorem update_fields_optional fs f p :
  fs ∈ update_models py → f ∈ fs → p !! name f = None →
  (name f ∉ ["user_id"; "friend_id"] →
     (∀ st0, ∃ st1, validate_field py p f st0 = Return st1 ∧ errors st1 = errors st0) ∧
     (∀ st, validate_model py fs p = Return st →
        errors_at (name f) (errors st) = [] ∧ values st !! name f = Some VNone)) ∧
  (name f ∈ ["user_id"; "friend_id"] →
     fs = FriendshipUpdate ∧
     ∀ st, validate_model py fs p = Return st →
        BaseModel_init py fs p = Raise (ValidationError (errors st)) ∧
        errors_at (name f) (errors st) = [([LName (name f)], MissingError)]).
Proof.
  intros Hfs Hf Hp.
  destruct (update_models_required fs f Hfs Hf) as [Hreq Hopt].
  pose proof (update_models_NoDup fs Hfs) as Hnd.
  pose proof Hf as Hi. apply list_elem_of_lookup in Hi as [i Hi].
  split.
  - intros Hn. destruct (Hopt Hn) as [Hr _]. split.
    + intros st0. unfold validate_field. rewrite Hp, Hr. by eauto.
    + intros st Hst.
      by destruct (optional_missing py fs i f p st Hi Hnd Hr Hp Hst) as (? & ? & _).
  - intros Hn. destruct (Hreq Hn) as [-> Hr]. split; [done|].
    intros st Hst. by apply (required_missing py FriendshipUpdate i f p st).
Qed.

(** A supplied value that has the type of its field comes out unchanged. *)
Lemma supplied_isinstance fs i f p m v :
  fs !! i = Some f → NoDup (name <$> fs) →
  Forall checks_only (post_validators f) →
  p !! name f = Some v → field_isinstance f v = true →
  BaseModel_init py fs p = Return m →
  inst_dict m !! name f = Some v ∧ name f ∈ inst_fields_set m.
Proof.
  intros Hi Hnd Hpv Hp Hty Hm.
  apply init_succeeds in Hm as (st & Hst & Herr & -> & ->).
  destruct (field_report_at py fs i f p st Hi Hnd Hst) as (st1 & _ & H).
  rewrite Hp in H. destruct H as (Hset & o & Ho & H). split; [|done].
  destruct (field_isinstance_validate py f v (values st1) [LName (name f)] Hty Hpv)
    as [E|(es & Hes & E)]; rewrite E in Ho; simplify_eq.
  - by destruct H.
  - destruct H as [H _]. rewrite Herr in H. by destruct es.
Qed.

(** C3, as the code has it.  For a payload that one of the update models
    accepts: a field the payload omits is not in [__fields_set__] and has
    the value [None]; a field the payload sets to [None] is in
    [__fields_set__] and has the value [None], which tells the two apart;
    and a supplied value that already has the type of its field ([None], a
    string for [constr], a [bool], a [float], a [datetime], an [int], a
    list of strings for [scopes]) comes out unchanged. *)
Theorem update_round_trip fs f p m :
  fs ∈ update_models py → f ∈ fs →
  BaseModel_init py fs p = Return m →
  (p !! name f = None →
     inst_dict m !! name f = Some VNone ∧ name f ∉ inst_fields_set m) ∧
  (p !! name f = Some VNone →
     inst_dict m !! name f = Some VNone ∧ name f ∈ inst_fields_set m) ∧
  (∀ v, p !! name f = Some v → field_isinstance f v = true →
     inst_dict m !! name f = Some v ∧ name f ∈ inst_fields_set m).
Proof.
  intros Hfs Hf Hm.
  pose proof (update_models_NoDup fs Hfs) as Hnd.
  pose proof (update_models_checks fs f Hfs Hf) as Hpv.
  destruct (update_models_required fs f Hfs Hf) as [Hreq Hopt].
  pose proof Hf as Hi. apply list_elem_of_lookup in Hi as [i Hi].
  assert (H3 : ∀ v, p !! name f = Some v → field_isinstance f v = true →
                 inst_dict m !! name f = Some v ∧ name f ∈ inst_fields_set m).
  { intros v Hp Hty. by apply (supplied_isinstance fs i f p m v). }
  pose proof Hm as Hm'.
  apply init_succeeds in Hm' as (st & Hst & Herr & Hd & Hs).
  destruct (field_report_at py fs i f p st Hi Hnd Hst) as (st1 & _ & H).
  split; [|split; [|exact H3]]; rewrite ?Hd, ?Hs.
  - intros Hp. rewrite Hp in H. destruct H as (Hset & H).
    destruct (required f).
    + destruct H as [H _]. rewrite Herr in H. discriminate.
    + by destruct H.
  - intros Hp. destruct (decide (name f ∈ ["user_id"; "friend_id"])) as [Hn|Hn].
    + exfalso. destruct (Hreq Hn) as [-> _].
      rewrite Hp in H. destruct H as (_ & o & Ho & H).
      repeat (apply elem_of_cons in Hf as [->|Hf]); try (by apply elem_of_nil in Hf);
        try (repeat (apply elem_of_cons in Hn as [Hn|Hn]; [discriminate|]);
             by apply elem_of_nil in Hn);
        cbn in Ho; simplify_eq; destruct H as [H _]; rewrite Herr in H; discriminate.
    + destruct (Hopt Hn) as [_ Hnone]. rewrite <- Hd, <- Hs.
      apply H3; [done|]. exact Hnone.
Qed.

End Updates.

(** ** Closed instances *)

(** C1 at concrete payloads: two different passwords on create, a password
    against an explicit [None] on update, and an update that omits
    [password_confirm]. *)
Lemma passwords_match_rule_witness :
  (∃ errs, BaseModel_init no_conversions UserCreate
             (signup "alice@example.org" "secret" "secrte") =
           Raise (ValidationError errs) ∧
           errors_at "password_confirm" errs = [mismatch]) ∧
  (∃ errs, BaseModel_init no_conversions UserUpdate
             (change_password (VStr "secret") VNone) =
           Raise (ValidationError errs) ∧
           errors_at "password_confirm" errs = [mismatch]) ∧
  (∃ st, validate_model no_conversions UserUpdate
           (dict_of [("password", VStr "secret")]) = Return st ∧
         mismatch ∉ errors st).
Proof.
  split; [|split].
  - apply (proj1 (passwords_match_rule no_conversions UserCreate
                    (signup "alice@example.org" "secret" "secrte")
                    ltac:(apply list_elem_of_here))
                 (VStr "secret") "secret" (VStr "secrte") "secrte");
      [reflexivity | reflexivity | vm_compute; lia
      | reflexivity | reflexivity | vm_compute; lia | discriminate].
  - apply (proj1 (proj2 (passwords_match_rule no_conversions UserUpdate
                    (change_password (VStr "secret") VNone)
                    ltac:(apply list_elem_of_further, list_elem_of_here)))
                 (VStr "secret") "secret");
      [reflexivity | reflexivity | reflexivity | vm_compute; lia | reflexivity].
  - apply (proj2 (proj2 (passwords_match_rule no_conversions UserUpdate
                    (dict_of [("password", VStr "secret")])
                    ltac:(apply list_elem_of_further, list_elem_of_here)))).
    left. reflexivity.
Defined.

(** C1 as stated does not hold: this update supplies [password] and
    [password_confirm] with different values, and the only error reported is
    the one on [password]; nothing is attached to [password_confirm]. *)
Lemma different_passwords_without_confirm_error :
  (λ py, BaseModel_init py UserUpdate
           (change_password (VStr (letters 251)) (VStr "b"))) =
  (λ _, Raise (ValidationError [([LName "password"], AnyStrMaxLengthError 250)])) ∧
  py_eqb (VStr "b") (VStr (letters 251)) = false ∧
  errors_at "password_confirm" [([LName "password"], AnyStrMaxLengthError 250)] = [].
Proof. repeat split; vm_compute; reflexivity. Qed.

(** What [UserUpdate] does with a [password_confirm] that comes alone: the
    omitted [password] is in [values] with its default [None], and the string
    is compared with it. *)
Example UserUpdate_confirm_alone :
  (λ py, BaseModel_init py UserUpdate (dict_of [("password_confirm", VStr "secret")])) =
  (λ _, Raise (ValidationError [mismatch])).
Proof. vm_compute. reflexivity. Qed.

(** The comparison is made after conversion: the number 123 and the string
    "123" are the same password. *)
Example passwords_compared_after_conversion :
  (λ py, accepted (BaseModel_init py UserUpdate
                     (change_password (VInt 123) (VStr "123")))) = (λ _, true).
Proof. vm_compute. reflexivity. Qed.

(** C2 at a concrete payload: an empty update of a user. *)
Lemma update_fields_optional_witness :
  ∃ st, validate_model no_conversions UserUpdate ∅ = Return st ∧
        errors_at "name" (errors st) = [] ∧ values st !! "name" = Some VNone.
Proof.
  eexists. split; [vm_compute; reflexivity|].
  apply (proj1 (update_fields_optional no_conversions UserUpdate
                  (Optional (Field "name" (constr 50))) ∅
                  ltac:(apply list_elem_of_here) ltac:(apply list_elem_of_here)
                  ltac:(reflexivity))
               ltac:(by apply (bool_decide_unpack _))).
  vm_compute. reflexivity.
Defined.

(** C2 as stated does not hold: [FriendshipUpdate] accepts this payload with
    [user_id] and rejects it without. *)
Lemma FriendshipUpdate_requires_user_id :
  (λ py, accepted (BaseModel_init py FriendshipUpdate
                     (dict_of [("user_id", VInt 1); ("friend_id", VInt 2)]))) =
  (λ _, true) ∧
  (λ py, BaseModel_init py FriendshipUpdate (dict_of [("friend_id", VInt 2)])) =
  (λ _, Raise (ValidationError [([LName "user_id"], MissingError)])).
Proof. split; vm_compute; reflexivity. Qed.

(** C3 at a concrete payload: [name] is supplied as a string, [mail] as
    [None], and [password] is omitted. *)
Lemma update_round_trip_witness :
  ∃ m, BaseModel_init no_conversions UserUpdate rename_user = Return m ∧
    (inst_dict m !! "name" = Some (VStr "Alice") ∧ "name" ∈ inst_fields_set m) ∧
    (inst_dict m !! "mail" = Some VNone ∧ "mail" ∈ inst_fields_set m) ∧
    (inst_dict m !! "password" = Some VNone ∧ "password" ∉ inst_fields_set m).
Proof.
  eexists. split; [vm_compute; reflexivity|].
  split; [|split].
  - apply (proj2 (proj2 (update_round_trip no_conversions UserUpdate
                    (Optional (Field "name" (constr 50))) rename_user _
                    ltac:(apply list_elem_of_here) ltac:(apply list_elem_of_here)
                    ltac:(vm_compute; reflexivity))));
      reflexivity.
  - apply (proj1 (proj2 (update_round_trip no_conversions UserUpdate
                    (Optional (Field "mail" (constr_regex 250 mail_regex))) rename_user _
                    ltac:(apply list_elem_of_here)
                    ltac:(apply list_elem_of_further, list_elem_of_here)
                    ltac:(vm_compute; reflexivity))));
      reflexivity.
  - apply (proj1 (update_round_trip no_conversions UserUpdate
                    (Optional (Field "password" (constr 250))) rename_user _
                    ltac:(apply list_elem_of_here)
                    ltac:(do 2 apply list_elem_of_further; apply list_elem_of_here)
                    ltac:(vm_compute; reflexivity)));
      reflexivity.
Defined.

(** C3 as stated does not hold: the number 123 supplied as [name] is
    accepted and comes out as the string "123"; and [mail], which the
    payload omits, is in the parsed structure with the value [None]. *)
Lemma UserUpdate_coerces_name :
  (λ py, field_of (BaseModel_init py UserUpdate (dict_of [("name", VInt 123)])) "name") =
  (λ _, Some (VStr "123")) ∧
  py_eqb (VStr "123") (VInt 123) = false ∧
  (λ py, field_of (BaseModel_init py UserUpdate (dict_of [("name", VInt 123)])) "mail") =
  (λ _, Some VNone).
Proof. repeat split; vm_compute; reflexivity. Qed.

(** C4 at a concrete record. *)
Lemma from_orm_without_ore_witness :
  getattr efficiency_record_without_ore "ore" = Return VNone ∧
  (∃ a, StationOreEfficiency_from_orm no_conversions efficiency_record_without_ore =
        Raise (AttributeError a)) ∧
  (∃ a, MethodOreEfficiency_from_orm no_conversions efficiency_record_without_ore =
        Raise (AttributeError a)).
Proof.
  split; [reflexivity|].
  apply (from_orm_without_ore no_conversions efficiency_record_without_ore).
  reflexivity.
Defined.

(** C5 at a concrete payload: the efficiency 1.5 with the duration 90. *)
Lemma efficiency_and_duration_bounds_witness :
  ∃ st, validate_model no_conversions MethodOreEfficiency
          (efficiency_entry (VFloat 1.5%float) (VInt 90)) = Return st ∧
        errors_at "efficiency" (errors st) =
          [([LName "efficiency"], NumberNotLeError 1%float)] ∧
        errors_at "duration" (errors st) = [].
Proof.
  destruct (efficiency_and_duration_bounds no_conversions
              (efficiency_entry (VFloat 1.5%float) (VInt 90))
              (VFloat 1.5%float) (VInt 90) 1.5%float 90%float
              ltac:(reflexivity) ltac:(reflexivity)
              ltac:(reflexivity) ltac:(vm_compute; reflexivity))
    as (st & Hst & _ & Hd & _ & _ & He).
  exists st. split; [exact Hst|]. split.
  - apply He. reflexivity.
  - apply Hd. reflexivity.
Defined.

(** C6 at concrete payloads: a mail address with two [@], and a well-formed
    one. *)
Lemma mail_format_witness :
  (∃ errs e, BaseModel_init no_conversions UserCreate
               (signup "alice@example@org" "secret" "secret") =
             Raise (ValidationError errs) ∧
             errors_at "mail" errs = [([LName "mail"], e)]) ∧
  (∃ st, validate_model no_conversions UserCreate
           (signup "alice@example.org" "secret" "secret") = Return st ∧
         errors_at "mail" (errors st) = [] ∧
         values st !! "mail" = Some (VStr "alice@example.org")).
Proof.
  split.
  - destruct (mail_format no_conversions UserCreate
                (signup "alice@example@org" "secret" "secret")
                (VStr "alice@example@org") "alice@example@org"
                ltac:(apply list_elem_of_here) ltac:(reflexivity) ltac:(reflexivity))
      as (st & _ & Hbad & _).
    destruct (Hbad ltac:(reflexivity)) as (Hinit & e & He).
    by exists (errors st), e.
  - destruct (mail_format no_conversions UserCreate
                (signup "alice@example.org" "secret" "secret")
                (VStr "alice@example.org") "alice@example.org"
                ltac:(apply list_elem_of_here) ltac:(reflexivity) ltac:(reflexivity))
      as (st & Hst & _ & Hgood).
    exists st. split; [exact Hst|].
    apply Hgood; [reflexivity | vm_compute; lia].
Defined.

(** C7 at a concrete record, with "Alice" and "Bob" behind the relations and
    other names in the record's own columns. *)
Lemma Friendship_from_orm_names_witness :
  ∃ m, Friendship_from_orm no_conversions friendship_record = Return m ∧
    inst_dict m = dict_of [ ("user_id", VInt 1);
                            ("user_name", VStr "Alice");
                            ("friend_id", VInt 2);
                            ("friend_name", VStr "Bob");
                            ("created", VDatetime new_year);
                            ("confirmed", VNone) ].
Proof.
  apply (Friendship_from_orm_names no_conversions friendship_record alice bob);
    try reflexivity.
  left. reflexivity.
Defined.

(** C8 at a concrete payload: a total of 57 with a page of 20 items. *)
Lemma ListResponse_keeps_both_witness :
  List.length page = 20%nat ∧
  ∃ m, BaseModel_init no_conversions (ListResponse TAny) page_response = Return m ∧
    inst_dict m = dict_of [("total_count", VInt 57); ("items", VList page)] ∧
    inst_fields_set m = {["total_count"; "items"]}.
Proof.
  split; [reflexivity|].
  apply (ListResponse_keeps_both no_conversions TAny page_response 57 page);
    [reflexivity | reflexivity | left; reflexivity].
Defined.

(** C9 at a concrete payload: a sign-up without [password]. *)
Lemma UserCreate_requires_passwords_witness :
  signup_without_password !! "password" = None ∧
  ∃ errs, BaseModel_init no_conversions UserCreate signup_without_password =
          Raise (ValidationError errs) ∧
          errors_at "password" errs = [([LName "password"], MissingError)].
Proof.
  split; [reflexivity|].
  apply (UserCreate_requires_passwords no_conversions signup_without_password "password");
    [apply list_elem_of_here | reflexivity].
Defined.

(** C10 at a concrete payload: a password of 251 letters. *)
Lemma long_password_skips_comparison_witness :
  ∃ errs, BaseModel_init no_conversions UserUpdate
            (change_password (VStr (letters 251)) (VStr "b")) =
          Raise (ValidationError errs) ∧
    errors_at "password" errs = [([LName "password"], AnyStrMaxLengthError 250)] ∧
    (mismatch ∉ errs) ∧
    errors_at "password_confirm" errs = [].
Proof.
  destruct (long_password_skips_comparison no_conversions UserUpdate
              (change_password (VStr (letters 251)) (VStr "b"))
              (VStr (letters 251)) (letters 251)
              ltac:(apply list_elem_of_further, list_elem_of_here)
              ltac:(reflexivity) ltac:(reflexivity) ltac:(vm_compute; lia))
    as (errs & Hinit & Hpass & Hno & Hconfirm).
  exists errs. repeat split; try done.
  apply (Hconfirm (VStr "b") "b"); [reflexivity | reflexivity | vm_compute; lia].
Defined.

(** * Further properties *)

(** ** What every model does with a payload *)

Section Reports.
Context (py : PyBuiltins).
Implicit Types (f : ModelField) (fs : list ModelField).
Implicit Types (p : gmap string pyval) (st : vstate).

Lemma validate_field_set p f st st' :
  validate_field py p f st = Return st' →
  fields_set st' = match p !! name f with
                   | Some _ => {[name f]} ∪ fields_set st
                   | None => fields_set st
                   end.
Proof.
  unfold validate_field. destruct (p !! name f) as [v|].
  - intros H. apply bind_Return in H as (o & _ & H). destruct o; by simplify_eq.
  - destruct (required f); intros H; by simplify_eq.
Qed.

Lemma validate_fields_set p fs : ∀ st st' n,
  validate_fields py p fs st = Return st' →
  n ∈ fields_set st' ↔ n ∈ fields_set st ∨ (n ∈ name <$> fs ∧ is_Some (p !! n)).
Proof.
  induction fs as [|f fs IH]; intros st st' n; simpl.
  - intros H. simplify_eq. rewrite elem_of_nil. tauto.
  - intros H. apply bind_Return in H as (st1 & H1 & H).
    rewrite (IH _ _ n H), (validate_field_set _ _ _ _ H1), elem_of_cons.
    destruct (p !! name f) as [v|] eqn:E.
    + rewrite elem_of_union, elem_of_singleton. split.
      * intros [[->|?]|[? ?]]; [right; split; [by left|by rewrite E]|by left|by right; split; [right|]].
      * intros [?|[[->|?] ?]]; [by left; right|by left; left|by right].
    + split.
      * intros [?|[? ?]]; [by left|by right; split; [right|]].
      * intros [?|[[->|?] Hs]]; [by left| |by right].
        rewrite E in Hs. by destruct Hs.
Qed.

(** X1.  [__fields_set__] holds exactly the declared fields that the payload
    supplies, whether their values were accepted or not, and never a key
    that is not a field. *)
Theorem fields_set_supplied fs p st n :
  validate_model py fs p = Return st →
  n ∈ fields_set st ↔ n ∈ name <$> fs ∧ is_Some (p !! n).
Proof.
  intros H. rewrite (validate_fields_set p fs state0 st n H).
  unfold state0. simpl. rewrite elem_of_empty. tauto.
Qed.

Lemma validate_fields_agree p p' fs : ∀ st,
  (∀ f, f ∈ fs → p !! name f = p' !! name f) →
  validate_fields py p fs st = validate_fields py p' fs st.
Proof.
  induction fs as [|f fs IH]; intros st H; simpl; [done|].
  assert (Hf : validate_field py p f st = validate_field py p' f st).
  { unfold validate_field. rewrite (H f). - done. - apply list_elem_of_here. }
  rewrite Hf. destruct (validate_field py p' f st) as [st1|x]; simpl; [|done].
  apply IH. intros g Hg. apply H. by apply list_elem_of_further.
Qed.

(** X2.  A model reads its own fields and nothing else: two payloads that
    agree on the declared fields are treated alike, so keys that name no
    field are ignored. *)
Theorem unknown_keys_ignored fs p p' :
  (∀ f, f ∈ fs → p !! name f = p' !! name f) →
  BaseModel_init py fs p = BaseModel_init py fs p'.
Proof.
  intros H. unfold BaseModel_init, validate_model.
  by rewrite (validate_fields_agree p p' fs state0 H).
Qed.

Lemma validate_fields_errors p fs : ∀ st0 st,
  validate_fields py p fs st0 = Return st →
  ∃ ess, errors st = errors st0 ++ concat ess ∧
         Forall2 (λ f es, Forall (at_field (name f)) es) fs ess.
Proof.
  induction fs as [|f fs IH]; intros st0 st; simpl.
  - intros H. simplify_eq. exists []. simpl. rewrite app_nil_r. split; [done|constructor].
  - intros H. apply bind_Return in H as (st1 & H1 & H).
    destruct (validate_field_inv py p f st0 st1 H1) as (es & He & Hes & _).
    destruct (IH st1 st H) as (ess & Hess & Hall).
    exists (es :: ess). simpl. rewrite Hess, He, <- app_assoc. split; [done|].
    by constructor.
Qed.

Lemma errors_at_concat_other n fs : ∀ ess,
  n ∉ name <$> fs →
  Forall2 (λ f es, Forall (at_field (name f)) es) fs ess →
  errors_at n (concat ess) = [].
Proof.
  induction fs as [|f fs IH]; intros ess Hn Hall.
  - apply Forall2_nil_inv_l in Hall as ->. done.
  - apply Forall2_cons_inv_l in Hall as (es & ess' & Hes & Hall & ->).
    rewrite fmap_cons, not_elem_of_cons in Hn. destruct Hn as [Hne Hn].
    simpl. rewrite errors_at_app, (errors_at_other n (name f) es Hne Hes).
    by apply IH.
Qed.

Lemma errors_at_concat fs : ∀ ess,
  NoDup (name <$> fs) →
  Forall2 (λ f es, Forall (at_field (name f)) es) fs ess →
  (λ f, errors_at (name f) (concat ess)) <$> fs = ess.
Proof.
  induction fs as [|f fs IH]; intros ess Hnd Hall.
  - apply Forall2_nil_inv_l in Hall as ->. done.
  - apply Forall2_cons_inv_l in Hall as (es & ess' & Hes & Hall & ->).
    rewrite fmap_cons in Hnd. apply NoDup_cons in Hnd as [Hn Hnd].
    rewrite fmap_cons. simpl. f_equal.
    + rewrite errors_at_app, (errors_at_own _ _ Hes),
        (errors_at_concat_other _ fs ess' Hn Hall).
      apply app_nil_r.
    + transitivity ((λ f, errors_at (name f) (concat ess')) <$> fs);
        [|by apply IH].
      apply list_fmap_ext. intros i g Hg.
      rewrite errors_at_app.
      rewrite (errors_at_other (name g) (name f) es); [done| |done].
      intros E. apply Hn. rewrite <- E. apply list_elem_of_fmap.
      exists g. split; [done|]. by eapply list_elem_of_lookup_2.
Qed.


End Reports.

(** ** Records that are projected as they are *)

Section Given.
Context (py : PyBuiltins).
Implicit Types (f : ModelField) (fs : list ModelField).
Implicit Types (p : gmap string pyval) (st : vstate).

Ltac solve_elem :=
  repeat first [apply list_elem_of_here | apply list_elem_of_further].

Ltac field_value Hvals f :=
  let E := fresh in
  pose proof (Hvals f ltac:(solve_elem)) as E;
  cbn [name Field ListField Optional] in E; rewrite E; by vm_compute.

Lemma no_errors fs p st :
  NoDup (name <$> fs) →
  validate_model py fs p = Return st →
  (∀ f, f ∈ fs → errors_at (name f) (errors st) = []) →
  errors st = [].
Proof.
  intros Hnd H Hall.
  destruct (validate_fields_errors py p fs state0 st H) as (ess & Hess & Hall2).
  unfold state0 in Hess. simpl in Hess.
  pose proof (errors_at_concat fs ess Hnd Hall2) as E.
  rewrite <- Hess in E. rewrite Hess, <- E.
  clear -Hall. induction fs as [|f fs IH]; [done|].
  rewrite fmap_cons. simpl. rewrite (Hall f) by apply list_elem_of_here. simpl.
  apply IH. intros g Hg. apply Hall. by apply list_elem_of_further.
Qed.

Lemma validate_fields_given p fs : ∀ st,
  (∀ f, f ∈ fs → match p !! name f with
                 | Some v => kept py f v
                 | None => required f = false
                 end) →
  ∃ st', validate_fields py p fs st = Return st' ∧ errors st' = errors st.
Proof.
  induction fs as [|f fs IH]; intros st H; simpl; [by eauto|].
  assert (Hf : ∃ st1, validate_field py p f st = Return st1 ∧ errors st1 = errors st).
  { specialize (H f ltac:(apply list_elem_of_here)).
    unfold validate_field. destruct (p !! name f) as [v|].
    - rewrite (H (values st) [LName (name f)]). simpl. by eauto.
    - rewrite H. by eauto. }
  destruct Hf as (st1 & -> & E1). simpl.
  destruct (IH st1) as (st' & -> & E').
  { intros g Hg. apply H. by apply list_elem_of_further. }
  exists st'. by rewrite E', E1.
Qed.

(** A payload whose supplied fields are all kept, and which omits optional
    fields only, is accepted; every field has the supplied value or
    [None]. *)
Lemma accepted_as_given fs p :
  NoDup (name <$> fs) →
  (∀ f, f ∈ fs → match p !! name f with
                 | Some v => kept py f v
                 | None => required f = false
                 end) →
  ∃ m, BaseModel_init py fs p = Return m ∧
       ∀ f, f ∈ fs → inst_dict m !! name f = Some (default VNone (p !! name f)).
Proof.
  intros Hnd H.
  destruct (validate_fields_given p fs state0 H) as (st & Hst & He).
  unfold state0 in He. simpl in He.
  unfold BaseModel_init, validate_model. rewrite Hst. simpl. rewrite He.
  eexists. split; [done|]. simpl.
  intros f Hf. pose proof Hf as Hi. apply list_elem_of_lookup in Hi as [i Hi].
  destruct (field_report_at py fs i f p st Hi Hnd Hst) as (st1 & _ & Hr).
  specialize (H f Hf). destruct (p !! name f) as [v|].
  - destruct Hr as (_ & o & Ho & Hr). rewrite (H _ _) in Ho. simplify_eq.
    by destruct Hr.
  - rewrite H in Hr. by destruct Hr as (_ & _ & ?).
Qed.

Lemma unconstrained_run t v :
  unconstrained t = true → isinstance t v = true →
  run_validators (find_validators py t) v = Return v.
Proof. destruct t; try discriminate; destruct v; try discriminate; done. Qed.

Lemma unconstrained_items t l xs : ∀ i,
  unconstrained t = true → forallb (isinstance t) xs = true →
  validate_items py t l i xs = Return (xs, []).
Proof.
  induction xs as [|x xs IH]; intros i Ht H; simpl; [done|].
  apply andb_true_iff in H as [Hx H]. rewrite (IH _ Ht H).
  assert (Hv : validate_item py t x (l ++ [LIndex i]) = Return (Valid x)).
  { unfold validate_item, apply_validators.
    destruct x; try (by rewrite (unconstrained_run t _ Ht Hx)).
    by destruct t. }
  by rewrite Hv.
Qed.

(** A value of the type of an unconstrained, undecorated field is kept. *)
Lemma unconstrained_kept f v :
  post_validators f = [] → unconstrained (type_ f) = true →
  field_isinstance f v = true → kept py f v.
Proof.
  intros Hpv Ht Hty vals l.
  assert (Hpost : ∀ v', validate_post f v' vals l = Return (Valid v')).
  { intros v'. unfold validate_post. by rewrite Hpv. }
  assert (Hsome : v ≠ VNone →
    validate_shape py f v l ≫= (λ r, match r with
               | Errors _ => Return r
               | Valid v' => validate_post f v' vals l
               end) = Return (Valid v)).
  { intros Hv.
    assert (Hty' : match shape f with
                   | SHAPE_SINGLETON => isinstance (type_ f) v
                   | SHAPE_LIST =>
                       match v with
                       | VList xs => forallb (isinstance (type_ f)) xs
                       | _ => false
                       end
                   end = true) by (by destruct v).
    unfold validate_shape. destruct (shape f).
    - unfold apply_validators. rewrite (unconstrained_run _ _ Ht Hty'). simpl.
      apply Hpost.
    - destruct v as [| | | | | |xs| | |]; try discriminate.
      unfold validate_sequence_like.
      rewrite (unconstrained_items _ _ _ _ Ht Hty'). simpl. apply Hpost. }
  unfold ModelField_validate. destruct v; try (apply Hsome; discriminate).
  simpl in Hty. rewrite Hty. apply Hpost.
Qed.

Lemma scope_attrs_names ss names :
  Forall2 (λ s n, getattr s "scope" = Return (VStr n)) ss names →
  scope_attrs ss = Return (VStr <$> names).
Proof.
  induction 1 as [|s n ss names Hs _ IH]; simpl; [done|].
  by rewrite Hs, IH.
Qed.

Lemma forallb_strings names : forallb (isinstance TStr) (VStr <$> names) = true.
Proof. induction names as [|n names IH]; simpl; done. Qed.

Lemma User_NoDup : NoDup (name <$> User).
Proof. by apply (bool_decide_unpack _). Qed.

(** X4.  The projection of a user record copies its columns and derives
    [scopes] as the names of the user's scope objects, one per object and in
    the order of the collection. *)
Theorem User_from_orm_scopes user i n ml g a c u ll ss names :
  getattr user "id" = Return (VInt i) →
  getattr user "name" = Return (VStr n) →
  getattr user "mail" = Return (VStr ml) →
  getattr user "is_google" = Return (VBool g) →
  getattr user "is_active" = Return (VBool a) →
  getattr user "created" = Return (VDatetime c) →
  getattr user "updated" = Return (VDatetime u) →
  getattr user "last_login" = Return ll → optional_datetime ll →
  getattr user "scopes" = Return (VList ss) →
  Forall2 (λ s n, getattr s "scope" = Return (VStr n)) ss names →
  ∃ m, User_from_orm py user = Return m ∧
    inst_dict m !! "scopes" = Some (VList (VStr <$> names)) ∧
    inst_dict m !! "id" = Some (VInt i) ∧
    inst_dict m !! "name" = Some (VStr n) ∧
    inst_dict m !! "mail" = Some (VStr ml) ∧
    inst_dict m !! "is_google" = Some (VBool g) ∧
    inst_dict m !! "is_active" = Some (VBool a) ∧
    inst_dict m !! "created" = Some (VDatetime c) ∧
    inst_dict m !! "updated" = Some (VDatetime u) ∧
    inst_dict m !! "last_login" = Some ll.
Proof.
  intros Hi Hn Hml Hg Ha Hc Hu Hll Hty Hss Hnames.
  unfold User_from_orm.
  rewrite Hi; simpl; rewrite Hn; simpl; rewrite Hml; simpl; rewrite Hg; simpl.
  rewrite Ha; simpl; rewrite Hc; simpl; rewrite Hu; simpl; rewrite Hll; simpl.
  rewrite Hss; simpl. rewrite (scope_attrs_names ss names Hnames). simpl.
  match goal with |- context [BaseModel_init py User ?d] => set (p := d) end.
  destruct (accepted_as_given User p User_NoDup) as (m & Hm & Hvals).
  { intros f Hf.
    repeat (apply elem_of_cons in Hf as [->|Hf]); try (by apply elem_of_nil in Hf);
      cbn [name Field ListField Optional];
      match goal with
      | |- context [p !! ?k] =>
          let E := fresh in
          destruct (p !! k) as [v|] eqn:E; vm_compute in E; [|discriminate];
          simplify_eq
      end;
      try (apply unconstrained_kept; [done|done|]; try done).
    - destruct Hty as [->|[d ->]]; done.
    - apply forallb_strings. }
  exists m. split; [done|].
  repeat split.
  - field_value Hvals (ListField "scopes" TStr).
  - field_value Hvals (Field "id" TInt).
  - field_value Hvals (Field "name" TStr).
  - field_value Hvals (Field "mail" TStr).
  - field_value Hvals (Field "is_google" TBool).
  - field_value Hvals (Field "is_active" TBool).
  - field_value Hvals (Field "created" TDatetime).
  - field_value Hvals (Field "updated" TDatetime).
  - field_value Hvals (Optional (Field "last_login" TDatetime)).
Qed.

End Given.

(** ** The projections, continued *)

Section MoreProjections.
Context (py : PyBuiltins).

Lemma scope_attrs_raise ss s :
  s ∈ ss → getattr s "scope" = Raise (AttributeError "scope") →
  scope_attrs ss = Raise (AttributeError "scope").
Proof.
  intros Hin Hs. induction ss as [|x ss IH]; [by apply elem_of_nil in Hin|].
  apply elem_of_cons in Hin as [<-|Hin]; simpl.
  - by rewrite Hs.
  - destruct (getattr_cases x "scope") as [[v ->]| ->]; simpl; [|done].
    by rewrite (IH Hin).
Qed.

(** X5.  One scope object without a [scope] attribute (a [None] in the
    collection, say) and the projection of the user produces no structure:
    it raises [AttributeError]. *)
Theorem User_from_orm_bad_scope user ss s :
  getattr user "scopes" = Return (VList ss) →
  s ∈ ss → getattr s "scope" = Raise (AttributeError "scope") →
  ∃ a, User_from_orm py user = Raise (AttributeError a).
Proof.
  intros Hss Hin Hs. unfold User_from_orm.
  destruct (getattr_cases user "id") as [[? ->]| ->]; simpl; [|by eauto].
  destruct (getattr_cases user "name") as [[? ->]| ->]; simpl; [|by eauto].
  destruct (getattr_cases user "mail") as [[? ->]| ->]; simpl; [|by eauto].
  destruct (getattr_cases user "is_google") as [[? ->]| ->]; simpl; [|by eauto].
  destruct (getattr_cases user "is_active") as [[? ->]| ->]; simpl; [|by eauto].
  destruct (getattr_cases user "created") as [[? ->]| ->]; simpl; [|by eauto].
  destruct (getattr_cases user "updated") as [[? ->]| ->]; simpl; [|by eauto].
  destruct (getattr_cases user "last_login") as [[? ->]| ->]; simpl; [|by eauto].
  rewrite Hss. simpl. rewrite (scope_attrs_raise ss s Hin Hs). simpl. by eauto.
Qed.

(** X6.  The projection of a station's efficiency entry takes [ore_name]
    from the related ore, whatever the entry itself stores under that name,
    and accepts every float as [efficiency_bonus]: the field has no
    bounds. *)
Theorem StationOreEfficiency_from_orm_ore_name obj ore b i n :
  getattr obj "efficiency_bonus" = Return (VFloat b) →
  getattr obj "ore_id" = Return (VInt i) →
  getattr obj "ore" = Return ore →
  getattr ore "name" = Return (VStr n) →
  ∃ m, StationOreEfficiency_from_orm py obj = Return m ∧
    inst_dict m = dict_of [ ("efficiency_bonus", VFloat b);
                            ("ore_id", VInt i);
                            ("ore_name", VStr n) ].
Proof.
  intros Hb Hi Ho Hn. unfold StationOreEfficiency_from_orm.
  rewrite Hb; simpl; rewrite Hi; simpl; rewrite Ho; simpl; rewrite Hn; simpl.
  eexists. split; vm_compute; reflexivity.
Qed.

Lemma validate_field_supplied p f st v :
  p !! name f = Some v →
  validate_field py p f st =
  ModelField_validate py f v (values st) [LName (name f)] ≫= λ r,
    match r with
    | Errors errs =>
        Return (mkState (values st) ({[name f]} ∪ fields_set st) (errors st ++ errs))
    | Valid v' =>
        Return (mkState (<[name f := v']> (values st)) ({[name f]} ∪ fields_set st)
                  (errors st))
    end.
Proof. intros H. unfold validate_field. by rewrite H. Qed.

(** X7.  The projection of a method's efficiency entry validates what it
    reads: it yields a structure exactly when the stored efficiency is in
    (0, 1] and the stored duration is positive, and raises a
    [ValidationError] otherwise. *)
Theorem MethodOreEfficiency_from_orm_bounds obj ore e d i n :
  getattr obj "efficiency" = Return (VFloat e) →
  getattr obj "duration" = Return (VFloat d) →
  getattr obj "ore_id" = Return (VInt i) →
  getattr obj "ore" = Return ore →
  getattr ore "name" = Return (VStr n) →
  if ((0 <? e) && (e <=? 1) && (0 <? d))%float
  then ∃ m, MethodOreEfficiency_from_orm py obj = Return m ∧
         inst_dict m = dict_of [ ("efficiency", VFloat e);
                                 ("duration", VFloat d);
                                 ("ore_id", VInt i);
                                 ("ore_name", VStr n) ]
  else ∃ errs, MethodOreEfficiency_from_orm py obj = Raise (ValidationError errs).
Proof.
  intros He Hd Hi Ho Hn. unfold MethodOreEfficiency_from_orm.
  rewrite He, Hd, Hi, Ho. cbn [mbind result_bind]. rewrite Hn. cbn [mbind result_bind].
  set (p := dict_of [("efficiency", VFloat e); ("duration", VFloat d);
                     ("ore_id", VInt i); ("ore_name", VStr n)]).
  assert (Hpe : p !! "efficiency" = Some (VFloat e)) by (by vm_compute).
  assert (Hpd : p !! "duration" = Some (VFloat d)) by (by vm_compute).
  assert (Hpi : p !! "ore_id" = Some (VInt i)) by (by vm_compute).
  assert (Hpn : p !! "ore_name" = Some (VStr n)) by (by vm_compute).
  assert (Hmap : <["ore_name" := VStr n]> (<["ore_id" := VInt i]>
                   (<["duration" := VFloat d]> (<["efficiency" := VFloat e]> ∅))) = p)
    by (by vm_compute).
  clearbody p.
  unfold BaseModel_init, validate_model, MethodOreEfficiency.
  cbn [validate_fields].
  assert (Hrest : ∀ st,
    validate_field py p (Field "ore_id" TInt) st ≫= (λ st1,
      validate_field py p (Optional (Field "ore_name" TStr)) st1 ≫= λ st2, Return st2) =
    Return (mkState (<["ore_name" := VStr n]> (<["ore_id" := VInt i]> (values st)))
              ({["ore_name"]} ∪ ({["ore_id"]} ∪ fields_set st)) (errors st))).
  { intros st.
    rewrite (validate_field_supplied p (Field "ore_id" TInt) _ _ Hpi).
    rewrite (unconstrained_kept py (Field "ore_id" TInt) (VInt i) eq_refl eq_refl eq_refl).
    cbn [mbind result_bind].
    rewrite (validate_field_supplied p (Optional (Field "ore_name" TStr)) _ _ Hpn).
    by rewrite (unconstrained_kept py (Optional (Field "ore_name" TStr)) (VStr n)
                  eq_refl eq_refl eq_refl). }
  rewrite (validate_field_supplied p (Field "efficiency" _) state0 _ Hpe).
  rewrite (confloat_field py _ _ _ _ e) by done.
  unfold number_size_validator, state0.
  destruct (0 <? e)%float, (e <=? 1)%float;
    cbn [negb andb mbind result_bind catch values fields_set errors app];
    rewrite (validate_field_supplied p (Field "duration" _) _ _ Hpd);
    rewrite (confloat_field py _ _ _ _ d) by done;
    unfold number_size_validator;
    destruct (0 <? d)%float;
    cbn [negb andb mbind result_bind catch values fields_set errors app];
    rewrite Hrest; cbn [mbind result_bind errors values fields_set app name Field];
    eauto.
Qed.

(** X8.  The projection of a friendship whose [user] or [friend] relation is
    [None] produces no structure: it raises [AttributeError]. *)
Theorem Friendship_from_orm_without_relation friendship :
  getattr friendship "user" = Return VNone ∨
  getattr friendship "friend" = Return VNone →
  ∃ a, Friendship_from_orm py friendship = Raise (AttributeError a).
Proof.
  intros H. unfold Friendship_from_orm.
  destruct (getattr_cases friendship "user_id") as [[? ->]| ->]; simpl; [|by eauto].
  destruct H as [H|H].
  - rewrite H. simpl. by eauto.
  - destruct (getattr_cases friendship "user") as [[u ->]| ->]; simpl; [|by eauto].
    destruct (getattr_cases u "name") as [[? ->]| ->]; simpl; [|by eauto].
    destruct (getattr_cases friendship "friend_id") as [[? ->]| ->]; simpl; [|by eauto].
    rewrite H. simpl. by eauto.
Qed.

End MoreProjections.

(** ** Lists of nested models *)

Section Nested.
Context (py : PyBuiltins).
Implicit Types (f : ModelField) (fs : list ModelField) (t : ftype).
Implicit Types (p : gmap string pyval) (st : vstate) (l : list loc_item).

Lemma dict_of_assoc kvs k : dict_of kvs !! k = assoc k kvs.
Proof.
  unfold dict_of. induction kvs as [|[k' v] kvs IH]; simpl; [done|].
  destruct (String.eqb_spec k k') as [->|Hne].
  - by rewrite lookup_insert_eq.
  - by rewrite lookup_insert_ne.
Qed.

Lemma getattr_GetterDict obj a v :
  getattr obj a = Return v → GetterDict obj !! a = Some v.
Proof.
  destruct obj; simpl; try discriminate; rewrite dict_of_assoc;
    destruct (assoc a _); intros; by simplify_eq.
Qed.

(** What [_apply_validators] lets through is not one of the three
    exception classes it catches. *)
Lemma catch_uncaught l r x : catch l r = Raise x → uncaught x.
Proof. destruct r as [v|[]]; simpl; intros; by simplify_eq. Qed.

Lemma validate_item_uncaught t v l x :
  validate_item py t v l = Raise x → uncaught x.
Proof.
  unfold validate_item, apply_validators.
  destruct v; try apply catch_uncaught.
  destruct (item_allow_none t); discriminate.
Qed.

(** One item that raises ends the loop over the list: the items after it
    are not looked at, and no item before it can turn the exception into an
    error. *)
Lemma validate_items_abort t l xs x : ∀ i,
  x ∈ xs → (∀ l', ∃ e, validate_item py t x l' = Raise e) →
  ∃ e, validate_items py t l i xs = Raise e ∧ uncaught e.
Proof.
  induction xs as [|y xs IH]; intros i Hin Hx; [by apply elem_of_nil in Hin|].
  simpl. apply elem_of_cons in Hin as [<-|Hin].
  - destruct (Hx (l ++ [LIndex i])) as [e He]. rewrite He. simpl.
    exists e. split; [done|]. by apply validate_item_uncaught in He.
  - destruct (validate_item py t y (l ++ [LIndex i])) as [o|e] eqn:E; simpl.
    + destruct (IH (S i) Hin Hx) as (e & -> & He). simpl. by eauto.
    + exists e. split; [done|]. by apply validate_item_uncaught in E.
Qed.

(** A model whose last field is a list of nested models, after fields of
    plain types: an item that raises aborts the construction. *)
Lemma list_field_abort pre n cls val p es x :
  Forall plain_field pre → p !! n = Some (VList es) → x ∈ es →
  (∀ l, ∃ e, validate_item py (TModel cls val) x l = Raise e) →
  ∃ e, BaseModel_init py (pre ++ [ListField n (TModel cls val)]) p = Raise e ∧
       uncaught e.
Proof.
  intros Hpre Hp Hin Hx. unfold BaseModel_init, validate_model.
  rewrite validate_fields_app.
  destruct (validate_fields_total py p pre state0) as [st1 ->].
  { eapply Forall_impl; [exact Hpre|]. intros f. apply plain_field_returns. }
  cbn [mbind result_bind validate_fields]. unfold validate_field.
  cbn [name ListField]. rewrite Hp.
  unfold ModelField_validate, validate_shape, validate_sequence_like.
  cbn [shape type_ ListField].
  destruct (validate_items_abort (TModel cls val) [LName n] es x 0%nat Hin Hx)
    as (e & -> & He).
  simpl. by eauto.
Qed.

Lemma entry_without_ore obj :
  getattr obj "ore" = Return VNone →
  (∃ a, StationOreEfficiency_from_orm py obj = Raise (AttributeError a)) ∧
  (∃ a, MethodOreEfficiency_from_orm py obj = Raise (AttributeError a)).
Proof.
  intros H. split.
  - unfold StationOreEfficiency_from_orm.
    destruct (getattr_cases obj "efficiency_bonus") as [[? ->]| ->]; simpl; [|by eauto].
    destruct (getattr_cases obj "ore_id") as [[? ->]| ->]; simpl; [|by eauto].
    rewrite H. simpl. by eauto.
  - unfold MethodOreEfficiency_from_orm.
    destruct (getattr_cases obj "efficiency") as [[? ->]| ->]; simpl; [|by eauto].
    destruct (getattr_cases obj "duration") as [[? ->]| ->]; simpl; [|by eauto].
    destruct (getattr_cases obj "ore_id") as [[? ->]| ->]; simpl; [|by eauto].
    rewrite H. simpl. by eauto.
Qed.

(** X9.  A station or a method is projected together with its efficiency
    entries, and one entry record whose [ore] relation is [None] aborts the
    whole projection: the [AttributeError] of the entry is not turned into
    a validation error of the [efficiencies] field, and what the caller
    gets is an exception that is no [ValidationError]. *)
Theorem efficiencies_entry_without_ore from_orm obj es oid attrs :
  from_orm ∈ [Station_from_orm py; Method_from_orm py] →
  getattr obj "efficiencies" = Return (VList es) →
  VObj oid attrs ∈ es →
  getattr (VObj oid attrs) "ore" = Return VNone →
  ∃ x, from_orm obj = Raise x ∧ uncaught x.
Proof.
  intros Hf Hes Hin Hore.
  destruct (entry_without_ore (VObj oid attrs) Hore) as [[a Ha] [b Hb]].
  apply getattr_GetterDict in Hes.
  assert (Hpre : Forall plain_field
            [Field "id" TInt; Field "name" TStr;
             Field "created" TDatetime; Field "updated" TDatetime]).
  { repeat apply Forall_cons_2; try apply Forall_nil_2;
      (split; [reflexivity|apply Forall_nil_2]). }
  repeat (apply elem_of_cons in Hf as [->|Hf]); [| |by apply elem_of_nil in Hf].
  - apply (list_field_abort _ "efficiencies" "StationOreEfficiency"
             (StationOreEfficiency_validate py) _ es (VObj oid attrs) Hpre Hes Hin).
    intros l. exists (AttributeError a).
    unfold validate_item, apply_validators. cbn [find_validators run_validators].
    unfold StationOreEfficiency_validate, BaseModel_validate. by rewrite Ha.
  - apply (list_field_abort _ "efficiencies" "MethodOreEfficiency"
             (MethodOreEfficiency_validate py) _ es (VObj oid attrs) Hpre Hes Hin).
    intros l. exists (AttributeError b).
    unfold validate_item, apply_validators. cbn [find_validators run_validators].
    unfold MethodOreEfficiency_validate, BaseModel_validate. by rewrite Hb.
Qed.

Lemma validate_items_uncaught t l xs : ∀ i x,
  validate_items py t l i xs = Raise x → uncaught x.
Proof.
  induction xs as [|y xs IH]; intros i x; simpl; [discriminate|].
  destruct (validate_item py t y (l ++ [LIndex i])) as [o|e] eqn:E; simpl.
  - destruct (validate_items py t l (S i) xs) as [r|e] eqn:E'; simpl.
    + destruct o; discriminate.
    + intros H. simplify_eq. by apply IH in E'.
  - intros H. simplify_eq. by apply validate_item_uncaught in E.
Qed.

Lemma ModelField_validate_uncaught f v vals l x :
  ModelField_validate py f v vals l = Raise x → uncaught x.
Proof.
  assert (Hpost : ∀ v', validate_post f v' vals l = Raise x → uncaught x).
  { intros v'. unfold validate_post, apply_post_validators.
    destruct (post_validators f); [discriminate|]. apply catch_uncaught. }
  assert (Hsome : validate_shape py f v l ≫= (λ r, match r with
               | Errors _ => Return r
               | Valid v' => validate_post f v' vals l
               end) = Raise x → uncaught x).
  { destruct (validate_shape py f v l) as [[v'|es]|e] eqn:E; simpl;
      [apply Hpost | discriminate |].
    intros H. simplify_eq. unfold validate_shape in E.
    destruct (shape f); [by apply catch_uncaught in E|].
    unfold validate_sequence_like in E. destruct v as [| | | | | |xs| | |]; try discriminate.
    destruct (validate_items py (type_ f) l 0 xs) as [r|e] eqn:E'; simpl in E.
    - destruct (r.2); discriminate.
    - simplify_eq. by apply validate_items_uncaught in E'. }
  unfold ModelField_validate. destruct v; try exact Hsome.
  destruct (allow_none f); [apply Hpost | discriminate].
Qed.

Lemma validate_fields_uncaught p fs : ∀ st x,
  validate_fields py p fs st = Raise x → uncaught x.
Proof.
  induction fs as [|f fs IH]; intros st x; simpl; [discriminate|].
  destruct (validate_field py p f st) as [st1|e] eqn:E; simpl; [apply IH|].
  intros H. simplify_eq. unfold validate_field in E.
  destruct (p !! name f) as [v|].
  - destruct (ModelField_validate py f v (values st) [LName (name f)])
      as [[]|e'] eqn:E'; simpl in E; try discriminate.
    simplify_eq. by apply ModelField_validate_uncaught in E'.
  - destruct (required f); discriminate.
Qed.

(** X10.  A constructor fails in one of two ways only: with a
    [ValidationError] that lists at least one error, or with an exception
    that validation does not catch.  It never fails with a bare field error
    and never with an empty list of errors. *)
Theorem init_raises fs p x :
  BaseModel_init py fs p = Raise x →
  (∃ errs, x = ValidationError errs ∧ errs ≠ []) ∨ uncaught x.
Proof.
  unfold BaseModel_init, validate_model.
  destruct (validate_fields py p fs state0) as [st|e] eqn:E; simpl.
  - destruct (errors st) as [|le errs]; [discriminate|].
    intros H. simplify_eq. left. by eexists.
  - intros H. simplify_eq. right. by apply validate_fields_uncaught in E.
Qed.

(** The outcome of the item at position [k] of a list that was validated
    to the end: its errors are among the errors of the list. *)
Lemma validate_items_lookup t l xs : ∀ i r k x,
  validate_items py t l i xs = Return r → xs !! k = Some x →
  ∃ o, validate_item py t x (l ++ [LIndex (i + k)]) = Return o ∧
       match o with
       | Valid _ => True
       | Errors es => ∀ le, le ∈ es → le ∈ r.2
       end.
Proof.
  induction xs as [|y xs IH]; intros i r k x H Hk; [done|].
  simpl in H. apply bind_Return in H as (o & Ho & H).
  apply bind_Return in H as (rest & Hrest & H).
  destruct k as [|k]; simpl in Hk.
  - simplify_eq. rewrite Nat.add_0_r. exists o. split; [done|].
    destruct o as [v|ee]; [done|]. simplify_eq. simpl.
    intros le Hle. apply elem_of_app. by left.
  - destruct (IH (S i) rest k x Hrest Hk) as (o' & Ho' & Hsub).
    replace (i + S k)%nat with (S i + k)%nat by lia.
    exists o'. split; [done|]. destruct o' as [|es]; [done|].
    intros le Hle. destruct o; simplify_eq; simpl; [by apply Hsub|].
    apply elem_of_app. right. by apply Hsub.
Qed.

(** X11.  The errors of a nested entry are reported where the entry is: an
    efficiency outside (0, 1] in the entry at position [k] of the
    [efficiencies] of a method is reported at
    [efficiencies], [k], [efficiency], and the payload is rejected. *)
Theorem efficiency_error_location M p xs k kvs x st :
  M ∈ [MethodCreate py; MethodUpdate py] →
  p !! "efficiencies" = Some (VList xs) →
  xs !! k = Some (VDict kvs) →
  assoc "efficiency" kvs = Some (VFloat x) →
  ((0 <? x) && (x <=? 1))%float = false →
  validate_model py M p = Return st →
  ([LName "efficiencies"; LIndex k; LName "efficiency"],
   if (0 <? x)%float then NumberNotLeError 1%float else NumberNotGtError 0%float)
    ∈ errors st ∧
  BaseModel_init py M p = Raise (ValidationError (errors st)).
Proof.
  intros HM Hp Hk Hx Hout Hst.
  set (e := if (0 <? x)%float then NumberNotLeError 1%float
            else NumberNotGtError 0%float).
  assert (Hf : ∃ f, M !! 1%nat = Some f ∧ name f = "efficiencies" ∧
                 shape f = SHAPE_LIST ∧ post_validators f = [] ∧
                 type_ f = TModel "MethodOreEfficiency" (MethodOreEfficiency_validate py) ∧
                 NoDup (name <$> M)).
  { repeat (apply elem_of_cons in HM as [->|HM]); [| |by apply elem_of_nil in HM];
      eexists; (split; [reflexivity|]); repeat split;
      by apply (bool_decide_unpack _). }
  destruct Hf as (f & Hi & Hn & Hsh & Hpv & Hty & Hnd).
  destruct (field_report_at py M 1 f p st Hi Hnd Hst) as (st1 & _ & H).
  rewrite Hn, Hp in H. destruct H as (_ & o & Ho & H).
  unfold ModelField_validate, validate_shape, validate_sequence_like, validate_post in Ho.
  rewrite Hsh, Hpv, Hty in Ho.
  apply bind_Return in Ho as (o1 & Ho1 & Ho).
  apply bind_Return in Ho1 as (r & Hr & Ho1).
  destruct (validate_items_lookup _ _ _ _ _ _ _ Hr Hk) as (o' & Ho' & Hsub).
  cbn [Nat.add app] in Ho'.
  assert (Hin : ([LName "efficiencies"; LIndex k; LName "efficiency"], e) ∈ r.2).
  { unfold validate_item, apply_validators in Ho'.
    cbn [find_validators run_validators] in Ho'.
    unfold MethodOreEfficiency_validate, BaseModel_validate in Ho'.
    destruct (validate_model py MethodOreEfficiency (dict_of kvs)) as [st'|e'] eqn:Est.
    - destruct (field_report_at py MethodOreEfficiency 0 _ (dict_of kvs) st' eq_refl
                  (MethodOreEfficiency_NoDup) Est) as (? & _ & Hre).
      cbn [name Field] in Hre. rewrite dict_of_assoc, Hx in Hre.
      destruct Hre as (_ & oe & Hoe & Hre).
      rewrite (confloat_field py _ _ _ _ x) in Hoe by done.
      unfold number_size_validator in Hoe. simpl in Hoe.
      assert (Hle : ([LName "efficiency"], e) ∈ errors st').
      { apply (errors_at_elem "efficiency"). subst e.
        destruct (0 <? x)%float; simpl in Hoe, Hout.
        - rewrite Hout in Hoe. simpl in Hoe. simplify_eq.
          destruct Hre as [-> _]. apply list_elem_of_here.
        - simplify_eq. destruct Hre as [-> _]. apply list_elem_of_here. }
      rewrite (init_fails py _ _ _ _ Est Hle) in Ho'. simpl in Ho'. simplify_eq.
      apply Hsub. unfold at_loc. apply list_elem_of_fmap.
      by exists ([LName "efficiency"], e).
    - unfold BaseModel_init in Ho'. rewrite Est in Ho'. simpl in Ho'.
      apply validate_fields_uncaught in Est. by destruct e'. }
  destruct (r.2) as [|le es] eqn:Er; [by apply elem_of_nil in Hin|].
  simpl in Ho1. simplify_eq. destruct H as [He _].
  assert (Hst' : ([LName "efficiencies"; LIndex k; LName "efficiency"], e) ∈ errors st).
  { apply (errors_at_elem "efficiencies"). by rewrite He. }
  split; [exact Hst'|]. by apply (init_fails py M p st _ Hst Hst').
Qed.

End Nested.

(** ** Related references *)

Section Relations.
Context (py : PyBuiltins).
Implicit Types (p : gmap string pyval) (st : vstate).

Lemma Related_init p i n :
  p !! "id" = Some (VInt i) → p !! "name" = Some (VStr n) →
  BaseModel_init py Related p =
  Return (mkInstance (<["name" := VStr n]> (<["id" := VInt i]> ∅))
            ({["name"]} ∪ ({["id"]} ∪ ∅))).
Proof.
  intros Hi Hn. unfold BaseModel_init, validate_model, Related.
  cbn [validate_fields].
  rewrite (validate_field_supplied py p (Field "id" TInt) state0 _ Hi).
  rewrite (unconstrained_kept py (Field "id" TInt) (VInt i) eq_refl eq_refl eq_refl).
  cbn [mbind result_bind].
  rewrite (validate_field_supplied py p (Field "name" TStr) _ _ Hn).
  by rewrite (unconstrained_kept py (Field "name" TStr) (VStr n) eq_refl eq_refl eq_refl).
Qed.

Lemma Related_of_record oid attrs i n :
  assoc "id" attrs = Some (VInt i) → assoc "name" attrs = Some (VStr n) →
  Related_validate py (VObj oid attrs) =
  Return (VModel "Related" [("id", VInt i); ("name", VStr n)] ["id"; "name"]).
Proof.
  intros Hi Hn. rewrite <- dict_of_assoc in Hi, Hn.
  unfold Related_validate, BaseModel_validate, BaseModel_from_orm.
  cbn [GetterDict]. rewrite (Related_init _ i n Hi Hn). by vm_compute.
Qed.

(** X12.  A related reference is built alike from a dictionary and from a
    record: it takes the [id] and the [name] and leaves every other key or
    attribute behind. *)
Theorem Related_validate_reduces v attrs i n :
  v = VDict attrs ∨ (∃ oid, v = VObj oid attrs) →
  assoc "id" attrs = Some (VInt i) → assoc "name" attrs = Some (VStr n) →
  Related_validate py v =
  Return (VModel "Related" [("id", VInt i); ("name", VStr n)] ["id"; "name"]).
Proof.
  intros [->|[oid ->]] Hi Hn; [|by apply Related_of_record].
  rewrite <- dict_of_assoc in Hi, Hn.
  unfold Related_validate, BaseModel_validate.
  rewrite (Related_init _ i n Hi Hn). by vm_compute.
Qed.

(** X13.  In the projection of a mining session, alone or as an item of a
    list, the creator's record is reduced to its [id] and [name]. *)
Theorem MiningSession_creator M obj oid attrs i n m :
  M ∈ [MiningSession py; MiningSessionListItem py] →
  getattr obj "creator" = Return (VObj oid attrs) →
  assoc "id" attrs = Some (VInt i) → assoc "name" attrs = Some (VStr n) →
  BaseModel_from_orm py M obj = Return m →
  inst_dict m !! "creator" =
  Some (VModel "Related" [("id", VInt i); ("name", VStr n)] ["id"; "name"]).
Proof.
  intros HM Hc Hi Hn Hm. apply getattr_GetterDict in Hc.
  unfold BaseModel_from_orm in Hm.
  apply init_succeeds in Hm as (st & Hst & _ & -> & _).
  assert (Hf : M !! 1%nat = Some (Field "creator" (TModel "Related" (Related_validate py))) ∧
               NoDup (name <$> M)).
  { repeat (apply elem_of_cons in HM as [->|HM]); [| |by apply elem_of_nil in HM];
      (split; [reflexivity|by apply (bool_decide_unpack _)]). }
  destruct Hf as [Hf Hnd].
  destruct (field_report_at py M 1 _ _ st Hf Hnd Hst) as (st1 & _ & H).
  cbn [name Field] in H. rewrite Hc in H. destruct H as (_ & o & Ho & H).
  unfold ModelField_validate, validate_shape, apply_validators, validate_post in Ho.
  cbn [shape type_ post_validators Field find_validators run_validators] in Ho.
  rewrite (Related_of_record oid attrs i n Hi Hn) in Ho.
  simpl in Ho. simplify_eq. by destruct H.
Qed.

(** X14.  The projection of an ore record copies its four columns and
    nothing else of the record. *)
Theorem Ore_from_orm_copies obj i n c u :
  getattr obj "id" = Return (VInt i) →
  getattr obj "name" = Return (VStr n) →
  getattr obj "created" = Return (VDatetime c) →
  getattr obj "updated" = Return (VDatetime u) →
  ∃ m, BaseModel_from_orm py Ore obj = Return m ∧
    inst_dict m = dict_of [ ("id", VInt i);
                            ("name", VStr n);
                            ("created", VDatetime c);
                            ("updated", VDatetime u) ].
Proof.
  intros Hi Hn Hc Hu.
  apply getattr_GetterDict in Hi, Hn, Hc, Hu.
  assert (Hmap : <["updated" := VDatetime u]> (<["created" := VDatetime c]>
                   (<["name" := VStr n]> (<["id" := VInt i]> ∅))) =
                 dict_of [ ("id", VInt i); ("name", VStr n);
                           ("created", VDatetime c); ("updated", VDatetime u) ])
    by (by vm_compute).
  unfold BaseModel_from_orm, BaseModel_init, validate_model, Ore.
  cbn [validate_fields].
  rewrite (validate_field_supplied py _ (Field "id" TInt) state0 _ Hi).
  rewrite (unconstrained_kept py (Field "id" TInt) (VInt i) eq_refl eq_refl eq_refl).
  cbn [mbind result_bind].
  rewrite (validate_field_supplied py _ (Field "name" TStr) _ _ Hn).
  rewrite (unconstrained_kept py (Field "name" TStr) (VStr n) eq_refl eq_refl eq_refl).
  cbn [mbind result_bind].
  rewrite (validate_field_supplied py _ (Field "created" TDatetime) _ _ Hc).
  rewrite (unconstrained_kept py (Field "created" TDatetime) (VDatetime c)
             eq_refl eq_refl eq_refl).
  cbn [mbind result_bind].
  rewrite (validate_field_supplied py _ (Field "updated" TDatetime) _ _ Hu).
  rewrite (unconstrained_kept py (Field "updated" TDatetime) (VDatetime u)
             eq_refl eq_refl eq_refl).
  cbn [mbind result_bind errors values fields_set state0 name Field].
  eexists. split; [reflexivity|]. exact Hmap.
Qed.

End Relations.

(** ** Request models *)

Section Requests.
Context (py : PyBuiltins).
Implicit Types (f : ModelField) (fs M : list ModelField).
Implicit Types (p : gmap string pyval) (st : vstate) (l : list loc_item).

Lemma named_models_name M :
  M ∈ named_models py →
  NoDup (name <$> M) ∧
  ∃ i f, M !! i = Some f ∧ name f = "name" ∧ shape f = SHAPE_SINGLETON ∧
         type_ f = constr 50 ∧ post_validators f = [].
Proof.
  intros HM. unfold named_models in HM.
  repeat (apply elem_of_cons in HM as [->|HM]); try (by apply elem_of_nil in HM);
    (split; [by apply (bool_decide_unpack _)|]);
    first [ by exists 0%nat; eexists; split; [reflexivity|]
          | by exists 1%nat; eexists; split; [reflexivity|]
          | by exists 5%nat; eexists; split; [reflexivity|] ].
Qed.

(** X15.  Every request model that has a [name] limits it to 50 characters:
    a longer one is reported on [name] and the payload is rejected, a
    shorter one is accepted as the name. *)
Theorem name_limit M p v s st :
  M ∈ named_models py →
  p !! "name" = Some v → str_validator py v = Return (VStr s) →
  validate_model py M p = Return st →
  ((50 < String.length s)%nat →
     errors_at "name" (errors st) = [([LName "name"], AnyStrMaxLengthError 50)] ∧
     values st !! "name" = None ∧
     BaseModel_init py M p = Raise (ValidationError (errors st))) ∧
  ((String.length s ≤ 50)%nat →
     errors_at "name" (errors st) = [] ∧ values st !! "name" = Some (VStr s)).
Proof.
  intros HM Hp Hs Hst.
  destruct (named_models_name M HM) as (Hnd & i & f & Hi & Hn & Hsh & Hty & Hpv).
  destruct (field_report_at py M i f p st Hi Hnd Hst) as (st1 & _ & H).
  rewrite Hn, Hp in H. destruct H as (_ & o & Ho & H).
  rewrite (constr_field py f 50 None v s _ _ Hsh Hty Hs) in Ho.
  unfold validate_post in Ho. rewrite Hpv in Ho.
  split; intros Hlen.
  - apply Nat.ltb_lt in Hlen. rewrite Hlen in Ho. simplify_eq.
    destruct H as [He Hv]. repeat split; try done.
    apply (init_fails py M p st ([LName "name"], AnyStrMaxLengthError 50) Hst).
    apply (errors_at_elem "name"). rewrite He. apply list_elem_of_here.
  - apply Nat.ltb_ge in Hlen. rewrite Hlen in Ho. by simplify_eq.
Qed.

(** X16.  A login is accepted exactly when the user name and the password
    have at most 250 characters each, and is then kept as it is. *)
Theorem Login_limits p u w :
  p !! "username" = Some (VStr u) → p !! "password" = Some (VStr w) →
  if ((String.length u <=? 250) && (String.length w <=? 250))%nat
  then ∃ m, BaseModel_init py Login p = Return m ∧
         inst_dict m = dict_of [("username", VStr u); ("password", VStr w)]
  else ∃ errs, BaseModel_init py Login p = Raise (ValidationError errs).
Proof.
  intros Hu Hw.
  assert (Hmap : <["password" := VStr w]> (<["username" := VStr u]> ∅) =
                 dict_of [("username", VStr u); ("password", VStr w)])
    by (by vm_compute).
  unfold BaseModel_init, validate_model, Login. cbn [validate_fields].
  rewrite (validate_field_supplied py p (Field "username" (constr 250)) state0 _ Hu).
  rewrite (constr_field py (Field "username" (constr 250)) 250 None (VStr u) u _ _
             eq_refl eq_refl eq_refl).
  rewrite !Nat.leb_antisym. unfold validate_post, state0. cbn [post_validators Field].
  destruct (250 <? String.length u)%nat;
    cbn [negb andb mbind result_bind values fields_set errors app];
    rewrite (validate_field_supplied py p (Field "password" (constr 250)) _ _ Hw);
    rewrite (constr_field py (Field "password" (constr 250)) 250 None (VStr w) w _ _
               eq_refl eq_refl eq_refl);
    unfold validate_post; cbn [post_validators Field];
    destruct (250 <? String.length w)%nat;
    cbn [negb andb mbind result_bind values fields_set errors app name Field];
    eauto.
Qed.

Lemma UserQuery_plain : Forall plain_field UserQuery.
Proof.
  repeat apply Forall_cons_2; try apply Forall_nil_2;
    (split; [reflexivity|apply Forall_nil_2]).
Qed.

(** X17.  The [mail] of a user query must have the shape of an address, but
    unlike the [mail] of [UserCreate] and [UserUpdate] it has no limit of
    length: a string of any length with one [@] between two non-empty
    parts is accepted. *)
Theorem UserQuery_mail_any_length p s :
  p !! "mail" = Some (VStr s) →
  ∃ st, validate_model py UserQuery p = Return st ∧
    if one_at s
    then errors_at "mail" (errors st) = [] ∧ values st !! "mail" = Some (VStr s)
    else errors_at "mail" (errors st) = [([LName "mail"], StrRegexError)].
Proof.
  intros Hp.
  destruct (plain_model_total py p UserQuery UserQuery_plain) as [st Hst].
  exists st. split; [done|].
  destruct (field_report_at py UserQuery 2 _ p st eq_refl
              ltac:(by apply (bool_decide_unpack _)) Hst) as (st1 & _ & H).
  cbn [name Field Optional] in H. rewrite Hp in H.
  destruct H as (_ & o & Ho & H).
  unfold ModelField_validate, validate_shape, apply_validators, validate_post in Ho.
  cbn [shape type_ post_validators Field Optional find_validators run_validators
       str_validator mbind result_bind] in Ho.
  unfold constr_length_validator, ConstrainedStr_validate in Ho.
  cbn [py_len mbind result_bind] in Ho.
  rewrite re_match_mail in Ho.
  destruct (one_at s); simpl in Ho; simplify_eq; by destruct H.
Qed.

(** X18.  An update that supplies [password_confirm] without a [password],
    or with a null one, is rejected: the omitted [password] stands in
    [values] with its default [None], the confirmation is compared with it,
    and "passwords do not match" is reported. *)
Theorem confirm_against_missing_password p c pc :
  p !! "password" = None ∨ p !! "password" = Some VNone →
  p !! "password_confirm" = Some c → str_validator py c = Return (VStr pc) →
  (String.length pc ≤ 250)%nat →
  ∃ st, validate_model py UserUpdate p = Return st ∧
    errors_at "password_confirm" (errors st) = [mismatch] ∧
    BaseModel_init py UserUpdate p = Raise (ValidationError (errors st)).
Proof.
  intros Hpw Hc Hs Hlen.
  assert (HM : UserUpdate ∈ [UserCreate; UserUpdate])
    by apply list_elem_of_further, list_elem_of_here.
  pose proof (user_models_NoDup UserUpdate HM) as Hnd.
  destruct (plain_model_total py p UserUpdate (user_models_plain UserUpdate HM))
    as [st Hst].
  exists st. split; [done|].
  destruct (field_report_at py UserUpdate 3 _ p st eq_refl Hnd Hst) as (st1 & H1 & H).
  assert (Hv : values st1 !! "password" = Some VNone).
  { destruct (field_report_at py (take 3 UserUpdate) 2 _ p st1 eq_refl
                ltac:(by apply (bool_decide_unpack _)) H1) as (st0 & _ & Hr).
    cbn [name Field Optional] in Hr. destruct Hpw as [Hpw|Hpw]; rewrite Hpw in Hr.
    - by destruct Hr as (_ & _ & ?).
    - destruct Hr as (_ & o & Ho & Hr). vm_compute in Ho. simplify_eq.
      by destruct Hr. }
  cbn [name decorated Field Optional] in H. rewrite Hc in H.
  destruct H as (_ & o & Ho & H).
  rewrite (constr_field py
             (decorated passwords_match (Optional (Field "password_confirm" (constr 250))))
             250 None c pc _ _ eq_refl eq_refl Hs) in Ho.
  replace (250 <? String.length pc)%nat with false in Ho
    by (symmetry; apply Nat.ltb_ge; lia).
  unfold validate_post, apply_post_validators in Ho.
  cbn [post_validators decorated Field Optional app fmap list_fmap run_validators] in Ho.
  unfold passwords_match in Ho. rewrite Hv in Ho. simpl in Ho. simplify_eq.
  destruct H as [He _]. split; [exact He|].
  apply (init_fails py UserUpdate p st mismatch Hst).
  apply (errors_at_elem "password_confirm"). rewrite He. apply list_elem_of_here.
Qed.

Lemma validate_items_constr n l ss : ∀ i,
  Forall (λ s, (String.length s ≤ n)%nat) ss →
  validate_items py (constr n) l i (VStr <$> ss) = Return (VStr <$> ss, []).
Proof.
  induction ss as [|s ss IH]; intros i H; [done|].
  apply Forall_cons in H as [Hs H]. rewrite fmap_cons. cbn [validate_items].
  rewrite (IH _ H).
  assert (Hv : validate_item py (constr n) (VStr s) (l ++ [LIndex i]) =
               Return (Valid (VStr s))).
  { unfold validate_item, apply_validators, constr.
    rewrite (constr_run py n None (VStr s) s eq_refl).
    replace (n <? String.length s)%nat with false
      by (symmetry; apply Nat.ltb_ge; lia).
    done. }
  by rewrite Hv.
Qed.

(** X19.  A sign-up whose name, mail address and password are strings
    within their limits, whose mail address has the shape of one, whose
    confirmation repeats the password, whose two flags are booleans and
    whose scopes, if any, are strings of at most 50 characters, is accepted,
    and every field of the result is the value supplied ([None] for
    omitted scopes). *)
Theorem UserCreate_accepts p n ml pw g a :
  p !! "name" = Some (VStr n) → (String.length n ≤ 50)%nat →
  p !! "mail" = Some (VStr ml) → (String.length ml ≤ 250)%nat → one_at ml = true →
  p !! "password" = Some (VStr pw) → (String.length pw ≤ 250)%nat →
  p !! "password_confirm" = Some (VStr pw) →
  p !! "is_google" = Some (VBool g) → p !! "is_active" = Some (VBool a) →
  match p !! "scopes" with
  | None => True
  | Some v => v = VNone ∨
              ∃ ss, v = VList (VStr <$> ss) ∧
                    Forall (λ s, (String.length s ≤ 50)%nat) ss
  end →
  ∃ m, BaseModel_init py UserCreate p = Return m ∧
       ∀ f, f ∈ UserCreate → inst_dict m !! name f = Some (default VNone (p !! name f)).
Proof.
  intros Hn Hnl Hml Hmll Hat Hpw Hpwl Hpc Hg Ha Hsc.
  assert (HM : UserCreate ∈ [UserCreate; UserUpdate]) by apply list_elem_of_here.
  pose proof (user_models_NoDup UserCreate HM) as Hnd.
  destruct (plain_model_total py p UserCreate (user_models_plain UserCreate HM))
    as [st Hst].
  assert (Hall : ∀ f, f ∈ UserCreate →
            errors_at (name f) (errors st) = [] ∧
            values st !! name f = Some (default VNone (p !! name f))).
  { intros f Hf.
    repeat (apply elem_of_cons in Hf as [->|Hf]); [..|by apply elem_of_nil in Hf].
    - destruct (field_report_at py UserCreate 0 _ p st eq_refl Hnd Hst) as (st1 & _ & H).
      cbn [name Field]. cbn [name Field] in H. rewrite Hn in H |- *.
      destruct H as (_ & o & Ho & H).
      rewrite (constr_field py (Field "name" (constr 50)) 50 None (VStr n) n _ _
                 eq_refl eq_refl eq_refl) in Ho.
      replace (50 <? String.length n)%nat with false in Ho
        by (symmetry; apply Nat.ltb_ge; lia).
      unfold validate_post in Ho. simpl in Ho. by simplify_eq.
    - destruct (field_report_at py UserCreate 1 _ p st eq_refl Hnd Hst) as (st1 & _ & H).
      cbn [name Field]. cbn [name Field] in H. rewrite Hml in H |- *.
      destruct H as (_ & o & Ho & H).
      rewrite (constr_field py (Field "mail" (constr_regex 250 mail_regex)) 250
                 (Some mail_regex) (VStr ml) ml _ _ eq_refl eq_refl eq_refl) in Ho.
      replace (250 <? String.length ml)%nat with false in Ho
        by (symmetry; apply Nat.ltb_ge; lia).
      rewrite re_match_mail, Hat in Ho.
      unfold validate_post in Ho. simpl in Ho. by simplify_eq.
    - cbn [name Field]. rewrite Hpw. simpl.
      pose proof (password_value py UserCreate 2 _ p st (VStr pw) pw eq_refl Hnd
                    ltac:(apply list_elem_of_here) Hpw eq_refl Hst) as Hv.
      replace (250 <? String.length pw)%nat with false in Hv
        by (symmetry; apply Nat.ltb_ge; lia).
      exact Hv.
    - destruct (field_report_at py UserCreate 3 _ p st eq_refl Hnd Hst) as (st1 & H1 & H).
      cbn [name decorated Field]. cbn [name decorated Field] in H.
      rewrite Hpc in H |- *. destruct H as (_ & o & Ho & H).
      pose proof (password_value py (take 3 UserCreate) 2 _ p st1 (VStr pw) pw eq_refl
                    ltac:(by apply (bool_decide_unpack _))
                    ltac:(apply list_elem_of_here) Hpw eq_refl H1) as Hv.
      replace (250 <? String.length pw)%nat with false in Hv
        by (symmetry; apply Nat.ltb_ge; lia).
      destruct Hv as [_ Hv].
      rewrite (confirm_with_password py _ (VStr pw) pw pw _ _
                 ltac:(apply list_elem_of_here) Hv eq_refl Hpwl) in Ho.
      rewrite String.eqb_refl in Ho. by simplify_eq.
    - destruct (field_report_at py UserCreate 4 _ p st eq_refl Hnd Hst) as (st1 & _ & H).
      cbn [name Field]. cbn [name Field] in H. rewrite Hg in H |- *.
      destruct H as (_ & o & Ho & H).
      rewrite (unconstrained_kept py (Field "is_google" TBool) (VBool g)
                 eq_refl eq_refl eq_refl) in Ho.
      by simplify_eq.
    - destruct (field_report_at py UserCreate 5 _ p st eq_refl Hnd Hst) as (st1 & _ & H).
      cbn [name Field]. cbn [name Field] in H. rewrite Ha in H |- *.
      destruct H as (_ & o & Ho & H).
      rewrite (unconstrained_kept py (Field "is_active" TBool) (VBool a)
                 eq_refl eq_refl eq_refl) in Ho.
      by simplify_eq.
    - destruct (field_report_at py UserCreate 6 _ p st eq_refl Hnd Hst) as (st1 & _ & H).
      cbn [name ListField Optional]. cbn [name ListField Optional required] in H.
      destruct (p !! "scopes") as [v|]; [|by destruct H as (_ & ? & ?)].
      destruct H as (_ & o & Ho & H).
      destruct Hsc as [->|(ss & -> & Hss)].
      + vm_compute in Ho. by simplify_eq.
      + unfold ModelField_validate, validate_shape, validate_sequence_like,
          validate_post in Ho.
        cbn [shape type_ post_validators ListField Optional] in Ho.
        destruct ss as [|s ss].
        * vm_compute in Ho. by simplify_eq.
        * rewrite fmap_cons in Ho. rewrite <- fmap_cons in Ho.
          rewrite (validate_items_constr 50 _ (s :: ss) 0 Hss) in Ho.
          simpl in Ho. by simplify_eq. }
  unfold BaseModel_init. rewrite Hst. cbn [mbind result_bind].
  rewrite (no_errors py UserCreate p st Hnd Hst) by (intros f Hf; apply Hall, Hf).
  eexists. split; [reflexivity|]. intros f Hf. apply Hall, Hf.
Qed.

End Requests.

(** * Closed instances of the further properties *)

(** X1 at an update that supplies [name] and a null [mail]. *)
Lemma fields_set_supplied_witness :
  ∃ st, validate_model no_conversions UserUpdate rename_user = Return st ∧
    ("mail" ∈ fields_set st ↔
       "mail" ∈ name <$> UserUpdate ∧ is_Some (rename_user !! "mail")) ∧
    ("password" ∈ fields_set st ↔
       "password" ∈ name <$> UserUpdate ∧ is_Some (rename_user !! "password")).
Proof.
  destruct (validate_model no_conversions UserUpdate rename_user) as [st|x] eqn:Hst;
    [|vm_compute in Hst; discriminate].
  exists st. split; [reflexivity|]. split.
  - exact (fields_set_supplied no_conversions UserUpdate rename_user st "mail" Hst).
  - exact (fields_set_supplied no_conversions UserUpdate rename_user st "password" Hst).
Defined.

(** X2 at an ore update with a key that [OreUpdate] does not declare. *)
Lemma unknown_keys_ignored_witness :
  BaseModel_init no_conversions OreUpdate
    (dict_of [("name", VStr "Gold"); ("colour", VStr "yellow")]) =
  BaseModel_init no_conversions OreUpdate (dict_of [("name", VStr "Gold")]).
Proof.
  apply (unknown_keys_ignored no_conversions OreUpdate).
  intros f Hf. apply elem_of_cons in Hf as [->|Hf]; [reflexivity|].
  by apply elem_of_nil in Hf.
Defined.


(** X4 at a user record with two scopes. *)
Lemma User_from_orm_scopes_witness :
  ∃ m, User_from_orm no_conversions user_record = Return m ∧
    inst_dict m !! "scopes" = Some (VList [VStr "user.read"; VStr "ore.write"]) ∧
    inst_dict m !! "id" = Some (VInt 1) ∧
    inst_dict m !! "name" = Some (VStr "Alice") ∧
    inst_dict m !! "mail" = Some (VStr "alice@example.org") ∧
    inst_dict m !! "is_google" = Some (VBool false) ∧
    inst_dict m !! "is_active" = Some (VBool true) ∧
    inst_dict m !! "created" = Some (VDatetime new_year) ∧
    inst_dict m !! "updated" = Some (VDatetime new_year) ∧
    inst_dict m !! "last_login" = Some VNone.
Proof.
  apply (User_from_orm_scopes no_conversions user_record 1 "Alice" "alice@example.org"
           false true new_year new_year VNone
           [ VObj 21 [("scope", VStr "user.read")];
             VObj 22 [("scope", VStr "ore.write")] ]
           ["user.read"; "ore.write"]); try reflexivity.
  - left. reflexivity.
  - repeat constructor.
Defined.

(** X5 at a user record with a [None] among its scopes. *)
Lemma User_from_orm_bad_scope_witness :
  ∃ a, User_from_orm no_conversions user_record_null_scope = Raise (AttributeError a).
Proof.
  apply (User_from_orm_bad_scope no_conversions user_record_null_scope
           [ VObj 21 [("scope", VStr "user.read")]; VNone ] VNone);
    [reflexivity | apply list_elem_of_further, list_elem_of_here | reflexivity].
Defined.

(** X6 at an entry whose own [ore_name] column is misspelt. *)
Lemma StationOreEfficiency_from_orm_ore_name_witness :
  ∃ m, StationOreEfficiency_from_orm no_conversions (station_entry 0.25%float) = Return m ∧
    inst_dict m = dict_of [ ("efficiency_bonus", VFloat 0.25%float);
                            ("ore_id", VInt 3);
                            ("ore_name", VStr "Quantanium") ].
Proof.
  apply (StationOreEfficiency_from_orm_ore_name no_conversions
           (station_entry 0.25%float) quantanium 0.25%float 3 "Quantanium");
    reflexivity.
Defined.

(** X7 at an entry with the efficiency 0.5 and at one with 1.5. *)
Lemma MethodOreEfficiency_from_orm_bounds_witness :
  (∃ m, MethodOreEfficiency_from_orm no_conversions (method_entry 0.5%float 90%float) =
        Return m ∧
        inst_dict m = dict_of [ ("efficiency", VFloat 0.5%float);
                                ("duration", VFloat 90%float);
                                ("ore_id", VInt 3);
                                ("ore_name", VStr "Quantanium") ]) ∧
  (∃ errs, MethodOreEfficiency_from_orm no_conversions (method_entry 1.5%float 90%float) =
           Raise (ValidationError errs)).
Proof.
  split.
  - exact (MethodOreEfficiency_from_orm_bounds no_conversions
             (method_entry 0.5%float 90%float) quantanium 0.5%float 90%float 3
             "Quantanium" eq_refl eq_refl eq_refl eq_refl eq_refl).
  - exact (MethodOreEfficiency_from_orm_bounds no_conversions
             (method_entry 1.5%float 90%float) quantanium 1.5%float 90%float 3
             "Quantanium" eq_refl eq_refl eq_refl eq_refl eq_refl).
Defined.

(** X8 at a friendship record whose friend is not loaded. *)
Lemma Friendship_from_orm_without_relation_witness :
  ∃ a, Friendship_from_orm no_conversions friendship_without_friend =
       Raise (AttributeError a).
Proof.
  apply (Friendship_from_orm_without_relation no_conversions friendship_without_friend).
  right. reflexivity.
Defined.

(** X9 at a station record whose second entry has no ore. *)
Lemma efficiencies_entry_without_ore_witness :
  ∃ x, Station_from_orm no_conversions station_record = Raise x ∧ uncaught x.
Proof.
  apply (efficiencies_entry_without_ore no_conversions
           (Station_from_orm no_conversions) station_record
           [station_entry 0.25%float; efficiency_record_without_ore] 1
           [ ("efficiency_bonus", VFloat 0.25%float);
             ("efficiency", VFloat 0.5%float);
             ("duration", VFloat 90%float);
             ("ore_id", VInt 7);
             ("ore", VNone) ]);
    [apply list_elem_of_here | reflexivity
    | apply list_elem_of_further, list_elem_of_here | reflexivity].
Defined.

(** X10 at an ore without a name. *)
Lemma init_raises_witness :
  (∃ errs, ValidationError [([LName "name"], MissingError)] = ValidationError errs ∧
           errs ≠ []) ∨
  uncaught (ValidationError [([LName "name"], MissingError)]).
Proof.
  apply (init_raises no_conversions OreCreate ∅). reflexivity.
Defined.

(** X11 at a new method whose second entry has the efficiency 1.5. *)
Lemma efficiency_error_location_witness :
  ∃ st, validate_model no_conversions (MethodCreate no_conversions) method_payload =
        Return st ∧
    ([LName "efficiencies"; LIndex 1; LName "efficiency"], NumberNotLeError 1%float)
      ∈ errors st ∧
    BaseModel_init no_conversions (MethodCreate no_conversions) method_payload =
    Raise (ValidationError (errors st)).
Proof.
  destruct (validate_model no_conversions (MethodCreate no_conversions) method_payload)
    as [st|x] eqn:Hst; [|vm_compute in Hst; discriminate].
  exists st. split; [reflexivity|].
  exact (efficiency_error_location no_conversions (MethodCreate no_conversions)
           method_payload _ 1
           [ ("efficiency", VFloat 1.5%float);
             ("duration", VFloat 60%float);
             ("ore_id", VInt 4) ]
           1.5%float st
           ltac:(apply list_elem_of_here) eq_refl eq_refl eq_refl eq_refl Hst).
Defined.

(** X12 at a full user record, of which the reference keeps two columns. *)
Lemma Related_validate_reduces_witness :
  Related_validate no_conversions user_record =
  Return (VModel "Related" [("id", VInt 1); ("name", VStr "Alice")] ["id"; "name"]).
Proof.
  apply (Related_validate_reduces no_conversions user_record
           [ ("id", VInt 1);
             ("name", VStr "Alice");
             ("mail", VStr "alice@example.org");
             ("is_google", VBool false);
             ("is_active", VBool true);
             ("created", VDatetime new_year);
             ("updated", VDatetime new_year);
             ("last_login", VNone);
             ("scopes", VList [ VObj 21 [("scope", VStr "user.read")];
                                VObj 22 [("scope", VStr "ore.write")] ]) ]);
    [right; exists 20%N; reflexivity | reflexivity | reflexivity].
Defined.

(** X13 at a session record. *)
Lemma MiningSession_creator_witness :
  ∃ m, BaseModel_from_orm no_conversions (MiningSession no_conversions) session_record =
       Return m ∧
    inst_dict m !! "creator" =
    Some (VModel "Related" [("id", VInt 1); ("name", VStr "Alice")] ["id"; "name"]).
Proof.
  destruct (BaseModel_from_orm no_conversions (MiningSession no_conversions)
              session_record) as [m|x] eqn:Hm; [|vm_compute in Hm; discriminate].
  exists m. split; [reflexivity|].
  apply (MiningSession_creator no_conversions (MiningSession no_conversions)
           session_record 20
           [ ("id", VInt 1);
             ("name", VStr "Alice");
             ("mail", VStr "alice@example.org");
             ("is_google", VBool false);
             ("is_active", VBool true);
             ("created", VDatetime new_year);
             ("updated", VDatetime new_year);
             ("last_login", VNone);
             ("scopes", VList [ VObj 21 [("scope", VStr "user.read")];
                                VObj 22 [("scope", VStr "ore.write")] ]) ]
           1 "Alice" m);
    [apply list_elem_of_here | reflexivity | reflexivity | reflexivity | exact Hm].
Defined.

(** X14 at an ore record. *)
Lemma Ore_from_orm_copies_witness :
  ∃ m, BaseModel_from_orm no_conversions Ore ore_record = Return m ∧
    inst_dict m = dict_of [ ("id", VInt 3);
                            ("name", VStr "Quantanium");
                            ("created", VDatetime new_year);
                            ("updated", VDatetime new_year) ].
Proof.
  apply (Ore_from_orm_copies no_conversions ore_record 3 "Quantanium" new_year new_year);
    reflexivity.
Defined.

(** X15 at a new ore with a name of 51 letters. *)
Lemma name_limit_witness :
  ∃ st, validate_model no_conversions OreCreate
          (dict_of [("name", VStr (letters 51))]) = Return st ∧
    errors_at "name" (errors st) = [([LName "name"], AnyStrMaxLengthError 50)] ∧
    values st !! "name" = None ∧
    BaseModel_init no_conversions OreCreate (dict_of [("name", VStr (letters 51))]) =
    Raise (ValidationError (errors st)).
Proof.
  destruct (validate_model no_conversions OreCreate
              (dict_of [("name", VStr (letters 51))])) as [st|x] eqn:Hst;
    [|vm_compute in Hst; discriminate].
  exists st. split; [reflexivity|].
  apply (proj1 (name_limit no_conversions OreCreate
                  (dict_of [("name", VStr (letters 51))]) (VStr (letters 51))
                  (letters 51) st
                  ltac:(apply list_elem_of_further, list_elem_of_further,
                          list_elem_of_here)
                  eq_refl eq_refl Hst)).
  vm_compute. lia.
Defined.

(** X16 at a login. *)
Lemma Login_limits_witness :
  ∃ m, BaseModel_init no_conversions Login
         (dict_of [("username", VStr "alice"); ("password", VStr "secret")]) = Return m ∧
    inst_dict m = dict_of [("username", VStr "alice"); ("password", VStr "secret")].
Proof.
  exact (Login_limits no_conversions
           (dict_of [("username", VStr "alice"); ("password", VStr "secret")])
           "alice" "secret" eq_refl eq_refl).
Defined.

(** X17 at a query for a mail address of 312 characters. *)
Lemma UserQuery_mail_any_length_witness :
  ∃ st, validate_model no_conversions UserQuery (dict_of [("mail", VStr long_mail)]) =
        Return st ∧
    errors_at "mail" (errors st) = [] ∧ values st !! "mail" = Some (VStr long_mail).
Proof.
  exact (UserQuery_mail_any_length no_conversions
           (dict_of [("mail", VStr long_mail)]) long_mail eq_refl).
Defined.

(** X18 at an update that carries a confirmation only. *)
Lemma confirm_against_missing_password_witness :
  ∃ st, validate_model no_conversions UserUpdate
          (dict_of [("password_confirm", VStr "secret")]) = Return st ∧
    errors_at "password_confirm" (errors st) = [mismatch] ∧
    BaseModel_init no_conversions UserUpdate
      (dict_of [("password_confirm", VStr "secret")]) =
    Raise (ValidationError (errors st)).
Proof.
  apply (confirm_against_missing_password no_conversions
           (dict_of [("password_confirm", VStr "secret")]) (VStr "secret") "secret");
    [left; reflexivity | reflexivity | reflexivity | vm_compute; lia].
Defined.

(** X19 at a sign-up without scopes. *)
Lemma UserCreate_accepts_witness :
  ∃ m, BaseModel_init no_conversions UserCreate
         (signup "alice@example.org" "secret" "secret") = Return m ∧
    ∀ f, f ∈ UserCreate →
      inst_dict m !! name f =
      Some (default VNone (signup "alice@example.org" "secret" "secret" !! name f)).
Proof.
  apply (UserCreate_accepts no_conversions
           (signup "alice@example.org" "secret" "secret")
           "alice" "alice@example.org" "secret" false true);
    try reflexivity; vm_compute; lia.
Defined.
